(** * PMS admin backend: role assignments, users, and their reconciliation

    A shallow embedding of the NestJS admin module
    ([admin.service.ts], the current [AdminService], and
    [admin.controller.ts]) together with the properties of the
    role-assignment engine.

    Modelling conventions.
    - A JavaScript string is a [string]: a sequence of code units below 256.
      [toLowerCase] stays below 256.  [toUpperCase] turns the sharp s into
      SS; the upper case of the micro sign (181) and of the y with
      diaeresis (255) is a code unit beyond 255, so these two are left as
      they are and a statement about an upper-cased value is made for
      strings without them ([JS.upper_in_range]).
    - A value of type [string | null | undefined] is an [option string].
    - The Prisma client is an external library: each table is a list of rows
      in insertion order, [create] appends, [findMany] filters and sorts,
      [delete] fails when no row has the id.  Ids and creation instants come
      from the database; the model draws both from one counter [tick], so
      that rows created one after the other have increasing instants, and
      the id through an arbitrary generator (class [IdGenerator]).  Rows
      with equal sort keys come in the order the merge sort leaves them.
    - An [async] method is a computation [M A]: it takes the database,
      returns a value or throws, and leaves a database behind.  Nothing is
      rolled back when an exception is thrown: the source opens no
      transaction. *)

From Stdlib Require Import Ascii String.
From stdpp Require Import base strings list gmap fin_maps sorting pretty.

Open Scope string_scope.
Open Scope nat_scope.

(** ** JavaScript strings *)

Module JS.

(** White space removed by [String.prototype.trim], within the code units
    below 256: TAB, LF, VT, FF, CR, SPACE and NBSP. *)
Definition isWhiteSpace (c : ascii) : bool :=
  let n := nat_of_ascii c in
  ((9 <=? n) && (n <=? 13)) || (n =? 32) || (n =? 160).

Fixpoint trimStart (s : string) : string :=
  match s with
  | EmptyString => EmptyString
  | String c s' => if isWhiteSpace c then trimStart s' else s
  end.

Definition trimEnd (s : string) : string :=
  String.rev (trimStart (String.rev s)).

Definition trim (s : string) : string := trimEnd (trimStart s).

(** Truthiness of a string: every string but the empty one. *)
Definition truthy (s : string) : bool := negb (bool_decide (s = "")).

(** Truthiness of a [string | null]. *)
Definition truthy_opt (v : option string) : bool :=
  match v with Some s => truthy s | None => false end.

(** [toLowerCase] on code units below 256. *)
Definition lowerChar (c : ascii) : ascii :=
  let n := nat_of_ascii c in
  if ((65 <=? n) && (n <=? 90))
     || ((192 <=? n) && (n <=? 222) && negb (n =? 215))
  then ascii_of_nat (n + 32) else c.

Fixpoint mapChars (f : ascii -> ascii) (s : string) : string :=
  match s with
  | EmptyString => EmptyString
  | String c s' => String (f c) (mapChars f s')
  end.

Definition toLowerCase : string -> string := mapChars lowerChar.

(** [toUpperCase] on code units below 256.  The upper case of one code
    unit is a string: the sharp s (223) becomes the two letters SS, the
    letters a-z and 224-254 (but the division sign, 247) move down by 32,
    everything else stays.  The micro sign (181) and the y with diaeresis
    (255) have their upper case beyond 255 (U+039C and U+0178) and stay as
    they are here: see [upper_in_range]. *)
Definition upperChar (c : ascii) : string :=
  let n := nat_of_ascii c in
  if n =? 223 then "SS"
  else if ((97 <=? n) && (n <=? 122))
          || ((224 <=? n) && (n <=? 254) && negb (n =? 247))
  then String (ascii_of_nat (n - 32)) EmptyString
  else String c EmptyString.

Fixpoint toUpperCase (s : string) : string :=
  match s with
  | EmptyString => EmptyString
  | String c s' => upperChar c +:+ toUpperCase s'
  end.

(** [s.replace(/[^\d]/g, '')]: keep the decimal digits. *)
Definition isDigit (c : ascii) : bool :=
  let n := nat_of_ascii c in (48 <=? n) && (n <=? 57).

Fixpoint keepDigits (s : string) : string :=
  match s with
  | EmptyString => EmptyString
  | String c s' => if isDigit c then String c (keepDigits s') else keepDigits s'
  end.

(** [s.includes(q)], the test behind Prisma's [contains]. *)
Fixpoint startsWith (q s : string) : bool :=
  match q, s with
  | EmptyString, _ => true
  | String _ _, EmptyString => false
  | String a q', String b s' => bool_decide (a = b) && startsWith q' s'
  end.

Fixpoint includes (q s : string) : bool :=
  startsWith q s ||
  match s with
  | EmptyString => false
  | String _ s' => includes q s'
  end.

(** A string between double quotes, as a template literal writes it. *)
Definition quoted (s : string) : string :=
  String (ascii_of_nat 34) (s +:+ String (ascii_of_nat 34) EmptyString).

(** The property names every object literal inherits from
    [Object.prototype]. *)
Definition Object_prototype_keys : list string :=
  [ "constructor"; "hasOwnProperty"; "isPrototypeOf"; "propertyIsEnumerable";
    "toLocaleString"; "toString"; "valueOf"; "__proto__";
    "__defineGetter__"; "__defineSetter__"; "__lookupGetter__";
    "__lookupSetter__" ].

(** What a read [obj[k] ?? null] can yield here: [null], a string, or one
    of the functions and objects inherited from [Object.prototype]. *)
Inductive value :=
| VNull
| VStr (s : string)
| VInherited.

(** [obj[k] ?? null] for an object literal whose own properties are [obj]
    and whose values are [string | null]. *)
Definition get_or_null (obj : gmap string (option string)) (k : string) : value :=
  match obj !! k with
  | Some (Some s) => VStr s
  | Some None => VNull
  | None => if bool_decide (k ∈ Object_prototype_keys) then VInherited else VNull
  end.

Definition is_null (v : value) : bool :=
  match v with VNull => true | _ => false end.

Definition truthy_value (v : value) : bool :=
  match v with VNull => false | VStr s => truthy s | VInherited => true end.

(** [cur === next] for [cur : string | null]. *)
Definition same_user (cur : option string) (next : value) : bool :=
  match cur, next with
  | Some a, VStr b => bool_decide (a = b)
  | None, VNull => true
  | _, _ => false
  end.

(** [obj[k] = s] on an object literal, [s] a string: assigning a string
    to [__proto__] runs the inherited setter, which ignores it and creates
    no property. *)
Definition set_prop (k : string) (s : string)
    (obj : gmap string (option string)) : gmap string (option string) :=
  if bool_decide (k = "__proto__") then obj else <[k := Some s]> obj.

(** A [Map<string, V>]: entries in insertion order; [set] on a present key
    replaces the value and keeps the position. *)
Fixpoint Map_set {V} (k : string) (v : V) (m : list (string * V)) : list (string * V) :=
  match m with
  | [] => [(k, v)]
  | (k', v') :: m' =>
      if bool_decide (k' = k) then (k, v) :: m' else (k', v') :: Map_set k v m'
  end.

Fixpoint Map_get {V} (k : string) (m : list (string * V)) : option V :=
  match m with
  | [] => None
  | (k', v') :: m' => if bool_decide (k' = k) then Some v' else Map_get k m'
  end.

(** A string that is empty or starts with a character [trim] keeps. *)
Definition starts_clean (s : string) : Prop :=
  match s with
  | EmptyString => True
  | String c _ => isWhiteSpace c = false
  end.

(** Every character of the string passes the test. *)
Fixpoint all_chars (test : ascii → bool) (s : string) : Prop :=
  match s with
  | EmptyString => True
  | String c s' => test c = true ∧ all_chars test s'
  end.

(** The strings on which [toUpperCase] above is the one of JavaScript:
    those without the two code units whose upper case lies beyond 255. *)
Definition upper_in_range (s : string) : Prop :=
  all_chars (fun c => negb ((nat_of_ascii c =? 181) || (nat_of_ascii c =? 255))) s.

End JS.

(** ** The database behind the Prisma client *)

Module Prisma.

Record Project := {
  p_projectId : string;
  p_code : string;
  p_name : string;
  p_city : string;
  p_stage : string;
  p_status : string;
  p_health : string;
}.

Record User := {
  u_userId : string;
  u_code : string;
  u_role : string;
  u_name : string;
  u_city : option string;
  u_email : option string;
  u_phone : option string;
  u_isSuperAdmin : bool;
  u_createdAt : nat;
}.

(** A [ProjectMember] row: one user in one role on one project.  The
    joined [user] that [include: { user: true }] adds for display is
    not read by any caller and is left out. *)
Record ProjectMember := {
  m_id : string;
  m_projectId : string;
  m_userId : string;
  m_role : string;
  m_createdAt : nat;
}.

Record db := {
  projects : list Project;
  users : list User;
  projectMembers : list ProjectMember;
  tick : nat;
}.

Global Instance ProjectMember_eq_dec : EqDecision ProjectMember.
Proof. solve_decision. Defined.

Global Instance User_eq_dec : EqDecision User.
Proof. solve_decision. Defined.

(** The id the database gives to the row inserted at instant [n]. *)
Class IdGenerator := generate_id : nat -> string.

(** The collation by which the database orders [User.name]. *)
Class Collation := {
  name_le : relation string;
  name_le_dec :: RelDecision name_le;
  name_le_total :: Total name_le;
  name_le_trans :: Transitive name_le;
}.

Inductive exn :=
| BadRequestException (message : string)
| RecordNotFound
| TypeError (message : string).

Inductive result (A : Type) :=
| Ok (a : A)
| Throw (e : exn).
Global Arguments Ok {A} a.
Global Arguments Throw {A} e.

(** An asynchronous computation against the database. *)
Definition M (A : Type) : Type := db -> result A * db.

Definition ret {A} (a : A) : M A := fun s => (Ok a, s).

Definition throw {A} (e : exn) : M A := fun s => (Throw e, s).

(** [await]: run [c], then continue with its value; an exception ends the
    computation and keeps the database as [c] left it. *)
Definition bind {A B} (c : M A) (k : A -> M B) : M B :=
  fun s =>
    match c s with
    | (Ok a, s') => k a s'
    | (Throw e, s') => (Throw e, s')
    end.

(** [for (const x of l) { await body(x) }] *)
Fixpoint forEach {A} (l : list A) (body : A -> M unit) : M unit :=
  match l with
  | [] => ret tt
  | x :: l' => bind (body x) (fun _ => forEach l' body)
  end.

(** Newest first: [orderBy: { createdAt: 'desc' }]. *)
Definition newer_first (a b : ProjectMember) : Prop :=
  m_createdAt b <= m_createdAt a.

Global Instance newer_first_dec : RelDecision newer_first.
Proof. intros a b. unfold newer_first. apply _. Defined.

Definition user_newer_first (a b : User) : Prop :=
  u_createdAt b <= u_createdAt a.

Global Instance user_newer_first_dec : RelDecision user_newer_first.
Proof. intros a b. unfold user_newer_first. apply _. Defined.

Definition by_name {C : Collation} (a b : User) : Prop :=
  name_le (u_name a) (u_name b).

Global Instance by_name_dec {C : Collation} : RelDecision by_name.
Proof. intros a b. unfold by_name. apply _. Defined.

(** [project.findUnique({ where: { projectId } })] *)
Definition project_findUnique (projectId : string) : M (option Project) :=
  fun s => (Ok (find (fun p => bool_decide (p_projectId p = projectId)) (projects s)), s).

(** [user.findUnique({ where: { userId } })] *)
Definition user_findUnique (userId : string) : M (option User) :=
  fun s => (Ok (find (fun u => bool_decide (u_userId u = userId)) (users s)), s).

(** [user.findFirst({ where })] *)
Definition user_findFirst (where_ : User -> bool) : M (option User) :=
  fun s => (Ok (find where_ (users s)), s).

(** [user.findMany({ where, orderBy, take })] *)
Definition user_findMany (where_ : User -> bool) (orderBy : relation User)
    `{!RelDecision orderBy} (take_ : nat) : M (list User) :=
  fun s => (Ok (take take_ (merge_sort orderBy (filter (fun u => where_ u = true) (users s)))), s).

(** [user.create({ data })]: the row gets its id and [createdAt] from the
    database. *)
Definition user_create {G : IdGenerator}
    (code role name : string) (city email phone : option string)
    (isSuperAdmin : bool) : M User :=
  fun s =>
    let row := {| u_userId := generate_id (tick s); u_code := code;
                  u_role := role; u_name := name; u_city := city;
                  u_email := email; u_phone := phone;
                  u_isSuperAdmin := isSuperAdmin; u_createdAt := tick s |} in
    (Ok row, {| projects := projects s; users := users s ++ [row];
                projectMembers := projectMembers s; tick := S (tick s) |}).

(** [projectMember.create({ data: { projectId, userId, role } })] *)
Definition projectMember_create {G : IdGenerator}
    (projectId userId role : string) : M ProjectMember :=
  fun s =>
    let row := {| m_id := generate_id (tick s); m_projectId := projectId;
                  m_userId := userId; m_role := role;
                  m_createdAt := tick s |} in
    (Ok row, {| projects := projects s; users := users s;
                projectMembers := projectMembers s ++ [row];
                tick := S (tick s) |}).

(** [projectMember.findMany({ where: { projectId }, orderBy: { createdAt: 'desc' } })] *)
Definition projectMember_findMany (projectId : string) : M (list ProjectMember) :=
  fun s =>
    (Ok (merge_sort newer_first
           (filter (fun m => m_projectId m = projectId) (projectMembers s))), s).

(** [projectMember.delete({ where: { id } })]: [id] is the primary key;
    Prisma throws when no row has it. *)
Definition projectMember_delete (id : string) : M ProjectMember :=
  fun s =>
    match find (fun m => bool_decide (m_id m = id)) (projectMembers s) with
    | Some row =>
        (Ok row, {| projects := projects s; users := users s;
                    projectMembers := filter (fun m => m_id m ≠ id) (projectMembers s);
                    tick := tick s |})
    | None => (Throw RecordNotFound, s)
    end.

(** [project.findFirst({ where })] *)
Definition project_findFirst (where_ : Project -> bool) : M (option Project) :=
  fun s => (Ok (find where_ (projects s)), s).

Definition project_by_name {C : Collation} (a b : Project) : Prop :=
  name_le (p_name a) (p_name b).

Global Instance project_by_name_dec {C : Collation} : RelDecision project_by_name.
Proof. intros a b. unfold project_by_name. apply _. Defined.

(** [project.findMany({ where, orderBy, take })] *)
Definition project_findMany (where_ : Project -> bool) (orderBy : relation Project)
    `{!RelDecision orderBy} (take_ : nat) : M (list Project) :=
  fun s => (Ok (take take_ (merge_sort orderBy (filter (fun p => where_ p = true) (projects s)))), s).

(** [project.create({ data })]: the row gets its id from the database. *)
Definition project_create {G : IdGenerator}
    (code name city stage status health : string) : M Project :=
  fun s =>
    let row := {| p_projectId := generate_id (tick s); p_code := code;
                  p_name := name; p_city := city; p_stage := stage;
                  p_status := status; p_health := health |} in
    (Ok row, {| projects := projects s ++ [row]; users := users s;
                projectMembers := projectMembers s; tick := S (tick s) |}).

End Prisma.

Notation "'await' x '←' c ';' k" := (Prisma.bind c (fun x => k))
  (at level 10, x name, c at level 99, k at level 200, only parsing).

(** ** [AdminService] (admin.service.ts) *)

Module AdminService.
Import JS Prisma.

Record CreateUserDto := {
  cu_code : string;
  cu_role : string;
  cu_name : string;
  cu_city : option string;
  cu_email : option string;
  cu_phone : option string;
  cu_isSuperAdmin : option bool;
}.

Record AssignDto := {
  a_projectId : string;
  a_userId : string;
  a_role : string;
}.

Definition normStr (v : option string) : string :=
  trim (default "" v).

Definition normEmail (v : option string) : option string :=
  let s := normStr v in
  if truthy s then Some (toLowerCase s) else None.

Definition normPhone (v : option string) : option string :=
  let s := normStr v in
  if negb (truthy s) then None
  else
    let digits := keepDigits s in
    if truthy digits then Some digits else None.

Definition createUser {G : IdGenerator} (dto : CreateUserDto) : M User :=
  let code := toUpperCase (normStr (Some (cu_code dto))) in
  let role := normStr (Some (cu_role dto)) in
  let name := normStr (Some (cu_name dto)) in
  let city := normStr (cu_city dto) in
  let email := normEmail (cu_email dto) in
  let phone := normPhone (cu_phone dto) in
  let isSuperAdmin := default false (cu_isSuperAdmin dto) in
  if negb (truthy code) || negb (truthy role) || negb (truthy name) then
    throw (BadRequestException "code, role and name are required")
  else if negb (truthy_opt email) && negb (truthy_opt phone) then
    throw (BadRequestException "Either email or phone is required")
  else
    await codeExists ← user_findFirst (fun u => bool_decide (u_code u = code));
    await emailExists ←
      (if truthy_opt email
       then user_findFirst (fun u => bool_decide (u_email u = email))
       else ret None);
    await phoneExists ←
      (if truthy_opt phone
       then user_findFirst (fun u => bool_decide (u_phone u = phone))
       else ret None);
    if bool_decide (is_Some codeExists) then
      throw (BadRequestException ("User code " +:+ quoted code +:+ " already exists"))
    else if bool_decide (is_Some emailExists) then
      throw (BadRequestException ("Email " +:+ quoted (default "null" email) +:+ " already in use"))
    else if bool_decide (is_Some phoneExists) then
      throw (BadRequestException ("Phone " +:+ quoted (default "null" phone) +:+ " already in use"))
    else
      user_create code role name
        (if truthy city then Some city else None) email phone isSuperAdmin.

(** Prisma's [contains], with and without [mode: 'insensitive']; a [null]
    column matches nothing. *)
Definition contains (query field : string) : bool := includes query field.

Definition contains_insensitive (query field : string) : bool :=
  includes (toLowerCase query) (toLowerCase field).

Definition on_column (test : string -> bool) (column : option string) : bool :=
  match column with Some v => test v | None => false end.

Definition matches (query : string) (u : User) : bool :=
  on_column (contains_insensitive query) (u_email u)
  || contains_insensitive query (u_name u)
  || contains_insensitive query (u_code u)
  || contains_insensitive query (u_role u)
  || on_column (contains query) (u_phone u).

Definition searchUsers {C : Collation} (q : option string) : M (list User) :=
  let query := trim (default "" q) in
  if negb (truthy query) then
    user_findMany (fun _ => true) user_newer_first 50
  else
    user_findMany (matches query) by_name 50.

Definition assign {G : IdGenerator} (dto : AssignDto) : M ProjectMember :=
  let projectId := normStr (Some (a_projectId dto)) in
  let userId := normStr (Some (a_userId dto)) in
  let role := normStr (Some (a_role dto)) in
  if negb (truthy projectId) || negb (truthy userId) || negb (truthy role) then
    throw (BadRequestException "projectId, userId, role required")
  else
    await proj ← project_findUnique projectId;
    await user ← user_findUnique userId;
    if negb (bool_decide (is_Some proj)) then
      throw (BadRequestException "Invalid projectId")
    else if negb (bool_decide (is_Some user)) then
      throw (BadRequestException "Invalid userId")
    else
      projectMember_create projectId userId role.

Definition listAssignments (projectId : string) : M (list ProjectMember) :=
  let pid := normStr (Some projectId) in
  if negb (truthy pid) then throw (BadRequestException "projectId required")
  else projectMember_findMany pid.

Definition removeAssignment (id : string) : M ProjectMember :=
  let pid := normStr (Some id) in
  if negb (truthy pid) then throw (BadRequestException "id required")
  else projectMember_delete pid.

Record CreateProjectDto := {
  cp_code : string;
  cp_name : string;
  cp_city : string;
  cp_status : option string;
  cp_stage : string;
  cp_health : option string;
}.

Definition createProject {G : IdGenerator} (dto : CreateProjectDto) : M Project :=
  let code := toUpperCase (normStr (Some (cp_code dto))) in
  let name := normStr (Some (cp_name dto)) in
  let city := normStr (Some (cp_city dto)) in
  let stage := normStr (Some (cp_stage dto)) in
  let status := if truthy (normStr (cp_status dto)) then normStr (cp_status dto) else "Ongoing" in
  let health := if truthy (normStr (cp_health dto)) then normStr (cp_health dto) else "Good" in
  if negb (truthy code) || negb (truthy name) || negb (truthy city) || negb (truthy stage) then
    throw (BadRequestException "code, name, city, stage are required")
  else
    await exists_ ← project_findFirst (fun p => bool_decide (p_code p = code));
    if bool_decide (is_Some exists_) then
      throw (BadRequestException ("Project code " +:+ quoted code +:+ " already exists"))
    else
      project_create code name city stage status health.

Definition project_matches (query : string) (p : Project) : bool :=
  contains_insensitive query (p_code p)
  || contains_insensitive query (p_name p)
  || contains_insensitive query (p_city p).

Definition listProjects {C : Collation} (q : option string) : M (list Project) :=
  let query := normStr q in
  project_findMany
    (if truthy query then project_matches query else fun _ => true)
    project_by_name 50.

End AdminService.

(** ** [AdminController] (admin.controller.ts) *)

Module AdminController.
Import JS Prisma.

Definition ROLE_CATALOG : list string :=
  [ "Admin"; "Customer"; "PMC"; "Architect"; "Designer"; "Contractor";
    "Legal/Liasoning"; "Ava-PMT"; "Engineer (Contractor)"; "DC (Contractor)";
    "DC (PMC)"; "Inspector (PMC)"; "HOD (PMC)" ].

(** POST /admin/users.  A field the request leaves out is [None]. *)
Record CreateUserBody := {
  b_code : option string;
  b_role : option string;
  b_name : option string;
  b_city : option string;
  b_email : option string;
  b_phone : option string;
  b_isSuperAdmin : option bool;
}.

Definition createUser {G : IdGenerator} (dto : CreateUserBody) : M User :=
  if negb (truthy_opt (b_code dto)) || negb (truthy_opt (b_role dto))
     || negb (truthy_opt (b_name dto)) then
    throw (BadRequestException "code, role and name are required")
  else
    AdminService.createUser
      {| AdminService.cu_code := default "" (b_code dto);
         AdminService.cu_role := default "" (b_role dto);
         AdminService.cu_name := default "" (b_name dto);
         AdminService.cu_city := b_city dto;
         AdminService.cu_email := b_email dto;
         AdminService.cu_phone := b_phone dto;
         AdminService.cu_isSuperAdmin := b_isSuperAdmin dto |}.

(** GET /admin/users?q= : [q || ''] *)
Definition searchUsers {C : Collation} (q : option string) : M (list User) :=
  AdminService.searchUsers (Some (if truthy_opt q then default "" q else "")).

(** POST /admin/assignments *)
Definition assign {G : IdGenerator} (dto : AdminService.AssignDto) : M ProjectMember :=
  AdminService.assign dto.

(** GET /admin/assignments?projectId= *)
Definition listAssignments (projectId : string) : M (list ProjectMember) :=
  AdminService.listAssignments projectId.

(** DELETE /admin/assignments?id= *)
Definition removeAssignment (id : string) : M ProjectMember :=
  AdminService.removeAssignment id.

Record RolesResponse := {
  ok : bool;
  assignments : gmap string (option string);
}.

(** GET /admin/projects/:id/roles *)
Definition getProjectRoles (projectId : string) : M RolesResponse :=
  await items ← AdminService.listAssignments projectId;
  let assignments : gmap string (option string) :=
    foldl (fun acc role => <[role := None]> acc) ∅ ROLE_CATALOG in
  let assignments :=
    foldl (fun acc row =>
             if truthy (m_role row) then set_prop (m_role row) (m_userId row) acc
             else acc)
          assignments items in
  ret {| ok := true; assignments := assignments |}.

(** The value type of [currentByRole]. *)
Record Current := {
  c_id : string;
  c_userId : string;
}.

(** POST /admin/projects/:id/assign-roles.  [body] is the [assignments]
    member of the request body, [None] when the body has none or it is
    not an object. *)
Definition setProjectRoles {G : IdGenerator} (projectId : string)
    (body : option (gmap string (option string))) : M bool :=
  match body with
  | None => throw (BadRequestException "assignments object is required")
  | Some body_assignments =>
      (* 1) Load current assignments *)
      await currentItems ← AdminService.listAssignments projectId;
      let currentByRole : list (string * Current) :=
        foldl (fun acc row =>
                 if truthy (m_role row) && truthy (m_id row)
                 then Map_set (m_role row)
                        {| c_id := m_id row; c_userId := m_userId row |} acc
                 else acc)
              [] currentItems in
      (* Normalize incoming: [body.assignments.hasOwnProperty] is the
         snapshot's own property when it has one of that name, and a
         string or null cannot be called. *)
      if bool_decide (is_Some (body_assignments !! "hasOwnProperty")) then
        throw (TypeError "body.assignments.hasOwnProperty is not a function")
      else
      let desired : gmap string (option string) :=
        foldl (fun acc role =>
                 <[role := match body_assignments !! role with
                           | Some v => v
                           | None => None
                           end]> acc)
              ∅ ROLE_CATALOG in
      (* 2) Remove roles that should be None/null *)
      await _ ← forEach currentByRole (fun '(role, cur) =>
        match get_or_null desired role with
        | VNull => await _ ← AdminService.removeAssignment (c_id cur); ret tt
        | _ => ret tt
        end);
      (* 3) Upsert (assign new/different) *)
      await _ ← forEach ROLE_CATALOG (fun role =>
        let nextUserId := get_or_null desired role in
        let cur := Map_get role currentByRole in
        let curUserId := c_userId <$> cur in
        (* if both null -> nothing to do *)
        if bool_decide (curUserId = None) && is_null nextUserId then ret tt
        (* if same user -> nothing to do *)
        else if truthy_opt curUserId && truthy_value nextUserId
                && same_user curUserId nextUserId then ret tt
        (* else (no current and we have next) OR (different user) *)
        else if truthy_value nextUserId then
          match nextUserId with
          | VStr next =>
              await _ ← AdminService.assign
                {| AdminService.a_projectId := projectId;
                   AdminService.a_userId := next;
                   AdminService.a_role := role |};
              ret tt
          | _ => throw (TypeError "(v ?? '').trim is not a function")
          end
        else ret tt);
      ret true
  end.

(** POST /admin/projects *)
Definition createProject {G : IdGenerator} (dto : AdminService.CreateProjectDto)
    : M Project :=
  AdminService.createProject dto.

(** GET /admin/projects?q= *)
Definition listProjects {C : Collation} (q : option string) : M (list Project) :=
  AdminService.listProjects q.

End AdminController.

(** ** The "Create New User" page (AdminUserNew.tsx), a caller of POST /admin/users *)

Module AdminUserNew.
Import JS Prisma.

(** The form state: every field is a string, the role one of the page's
    options, never empty. *)
Record Form := {
  f_code : string;
  f_role : string;
  f_name : string;
  f_city : string;
  f_email : string;
  f_phone : string;
  f_isSuperAdmin : bool;
}.

(** The test [submit] makes before it posts the form; when it holds the
    page shows an error and posts nothing. *)
Definition incomplete (form : Form) : bool :=
  negb (truthy (f_code form)) || negb (truthy (f_name form))
  || (negb (truthy (f_email form)) && negb (truthy (f_phone form))).

(** The JSON body [api.post(endpoints.admin.users, form)] sends. *)
Definition body (form : Form) : AdminController.CreateUserBody :=
  {| AdminController.b_code := Some (f_code form);
     AdminController.b_role := Some (f_role form);
     AdminController.b_name := Some (f_name form);
     AdminController.b_city := Some (f_city form);
     AdminController.b_email := Some (f_email form);
     AdminController.b_phone := Some (f_phone form);
     AdminController.b_isSuperAdmin := Some (f_isSuperAdmin form) |}.

End AdminUserNew.

(** ** The two loops of [getProjectRoles] *)

Module View.
Import JS Prisma.

(** Every catalog role, set to [null]. *)
Definition blank_roles : gmap string (option string) :=
  foldl (fun acc role => <[role := None]> acc) ∅ AdminController.ROLE_CATALOG.

(** One round of the loop over the rows. *)
Definition report (acc : gmap string (option string)) (row : ProjectMember)
    : gmap string (option string) :=
  if truthy (m_role row) then set_prop (m_role row) (m_userId row) acc else acc.

(** The rows [listAssignments] yields for a trimmed, non-blank projectId. *)
Definition listing (pid : string) (s : db) : list ProjectMember :=
  merge_sort newer_first (filter (fun m => m_projectId m = pid) (projectMembers s)).

End View.

(** ** The reconciliation read as a plan of storage operations *)

Module Plan.
Import JS Prisma.

(** The two storage operations [setProjectRoles] issues. *)
Inductive mutation :=
| Remove (id : string)
| Assign (dto : AdminService.AssignDto).

Definition apply {G : IdGenerator} (m : mutation) : M unit :=
  match m with
  | Remove id => await _ ← AdminService.removeAssignment id; ret tt
  | Assign dto => await _ ← AdminService.assign dto; ret tt
  end.

(** One round of the loop that fills [currentByRole]. *)
Definition remember (acc : list (string * AdminController.Current))
    (row : ProjectMember) : list (string * AdminController.Current) :=
  if truthy (m_role row) && truthy (m_id row)
  then Map_set (m_role row)
         {| AdminController.c_id := m_id row;
            AdminController.c_userId := m_userId row |} acc
  else acc.

(** [currentByRole] as [setProjectRoles] builds it from the listing. *)
Definition currentByRole (items : list ProjectMember)
    : list (string * AdminController.Current) :=
  foldl remember [] items.

(** [desired]: the snapshot restricted to the catalog, [null] by default. *)
Definition desired (body : gmap string (option string)) : gmap string (option string) :=
  foldl (fun acc role =>
           <[role := match body !! role with Some v => v | None => None end]> acc)
        ∅ AdminController.ROLE_CATALOG.

Definition removals (current : list (string * AdminController.Current))
    (want : gmap string (option string)) : list mutation :=
  flat_map (fun '(role, cur) =>
              if is_null (get_or_null want role)
              then [Remove (AdminController.c_id cur)] else [])
           current.

Definition upsert (projectId : string)
    (current : list (string * AdminController.Current))
    (want : gmap string (option string)) (role : string) : list mutation :=
  let curUserId := AdminController.c_userId <$> Map_get role current in
  match get_or_null want role with
  | VStr next =>
      if truthy_opt curUserId && truthy next && same_user curUserId (VStr next)
      then []
      else if truthy next
      then [Assign {| AdminService.a_projectId := projectId;
                      AdminService.a_userId := next;
                      AdminService.a_role := role |}]
      else []
  | _ => []
  end.

(** The operations a call [setProjectRoles projectId body] sets out to
    perform on the database [s], in the order it issues them. *)
Definition plan (projectId : string) (body : gmap string (option string))
    (s : db) : list mutation :=
  let current :=
    currentByRole
      (merge_sort newer_first
         (filter (fun m => m_projectId m = AdminService.normStr (Some projectId))
                 (projectMembers s))) in
  removals current (desired body)
  ++ flat_map (upsert projectId current (desired body)) AdminController.ROLE_CATALOG.

End Plan.

(** ** Invariant I1 and sequences of requests *)

Module Engine.
Import JS Prisma Plan.

(** The records of one (projectId, role) slot. *)
Definition slot_records (projectId role : string) (s : db) : list ProjectMember :=
  filter (fun m => m_projectId m = projectId ∧ m_role m = role) (projectMembers s).

(** Invariant I1: at most one record per (projectId, role). *)
Definition I1 (s : db) : Prop :=
  ∀ projectId role, length (slot_records projectId role s) <= 1.

Definition occupied (s : db) (projectId role : string) : Prop :=
  ∃ m, m ∈ projectMembers s ∧ m_projectId m = projectId ∧ m_role m = role.

Definition project_known (s : db) (projectId : string) : Prop :=
  ∃ p, p ∈ projects s ∧ p_projectId p = projectId.

Definition user_known (s : db) (userId : string) : Prop :=
  ∃ u, u ∈ users s ∧ u_userId u = userId.

(** The database after one more [ProjectMember] row. *)
Definition with_member (row : ProjectMember) (s : db) : db :=
  {| projects := projects s; users := users s;
     projectMembers := projectMembers s ++ [row]; tick := S (tick s) |}.

(** The database after one more [User] row, one more [Project] row. *)
Definition with_user (row : User) (s : db) : db :=
  {| projects := projects s; users := users s ++ [row];
     projectMembers := projectMembers s; tick := S (tick s) |}.

Definition with_project (row : Project) (s : db) : db :=
  {| projects := projects s ++ [row]; users := users s;
     projectMembers := projectMembers s; tick := S (tick s) |}.

(** No two users share a code, an email or a phone. *)
Definition distinct_users (s : db) : Prop :=
  NoDup (u_code <$> users s)
  ∧ NoDup (omap u_email (users s))
  ∧ NoDup (omap u_phone (users s)).

(** No two projects share a code. *)
Definition distinct_projects (s : db) : Prop :=
  NoDup (p_code <$> projects s).

(** The slot a record fills. *)
Definition slot (m : ProjectMember) : string * string :=
  (m_projectId m, m_role m).

(** What the proofs of I1 carry along: one record per slot, written as a
    list of slots without repetition, and no record with an empty id. *)
Definition well_kept (s : db) : Prop :=
  NoDup (slot <$> projectMembers s)
  ∧ Forall (λ m, m_id m ≠ "") (projectMembers s).

(** The slots the [Assign] operations of a plan write to. *)
Definition written_slots (ops : list mutation) : list (string * string) :=
  flat_map (λ op, match op with
                  | Assign dto =>
                      [(AdminService.normStr (Some (AdminService.a_projectId dto)),
                        AdminService.normStr (Some (AdminService.a_role dto)))]
                  | Remove _ => []
                  end) ops.

(** The records of the other projects. *)
Definition foreign (pid : string) (s : db) : list ProjectMember :=
  filter (λ m, m_projectId m ≠ pid) (projectMembers s).

(** [t] differs from [s0] within project [pid] only: same projects, same
    users, same records of the other projects, and every record that is
    new belongs to [pid] and carries a catalog role. *)
Definition framed (pid : string) (s0 t : db) : Prop :=
  projects t = projects s0 ∧ users t = users s0
  ∧ foreign pid t = foreign pid s0
  ∧ ∀ m, m ∈ projectMembers t →
         m ∈ projectMembers s0
         ∨ (m_projectId m = pid ∧ m_role m ∈ AdminController.ROLE_CATALOG).

(** An operation that cannot reach outside project [pid] of [s0]. *)
Definition harmless (pid : string) (s0 : db) (op : mutation) : Prop :=
  match op with
  | Remove id =>
      ∀ m, m ∈ projectMembers s0 → m_projectId m ≠ pid →
           m_id m ≠ AdminService.normStr (Some id)
  | Assign dto =>
      AdminService.normStr (Some (AdminService.a_projectId dto)) = pid
      ∧ AdminService.normStr (Some (AdminService.a_role dto)) ∈ AdminController.ROLE_CATALOG
  end.

(** The ids of the records a reconciliation sets out to delete: those of
    the entries of [currentByRole] whose desired value is null. *)
Definition doomed_ids (current : list (string * AdminController.Current))
    (want : gmap string (option string)) : list string :=
  (λ e, AdminController.c_id e.2)
    <$> filter (λ e, is_null (get_or_null want e.1) = true) current.

(** The three operations of the assignment API. *)
Inductive request :=
| SetState (projectId : string) (body : option (gmap string (option string)))
| AssignOne (dto : AdminService.AssignDto)
| RemoveOne (id : string).

(** The database a request leaves behind, whether it succeeds or throws. *)
Definition serve {G : IdGenerator} (r : request) (s : db) : db :=
  match r with
  | SetState projectId body => snd (AdminController.setProjectRoles projectId body s)
  | AssignOne dto => snd (AdminController.assign dto s)
  | RemoveOne id => snd (AdminController.removeAssignment id s)
  end.

Definition serve_all {G : IdGenerator} (rs : list request) (s : db) : db :=
  foldl (fun s r => serve r s) s rs.

(** A request that puts nobody in the place of a current occupant: an
    [AssignOne] into a free slot; a [SetState] that, for each occupied
    catalog role, asks for null, the empty string or the occupant. *)
Definition replaces_nobody (r : request) (s : db) : Prop :=
  match r with
  | AssignOne dto =>
      ¬ occupied s (AdminService.normStr (Some (AdminService.a_projectId dto)))
                   (AdminService.normStr (Some (AdminService.a_role dto)))
  | SetState projectId (Some body) =>
      ∀ m u, m ∈ projectMembers s →
        m_projectId m = AdminService.normStr (Some projectId) →
        m_role m ∈ AdminController.ROLE_CATALOG →
        body !! m_role m = Some (Some u) →
        u = "" ∨ u = m_userId m
  | _ => True
  end.

Fixpoint replace_free {G : IdGenerator} (rs : list request) (s : db) : Prop :=
  match rs with
  | [] => True
  | r :: rs' => replaces_nobody r s ∧ replace_free rs' (serve r s)
  end.

End Engine.

(** ** Sample data *)

Module Fixtures.
Import JS Prisma.

(** Ids "m0", "m1", ... in the order of creation. *)
Definition decimal_ids : IdGenerator := fun n => "m" +:+ pretty n.

(** The byte-wise order of strings as the collation. *)
Definition binary_collation : Collation :=
  {| name_le := String.le |}.

Definition project (id : string) : Project :=
  {| p_projectId := id; p_code := "PRJ-" +:+ id; p_name := "Tower";
     p_city := "Pune"; p_stage := "Design"; p_status := "Ongoing";
     p_health := "Good" |}.

Definition user (id name : string) (createdAt : nat) : User :=
  {| u_userId := id; u_code := "USR-" +:+ id; u_role := "PMC";
     u_name := name; u_city := None; u_email := None;
     u_phone := Some "9000000000"; u_isSuperAdmin := false;
     u_createdAt := createdAt |}.

Definition member (id projectId userId role : string) (createdAt : nat)
    : ProjectMember :=
  {| m_id := id; m_projectId := projectId; m_userId := userId;
     m_role := role; m_createdAt := createdAt |}.

(** One project, two users, no assignment. *)
Definition empty_membership : db :=
  {| projects := [project "p1"];
     users := [user "u1" "Asha" 0; user "u2" "Bala" 1];
     projectMembers := [];
     tick := 2 |}.

(** The same with "u1" as PMC of "p1". *)
Definition pmc_u1 : db :=
  {| projects := [project "p1"];
     users := [user "u1" "Asha" 0; user "u2" "Bala" 1];
     projectMembers := [member "m2" "p1" "u1" "PMC" 2];
     tick := 3 |}.

(** Two PMC records on "p1": "u1" first, "u2" after. *)
Definition pmc_twice : db :=
  {| projects := [project "p1"];
     users := [user "u1" "Asha" 0; user "u2" "Bala" 1];
     projectMembers := [member "m2" "p1" "u1" "PMC" 2;
                        member "m3" "p1" "u2" "PMC" 3];
     tick := 4 |}.

(** A record whose role is not in the catalog. *)
Definition stray_role : db :=
  {| projects := [project "p1"];
     users := [user "u1" "Asha" 0; user "u2" "Bala" 1];
     projectMembers := [member "m2" "p1" "u1" "NotARole" 2];
     tick := 3 |}.

(** One project and one user: no code, email or phone occurs twice. *)
Definition single_user : db :=
  {| projects := [project "p1"];
     users := [user "u1" "Asha" 0];
     projectMembers := [];
     tick := 1 |}.

(** A request for a user "U9" reachable by e-mail, as the form sends it. *)
Definition chitra : AdminService.CreateUserDto :=
  {| AdminService.cu_code := " u9 "; AdminService.cu_role := "PMC";
     AdminService.cu_name := "Chitra"; AdminService.cu_city := None;
     AdminService.cu_email := Some "Chitra@Example.com";
     AdminService.cu_phone := None; AdminService.cu_isSuperAdmin := None |}.

(** A request for a project "PRJ-9". *)
Definition annex : AdminService.CreateProjectDto :=
  {| AdminService.cp_code := "prj-9 "; AdminService.cp_name := "Annex";
     AdminService.cp_city := "Pune"; AdminService.cp_status := None;
     AdminService.cp_stage := "Design"; AdminService.cp_health := Some "  " |}.

(** The code "straXe" with the sharp s (code unit 223) for X. *)
Definition sharp_code : string :=
  "stra" +:+ String (ascii_of_nat 223) "e".

(** Two requests for a user, the second with the code of the first in
    another spelling. *)
Definition sharp_user : AdminService.CreateUserDto :=
  {| AdminService.cu_code := sharp_code; AdminService.cu_role := "PMC";
     AdminService.cu_name := "Chitra"; AdminService.cu_city := None;
     AdminService.cu_email := Some "Chitra@Example.com";
     AdminService.cu_phone := None; AdminService.cu_isSuperAdmin := None |}.

Definition sharp_user_again : AdminService.CreateUserDto :=
  {| AdminService.cu_code := " Strasse"; AdminService.cu_role := "Architect";
     AdminService.cu_name := "Chitra R"; AdminService.cu_city := Some "Pune";
     AdminService.cu_email := None; AdminService.cu_phone := Some "98 76";
     AdminService.cu_isSuperAdmin := Some true |}.

(** The same for a project. *)
Definition sharp_project : AdminService.CreateProjectDto :=
  {| AdminService.cp_code := sharp_code; AdminService.cp_name := "Annex";
     AdminService.cp_city := "Pune"; AdminService.cp_status := None;
     AdminService.cp_stage := "Design"; AdminService.cp_health := Some "  " |}.

Definition sharp_project_again : AdminService.CreateProjectDto :=
  {| AdminService.cp_code := "strasse "; AdminService.cp_name := "Depot";
     AdminService.cp_city := "Goa"; AdminService.cp_status := Some "Paused";
     AdminService.cp_stage := "Build"; AdminService.cp_health := None |}.

End Fixtures.

(** * Properties *)

Import JS Prisma View Plan Engine.

(** ** Strings and lookups *)

Lemma truthy_true (s : string) : truthy s = true ↔ s ≠ "".
Proof.
  unfold truthy. rewrite negb_true_iff, bool_decide_eq_false. reflexivity.
Qed.

Lemma truthy_false (s : string) : truthy s = false ↔ s = "".
Proof.
  unfold truthy. rewrite negb_false_iff, bool_decide_eq_true. reflexivity.
Qed.

(** No catalog role is blank or padded: [normStr] leaves each as it is. *)
Lemma normStr_catalog (role : string) :
  role ∈ AdminController.ROLE_CATALOG →
  AdminService.normStr (Some role) = role ∧ role ≠ "".
Proof.
  unfold AdminController.ROLE_CATALOG. intros Hin.
  repeat (apply elem_of_cons in Hin as [-> | Hin]; [split; [vm_compute; reflexivity | discriminate] |]).
  by apply elem_of_nil in Hin.
Qed.

Lemma catalog_NoDup : NoDup AdminController.ROLE_CATALOG.
Proof. apply (bool_decide_unpack _). vm_compute. exact I. Qed.

Lemma find_is_Some {A} (f : A → bool) (l : list A) :
  is_Some (find f l) ↔ ∃ x, x ∈ l ∧ f x = true.
Proof.
  split.
  - intros [x Hx]. apply find_some in Hx as [Hin Hf].
    exists x. by rewrite list_elem_of_In.
  - intros (x & Hin & Hf). destruct (find f l) eqn:E; [eauto |].
    apply list_elem_of_In in Hin.
    pose proof (find_none f l E x Hin). congruence.
Qed.

(** ** [assign]: what it rejects and what it accepts *)

Section AssignOne.
Context {G : IdGenerator}.

Lemma project_findUnique_known (s : db) (projectId : string) :
  is_Some (find (λ p, bool_decide (p_projectId p = projectId)) (projects s))
  ↔ project_known s projectId.
Proof.
  rewrite find_is_Some. unfold project_known.
  by setoid_rewrite bool_decide_eq_true.
Qed.

Lemma user_findUnique_known (s : db) (userId : string) :
  is_Some (find (λ u, bool_decide (u_userId u = userId)) (users s))
  ↔ user_known s userId.
Proof.
  rewrite find_is_Some. unfold user_known.
  by setoid_rewrite bool_decide_eq_true.
Qed.

(** The outcome of [assign], case by case. *)
Lemma assign_cases (dto : AdminService.AssignDto) (s : db) :
  let projectId := AdminService.normStr (Some (AdminService.a_projectId dto)) in
  let userId := AdminService.normStr (Some (AdminService.a_userId dto)) in
  let role := AdminService.normStr (Some (AdminService.a_role dto)) in
  (projectId = "" ∨ userId = "" ∨ role = "") ∧
    AdminService.assign dto s
    = (Throw (BadRequestException "projectId, userId, role required"), s)
  ∨ (projectId ≠ "" ∧ userId ≠ "" ∧ role ≠ "") ∧
    ((¬ project_known s projectId ∧
      AdminService.assign dto s = (Throw (BadRequestException "Invalid projectId"), s))
     ∨ (project_known s projectId ∧ ¬ user_known s userId ∧
        AdminService.assign dto s = (Throw (BadRequestException "Invalid userId"), s))
     ∨ (project_known s projectId ∧ user_known s userId ∧
        let row := {| m_id := generate_id (tick s); m_projectId := projectId;
                      m_userId := userId; m_role := role;
                      m_createdAt := tick s |} in
        AdminService.assign dto s = (Ok row, with_member row s))).
Proof.
  intros projectId userId role. unfold AdminService.assign.
  fold projectId userId role.
  destruct (truthy projectId) eqn:Hp; simpl;
    [| left; split; [left; by apply truthy_false | reflexivity]].
  destruct (truthy userId) eqn:Hu; simpl;
    [| left; split; [right; left; by apply truthy_false | reflexivity]].
  destruct (truthy role) eqn:Hr; simpl;
    [| left; split; [right; right; by apply truthy_false | reflexivity]].
  apply truthy_true in Hp, Hu, Hr. right. split; [done |].
  unfold bind, project_findUnique, user_findUnique. simpl.
  pose proof (project_findUnique_known s projectId) as Hpk.
  pose proof (user_findUnique_known s userId) as Huk.
  destruct (find _ (projects s)) as [p |].
  - assert (project_known s projectId) as Hk by (apply Hpk; eauto).
    rewrite bool_decide_eq_true_2 by eauto. simpl.
    destruct (find _ (users s)) as [u |].
    + assert (user_known s userId) by (apply Huk; eauto).
      rewrite bool_decide_eq_true_2 by eauto. simpl.
      right. right. done.
    + rewrite bool_decide_eq_false_2 by (by intros [? ?]). simpl.
      right. left. split; [done |]. split; [| done].
      intros Hu'. apply Huk in Hu' as [? ?]. done.
  - rewrite bool_decide_eq_false_2 by (by intros [? ?]). simpl.
    left. split; [| done].
    intros Hk. apply Hpk in Hk as [? ?]. done.
Qed.

End AssignOne.

Section AssignOneClaims.
Context {G : IdGenerator}.

(** An [assign] that throws leaves the database as it was; one that
    returns has appended exactly the row it returns. *)
Lemma assign_outcome (dto : AdminService.AssignDto) (s : db) :
  (∃ e, AdminService.assign dto s = (Throw e, s))
  ∨ (∃ row, AdminService.assign dto s = (Ok row, with_member row s)
       ∧ m_projectId row = AdminService.normStr (Some (AdminService.a_projectId dto))
       ∧ m_role row = AdminService.normStr (Some (AdminService.a_role dto))
       ∧ m_id row = generate_id (tick s)).
Proof.
  destruct (assign_cases dto s) as [[_ ->] | [_ [[_ ->] | [(_ & _ & ->) | (_ & _ & ->)]]]];
    eauto 10.
Qed.

(** C8 (as the code has it): POST /admin/assignments checks in this
    order.  A projectId, userId or role that is blank after trimming is
    rejected with the validation message.  Otherwise an unknown project is
    rejected with "Invalid projectId", whether the user exists or not.
    Otherwise, the project being known, an unknown user is rejected with
    "Invalid userId".  All three are [BadRequestException]s and leave the
    database unchanged.  Every other request, whatever its role, in the
    catalog or not, creates the record. *)
Theorem assign_validation_and_foreign_keys (dto : AdminService.AssignDto) (s : db) :
  let projectId := AdminService.normStr (Some (AdminService.a_projectId dto)) in
  let userId := AdminService.normStr (Some (AdminService.a_userId dto)) in
  let role := AdminService.normStr (Some (AdminService.a_role dto)) in
  (projectId = "" ∨ userId = "" ∨ role = "" →
     AdminController.assign dto s
     = (Throw (BadRequestException "projectId, userId, role required"), s))
  ∧ (projectId ≠ "" ∧ userId ≠ "" ∧ role ≠ "" →
     ¬ project_known s projectId →
     AdminController.assign dto s
     = (Throw (BadRequestException "Invalid projectId"), s))
  ∧ (projectId ≠ "" ∧ userId ≠ "" ∧ role ≠ "" →
     project_known s projectId → ¬ user_known s userId →
     AdminController.assign dto s
     = (Throw (BadRequestException "Invalid userId"), s))
  ∧ (projectId ≠ "" ∧ userId ≠ "" ∧ role ≠ "" →
     project_known s projectId → user_known s userId →
     ∃ row, AdminController.assign dto s = (Ok row, with_member row s)
            ∧ m_projectId row = projectId ∧ m_userId row = userId
            ∧ m_role row = role).
Proof.
  intros projectId userId role. unfold AdminController.assign.
  pose proof (assign_cases dto s) as Hc. simpl in Hc.
  fold projectId userId role in Hc.
  repeat split.
  - intros Hblank.
    destruct Hc as [[_ ->] | [(? & ? & ?) _]]; [done | tauto].
  - intros Hfilled Hnp.
    destruct Hc as [[? _] | [Hnb [[_ ->] | [(? & _) | (? & _)]]]];
      [tauto | done | done | done].
  - intros Hfilled Hp Hnu.
    destruct Hc as [[? _] | [Hnb [[? _] | [(_ & _ & ->) | (_ & ? & _)]]]];
      [tauto | done | done | done].
  - intros Hfilled Hp Hu.
    destruct Hc as [[? _] | [Hnb [[? _] | [(_ & ? & _) | (_ & _ & ->)]]]];
      [tauto | done | done |].
    eexists. split; [reflexivity |]. done.
Qed.

End AssignOneClaims.

(** [removeAssignment] either throws and changes nothing, or deletes the
    rows carrying the id and nothing else. *)
Lemma removeAssignment_outcome (id : string) (s : db) :
  (∃ e, AdminService.removeAssignment id s = (Throw e, s))
  ∨ (∃ row, AdminService.removeAssignment id s
            = (Ok row, {| projects := projects s; users := users s;
                          projectMembers :=
                            filter (λ m, m_id m ≠ AdminService.normStr (Some id))
                                   (projectMembers s);
                          tick := tick s |})).
Proof.
  unfold AdminService.removeAssignment.
  destruct (truthy _); simpl; [| eauto].
  unfold projectMember_delete. destruct (find _ _); eauto.
Qed.

(** ** Loops over awaited calls *)

Lemma forEach_app {A} (l1 l2 : list A) (body : A → M unit) (s : db) :
  forEach (l1 ++ l2)%list body s
  = match forEach l1 body s with
    | (Ok _, s') => forEach l2 body s'
    | (Throw e, s') => (Throw e, s')
    end.
Proof.
  revert s. induction l1 as [| x l1 IH]; intros s; simpl; [done |].
  unfold bind. destruct (body x s) as [[[] | e] s']; [apply IH | done].
Qed.

(** A loop whose every round amounts to a short run of storage operations
    is the run of all of them. *)
Lemma forEach_flat_map {G : IdGenerator} {A} (l : list A) (body : A → M unit)
    (ops : A → list mutation) :
  (∀ x s, x ∈ l → body x s = forEach (ops x) Plan.apply s) →
  ∀ s, forEach l body s = forEach (flat_map ops l) Plan.apply s.
Proof.
  induction l as [| x l IH]; intros Hbody s; simpl; [done |].
  rewrite forEach_app. unfold bind.
  rewrite Hbody by left.
  destruct (forEach (ops x) Plan.apply s) as [[[] | e] s']; [| done].
  apply IH. intros y s0 Hy. apply Hbody. by right.
Qed.

(** When a loop throws, the rounds before the failing one have completed
    and their effects stay. *)
Lemma forEach_throws {A} (l : list A) (body : A → M unit) (s s' : db) (e : exn) :
  forEach l body s = (Throw e, s') →
  ∃ before x after s1,
    l = (before ++ x :: after)%list
    ∧ forEach before body s = (Ok tt, s1)
    ∧ body x s1 = (Throw e, s').
Proof.
  revert s. induction l as [| x l IH]; intros s; simpl; [done |].
  unfold bind. destruct (body x s) as [[[] | e0] s0] eqn:Hx.
  - intros Hrest. destruct (IH _ Hrest) as (before & y & after & s1 & -> & Hb & Hy).
    exists (x :: before), y, after, s1. simpl. unfold bind. rewrite Hx. done.
  - intros [= -> ->]. exists [], x, l, s. done.
Qed.

Lemma bind_ret_tt {A} (c : M A) (s : db) :
  (await _ ← (await _ ← c; ret tt); ret tt) s = (await _ ← c; ret tt) s.
Proof. unfold bind, ret. by destruct (c s) as [[? | ?] ?]. Qed.

(** ** [setProjectRoles] performs its plan, one operation after the other *)

Lemma lookup_foldl_insert {V} (f : string → V) (l : list string)
    (init : gmap string V) (k : string) :
  foldl (λ acc role, <[role := f role]> acc) init l !! k
  = if bool_decide (k ∈ l) then Some (f k) else init !! k.
Proof.
  revert init. induction l as [| r l IH]; intros init; simpl; [done |].
  rewrite IH. destruct (decide (k ∈ l)) as [Hin | Hin].
  - rewrite !bool_decide_eq_true_2; [done | by right | done].
  - rewrite (bool_decide_eq_false_2 (k ∈ l)) by done.
    destruct (decide (r = k)) as [-> | Hne].
    + rewrite lookup_insert_eq. rewrite bool_decide_eq_true_2; [done | by left].
    + rewrite lookup_insert_ne by done.
      rewrite bool_decide_eq_false_2; [done |].
      intros [-> | ?]%elem_of_cons; done.
Qed.

(** [desired] holds exactly the catalog roles: the snapshot's value where
    it has one, [null] elsewhere. *)
Lemma desired_lookup (body : gmap string (option string)) (role : string) :
  desired body !! role
  = if bool_decide (role ∈ AdminController.ROLE_CATALOG)
    then Some (match body !! role with Some v => v | None => None end)
    else None.
Proof.
  unfold desired.
  rewrite (lookup_foldl_insert
             (λ role, match body !! role with Some v => v | None => None end)).
  by rewrite lookup_empty.
Qed.

Lemma desired_catalog (body : gmap string (option string)) (role : string) :
  role ∈ AdminController.ROLE_CATALOG →
  get_or_null (desired body) role
  = match body !! role with
    | Some (Some u) => VStr u
    | _ => VNull
    end.
Proof.
  intros Hin. unfold get_or_null. rewrite desired_lookup.
  rewrite bool_decide_eq_true_2 by done. by destruct (body !! role) as [[?|]|].
Qed.

Section Reconciliation.
Context {G : IdGenerator}.

Lemma removal_round (want : gmap string (option string))
    (entry : string * AdminController.Current) (s : db) :
  (let '(role, cur) := entry in
   match get_or_null want role with
   | VNull => await _ ← AdminService.removeAssignment (AdminController.c_id cur); ret tt
   | _ => ret tt
   end) s
  = forEach (let '(role, cur) := entry in
             if is_null (get_or_null want role)
             then [Remove (AdminController.c_id cur)] else [])
            Plan.apply s.
Proof.
  destruct entry as [role cur].
  destruct (get_or_null want role); simpl; try done.
  by rewrite bind_ret_tt.
Qed.

Lemma upsert_round (projectId : string)
    (current : list (string * AdminController.Current))
    (body : gmap string (option string)) (role : string) (s : db) :
  role ∈ AdminController.ROLE_CATALOG →
  (let nextUserId := get_or_null (desired body) role in
   let cur := Map_get role current in
   let curUserId := AdminController.c_userId <$> cur in
   if bool_decide (curUserId = None) && is_null nextUserId then ret tt
   else if truthy_opt curUserId && truthy_value nextUserId
           && same_user curUserId nextUserId then ret tt
   else if truthy_value nextUserId then
     match nextUserId with
     | VStr next =>
         await _ ← AdminService.assign
           {| AdminService.a_projectId := projectId;
              AdminService.a_userId := next;
              AdminService.a_role := role |};
         ret tt
     | _ => throw (TypeError "(v ?? '').trim is not a function")
     end
   else ret tt) s
  = forEach (upsert projectId current (desired body) role) Plan.apply s.
Proof.
  intros Hin. unfold upsert. simpl. rewrite desired_catalog by done.
  destruct (body !! role) as [[next |] |]; simpl.
  - rewrite andb_false_r.
    destruct (truthy_opt _ && truthy next && same_user _ _); [done |].
    destruct (truthy next); [| done]. simpl. by rewrite bind_ret_tt.
  - by destruct (bool_decide _), (truthy_opt _).
  - by destruct (bool_decide _), (truthy_opt _).
Qed.

(** The reconciliation, step by step: a blank projectId is refused by the
    listing, a snapshot with an own [hasOwnProperty] makes the normalization
    throw, and otherwise the call is the run of its plan. *)
Lemma setProjectRoles_runs_plan (projectId : string)
    (body : gmap string (option string)) (s : db) :
  AdminController.setProjectRoles projectId (Some body) s
  = if negb (truthy (AdminService.normStr (Some projectId))) then
      (Throw (BadRequestException "projectId required"), s)
    else if bool_decide (is_Some (body !! "hasOwnProperty")) then
      (Throw (TypeError "body.assignments.hasOwnProperty is not a function"), s)
    else
      (await _ ← forEach (plan projectId body s) Plan.apply; ret true) s.
Proof.
  unfold AdminController.setProjectRoles, AdminService.listAssignments.
  unfold bind at 1.
  destruct (truthy _); cbn [negb]; [| done].
  unfold projectMember_findMany. cbv beta iota.
  destruct (bool_decide _); [done |].
  unfold plan. cbv zeta. fold (desired body).
  set (items := merge_sort _ _).
  change (foldl _ [] items) with (currentByRole items).
  set (current := currentByRole items).
  unfold bind. rewrite forEach_app. unfold removals.
  rewrite <- (forEach_flat_map current _ _ (λ x s0 _, removal_round (desired body) x s0)).
  destruct (forEach current _ s) as [[[] | e] s1]; [| done].
  rewrite <- (forEach_flat_map AdminController.ROLE_CATALOG _ _
                (λ x s0 Hx, upsert_round projectId current body x s0 Hx)).
  done.
Qed.

End Reconciliation.

Section NoTransaction.
Context {G : IdGenerator}.

(** A storage operation that throws has changed nothing. *)
Lemma apply_throws (op : mutation) (s s' : db) (e : exn) :
  Plan.apply op s = (Throw e, s') → s' = s.
Proof.
  destruct op as [id | dto]; unfold Plan.apply, bind.
  - destruct (removeAssignment_outcome id s) as [[e0 ->] | [row ->]];
      [by intros [= _ ->] | done].
  - destruct (assign_outcome dto s) as [[e0 ->] | [row [-> _]]];
      [by intros [= _ ->] | done].
Qed.

(** C3 (as the code has it): [setProjectRoles] opens no transaction.  A
    call is refused before any storage operation (no [assignments] object,
    blank projectId, failed normalization), or it performs the operations of
    its plan one after the other: it returns when all of them are done, and
    when one of them throws it throws the same exception and the database
    stays as the operations completed before it left it. *)
Theorem setProjectRoles_keeps_completed_operations (projectId : string)
    (body : option (gmap string (option string))) (s : db) :
  let out := AdminController.setProjectRoles projectId body s in
  (∃ e, out = (Throw e, s)
        ∧ (body = None
           ∨ AdminService.normStr (Some projectId) = ""
           ∨ ∃ b, body = Some b ∧ is_Some (b !! "hasOwnProperty")))
  ∨ (∃ b, body = Some b
          ∧ out.1 = Ok true
          ∧ forEach (plan projectId b s) Plan.apply s = (Ok tt, out.2))
  ∨ (∃ b e completed op rest,
        body = Some b
        ∧ out.1 = Throw e
        ∧ plan projectId b s = (completed ++ op :: rest)%list
        ∧ forEach completed Plan.apply s = (Ok tt, out.2)
        ∧ Plan.apply op out.2 = (Throw e, out.2)).
Proof.
  destruct body as [b |]; cbv zeta; [| left; eexists; split; [done | by left]].
  rewrite setProjectRoles_runs_plan.
  destruct (truthy _) eqn:Hp; cbn [negb].
  2: { left. eexists. split; [done |]. right. left. by apply truthy_false. }
  destruct (bool_decide _) eqn:Hown.
  { left. eexists. split; [done |]. right. right. exists b. split; [done |].
    by apply bool_decide_eq_true in Hown. }
  right. unfold bind.
  destruct (forEach (plan projectId b s) Plan.apply s) as [[[] | e] s'] eqn:Hrun.
  - left. exists b. done.
  - right. apply forEach_throws in Hrun as (completed & op & rest & s1 & Hplan & Hc & Hop).
    pose proof (apply_throws _ _ _ _ Hop) as ->.
    exists b, e, completed, op, rest. done.
Qed.

End NoTransaction.

(** ** Invariant I1 *)

Lemma NoDup_slots_I1 (s : db) : NoDup (slot <$> projectMembers s) → I1 s.
Proof.
  intros Hnd projectId role. unfold slot_records.
  induction (projectMembers s) as [| m l IH]; [simpl; lia |].
  rewrite fmap_cons in Hnd. apply NoDup_cons in Hnd as [Hm Hnd].
  rewrite filter_cons. case_decide as Hslot; [| by apply IH].
  simpl. enough (filter (λ m0, m_projectId m0 = projectId ∧ m_role m0 = role) l = []) as ->
    by (simpl; lia).
  destruct (filter _ l) as [| m' l'] eqn:Hf; [done |].
  exfalso. apply Hm.
  assert (m' ∈ m' :: l') as Hin by left. rewrite <- Hf in Hin.
  apply list_elem_of_filter in Hin as [[Hp Hr] Hin].
  apply list_elem_of_fmap. exists m'. split; [| done].
  unfold slot. destruct Hslot as [-> ->]. by rewrite Hp, Hr.
Qed.

Lemma well_kept_filter (P : ProjectMember → Prop) `{!∀ m, Decision (P m)} (s : db) :
  well_kept s →
  well_kept {| projects := projects s; users := users s;
               projectMembers := filter P (projectMembers s); tick := tick s |}.
Proof.
  intros [Hnd Hid]. split; simpl.
  - apply (sublist_NoDup _ (slot <$> projectMembers s)); [exact Hnd |].
    apply fmap_sublist, sublist_filter.
  - apply Forall_forall. intros m [_ Hm]%list_elem_of_filter.
    by apply (proj1 (Forall_forall _ _) Hid).
Qed.

Section Invariant.
Context {G : IdGenerator}.
Hypothesis ids_not_empty : ∀ n, generate_id n ≠ "".

(** Operations that write to distinct slots, all free, keep the database
    well kept, wherever the run ends. *)
Lemma run_keeps_well_kept (ops : list mutation) (s s' : db) (r : result unit) :
  well_kept s →
  NoDup (written_slots ops) →
  (∀ sl, sl ∈ written_slots ops → sl ∉ slot <$> projectMembers s) →
  forEach ops Plan.apply s = (r, s') →
  well_kept s'.
Proof.
  revert s. induction ops as [| op ops IH]; intros s Hs Hnd Hfree; simpl.
  - by intros [= _ <-].
  - unfold bind. destruct (Plan.apply op s) as [[[] | e] s0] eqn:Hop.
    2: { intros [= _ <-]. by rewrite (apply_throws _ _ _ _ Hop). }
    destruct op as [id | dto]; unfold Plan.apply, bind in Hop.
    + destruct (removeAssignment_outcome id s) as [[e0 He] | [row Hrow]];
        [by rewrite He in Hop |].
      rewrite Hrow in Hop. injection Hop as <-.
      apply IH; [by apply well_kept_filter | done |].
      intros sl Hsl Hin. apply (Hfree sl Hsl).
      simpl in Hin. apply list_elem_of_fmap in Hin as (m & -> & Hm).
      apply list_elem_of_filter in Hm as [_ Hm].
      apply list_elem_of_fmap. eauto.
    + destruct (assign_outcome dto s) as [[e0 He] | (row & Hrow & Hp & Hr & Hid)];
        [by rewrite He in Hop |].
      rewrite Hrow in Hop. injection Hop as <-.
      simpl in Hnd. apply NoDup_cons in Hnd as [Hfresh Hnd].
      assert (slot row
              = (AdminService.normStr (Some (AdminService.a_projectId dto)),
                 AdminService.normStr (Some (AdminService.a_role dto)))) as Hslot
        by (unfold slot; by rewrite Hp, Hr).
      assert (slot row ∉ slot <$> projectMembers s) as Hrowfree.
      { rewrite Hslot. apply Hfree. simpl. by left. }
      apply IH; [| done |].
      * destruct Hs as [Hs1 Hs2]. split; simpl.
        -- rewrite fmap_app. apply NoDup_app. split; [done |]. split.
           ++ intros sl Hsl [-> | []%elem_of_nil]%elem_of_cons. done.
           ++ simpl. apply NoDup_singleton.
        -- apply Forall_app. split; [done |]. apply Forall_singleton.
           rewrite Hid. apply ids_not_empty.
      * intros sl Hsl Hin. simpl in Hin. rewrite fmap_app in Hin.
        apply elem_of_app in Hin as [Hin | Hin].
        -- apply (Hfree sl); [simpl; by right | done].
        -- simpl in Hin. apply list_elem_of_singleton in Hin as ->.
           by rewrite Hslot in Hsl.
Qed.

End Invariant.

(** ** What [currentByRole] holds *)

Lemma Map_get_set {V} (k k' : string) (v : V) (m : list (string * V)) :
  Map_get k (Map_set k' v m) = if bool_decide (k' = k) then Some v else Map_get k m.
Proof.
  induction m as [| [k0 v0] m IH]; simpl.
  - done.
  - destruct (decide (k0 = k')) as [-> | Hne].
    + rewrite bool_decide_eq_true_2 by done. simpl. by destruct (bool_decide (k' = k)).
    + rewrite bool_decide_eq_false_2 by done. simpl. rewrite IH.
      destruct (decide (k0 = k)) as [-> | Hne'].
      * rewrite bool_decide_eq_true_2 by done.
        by rewrite bool_decide_eq_false_2 by congruence.
      * by rewrite (bool_decide_eq_false_2 (k0 = k)) by done.
Qed.

Lemma remembered_from (items : list ProjectMember)
    (acc : list (string * AdminController.Current)) (role : string)
    (cur : AdminController.Current) :
  Map_get role (foldl remember acc items) = Some cur →
  Map_get role acc = Some cur
  ∨ ∃ m, m ∈ items ∧ m_role m = role
         ∧ AdminController.c_id cur = m_id m
         ∧ AdminController.c_userId cur = m_userId m.
Proof.
  revert acc. induction items as [| row items IH]; intros acc; simpl; [by left |].
  intros Hget. destruct (IH _ Hget) as [Hacc | (m & Hin & ?)].
  - unfold remember in Hacc.
    destruct (truthy (m_role row) && truthy (m_id row)); [| by left].
    rewrite Map_get_set in Hacc. case_bool_decide as Hrole; [| by left].
    right. exists row. injection Hacc as <-. split; [by left | done].
  - right. exists m. split; [by right | done].
Qed.

Lemma remembered_stays (items : list ProjectMember)
    (acc : list (string * AdminController.Current)) (role : string) :
  is_Some (Map_get role acc) → is_Some (Map_get role (foldl remember acc items)).
Proof.
  revert acc. induction items as [| row items IH]; intros acc Hacc; simpl; [done |].
  apply IH. unfold remember.
  destruct (truthy (m_role row) && truthy (m_id row)); [| done].
  rewrite Map_get_set. by case_bool_decide.
Qed.

Lemma remembered_row (items : list ProjectMember)
    (acc : list (string * AdminController.Current)) (m : ProjectMember) :
  m ∈ items → m_role m ≠ "" → m_id m ≠ "" →
  is_Some (Map_get (m_role m) (foldl remember acc items)).
Proof.
  intros Hin Hrole Hid. revert acc.
  induction items as [| row items IH]; intros acc; [by apply elem_of_nil in Hin |].
  apply elem_of_cons in Hin as [<- | Hin]; simpl; [| by apply IH].
  apply remembered_stays. unfold remember.
  rewrite (proj2 (truthy_true _) Hrole), (proj2 (truthy_true _) Hid). simpl.
  rewrite Map_get_set. by rewrite bool_decide_eq_true_2.
Qed.

Lemma listing_elem_of (pid : string) (s : db) (m : ProjectMember) :
  m ∈ merge_sort newer_first (filter (λ m, m_projectId m = pid) (projectMembers s))
  ↔ m ∈ projectMembers s ∧ m_projectId m = pid.
Proof.
  rewrite merge_sort_Permutation, list_elem_of_filter. tauto.
Qed.

Lemma one_record_per_slot (s : db) (m m' : ProjectMember) :
  NoDup (slot <$> projectMembers s) →
  m ∈ projectMembers s → m' ∈ projectMembers s → slot m = slot m' → m = m'.
Proof.
  induction (projectMembers s) as [| x l IH]; intros Hnd Hm Hm' Hslot;
    [by apply elem_of_nil in Hm |].
  rewrite fmap_cons in Hnd. apply NoDup_cons in Hnd as [Hx Hnd].
  apply elem_of_cons in Hm as [-> | Hm]; apply elem_of_cons in Hm' as [-> | Hm'].
  - done.
  - exfalso. apply Hx. rewrite Hslot. by apply list_elem_of_fmap_2.
  - exfalso. apply Hx. rewrite <- Hslot. by apply list_elem_of_fmap_2.
  - by apply IH.
Qed.

(** ** The slots a reconciliation writes to *)

Lemma upsert_cases (projectId : string)
    (current : list (string * AdminController.Current))
    (want : gmap string (option string)) (role : string) :
  upsert projectId current want role = []
  ∨ ∃ next,
      upsert projectId current want role
      = [Assign {| AdminService.a_projectId := projectId;
                   AdminService.a_userId := next;
                   AdminService.a_role := role |}]
      ∧ get_or_null want role = VStr next
      ∧ next ≠ ""
      ∧ ∀ cur, Map_get role current = Some cur → AdminController.c_userId cur ≠ next.
Proof.
  unfold upsert. destruct (get_or_null want role) as [| next |]; [by left | | by left].
  destruct (truthy_opt _ && truthy next && same_user _ _) eqn:Hsame; [by left |].
  destruct (truthy next) eqn:Hnext; [| by left].
  right. exists next. split; [done |]. split; [done |].
  split; [by apply truthy_true |].
  intros cur Hcur Heq. rewrite Hcur in Hsame. simpl in Hsame.
  rewrite Heq, Hnext in Hsame. simpl in Hsame.
  by rewrite bool_decide_eq_true_2 in Hsame.
Qed.

Lemma written_slots_app (ops1 ops2 : list mutation) :
  written_slots (ops1 ++ ops2) = (written_slots ops1 ++ written_slots ops2)%list.
Proof. unfold written_slots. apply flat_map_app. Qed.

Lemma written_slots_removals (current : list (string * AdminController.Current))
    (want : gmap string (option string)) :
  written_slots (removals current want) = [].
Proof.
  unfold removals. induction current as [| [role cur] current IH]; [done |].
  simpl. rewrite written_slots_app, IH.
  by destruct (is_null _).
Qed.

Lemma written_slots_upserts (projectId : string)
    (current : list (string * AdminController.Current))
    (want : gmap string (option string)) (roles : list string) (sl : string * string) :
  sl ∈ written_slots (flat_map (upsert projectId current want) roles) →
  ∃ role, role ∈ roles
          ∧ sl = (AdminService.normStr (Some projectId), AdminService.normStr (Some role))
          ∧ upsert projectId current want role ≠ [].
Proof.
  induction roles as [| r roles IH]; simpl; [by intros ?%elem_of_nil |].
  rewrite written_slots_app. intros [Hin | Hin]%elem_of_app.
  - exists r. destruct (upsert_cases projectId current want r) as [Hnil | (next & Hup & _)].
    + rewrite Hnil in Hin. by apply elem_of_nil in Hin.
    + rewrite Hup in Hin |- *. simpl in Hin. apply list_elem_of_singleton in Hin.
      split; [by left | done].
  - destruct (IH Hin) as (role & ? & ? & ?). exists role. split; [by right | done].
Qed.

Lemma written_slots_upserts_NoDup (projectId : string)
    (current : list (string * AdminController.Current))
    (want : gmap string (option string)) (roles : list string) :
  NoDup roles → (∀ role, role ∈ roles → role ∈ AdminController.ROLE_CATALOG) →
  NoDup (written_slots (flat_map (upsert projectId current want) roles)).
Proof.
  induction roles as [| r roles IH]; intros Hnd Hcat; simpl; [apply NoDup_nil_2 |].
  apply NoDup_cons in Hnd as [Hr Hnd].
  rewrite written_slots_app. apply NoDup_app. split; [| split].
  - destruct (upsert_cases projectId current want r) as [-> | (next & -> & _)];
      [apply NoDup_nil_2 | apply NoDup_singleton].
  - intros sl Hsl Hin.
    apply written_slots_upserts in Hin as (role & Hrole & -> & _).
    destruct (upsert_cases projectId current want r) as [Hnil | (next & Hup & _)];
      [rewrite Hnil in Hsl; by apply elem_of_nil in Hsl |].
    rewrite Hup in Hsl. simpl in Hsl. apply list_elem_of_singleton in Hsl.
    injection Hsl as Heq.
    destruct (normStr_catalog role) as [Hn _]; [apply Hcat; by right |].
    destruct (normStr_catalog r) as [Hn' _]; [apply Hcat; by left |].
    rewrite Hn, Hn' in Heq. by subst.
  - apply IH; [done |]. intros role ?. apply Hcat. by right.
Qed.

Section Uniqueness.
Context {G : IdGenerator}.
Hypothesis ids_not_empty : ∀ n, generate_id n ≠ "".

(** A reconciliation that replaces nobody writes only to free slots, and to
    each at most once. *)
Lemma plan_writes_free_slots (projectId : string)
    (body : gmap string (option string)) (s : db) :
  well_kept s →
  replaces_nobody (SetState projectId (Some body)) s →
  NoDup (written_slots (plan projectId body s))
  ∧ ∀ sl, sl ∈ written_slots (plan projectId body s) →
          sl ∉ slot <$> projectMembers s.
Proof.
  intros [Hnd Hids] Hrep. unfold plan. cbv zeta.
  set (pid := AdminService.normStr (Some projectId)).
  set (items := merge_sort _ _). set (current := currentByRole items).
  rewrite written_slots_app, written_slots_removals, app_nil_l. split.
  - apply written_slots_upserts_NoDup; [apply catalog_NoDup | done].
  - intros sl Hsl Hocc.
    apply written_slots_upserts in Hsl as (role & Hcat & -> & Hup).
    destruct (normStr_catalog role Hcat) as [Hnorm Hrole]. rewrite Hnorm in Hocc.
    apply list_elem_of_fmap in Hocc as (m & Hslot & Hm).
    injection Hslot as Hmp Hmr.
    destruct (upsert_cases projectId current (desired body) role)
      as [Hnil | (next & _ & Hnext & Hne & Hdiff)]; [done |].
    rewrite desired_catalog in Hnext by done.
    assert (body !! role = Some (Some next)) as Hbody
      by (destruct (body !! role) as [[?|]|]; congruence).
    assert (m ∈ items) as Hitems by (apply listing_elem_of; by rewrite <- Hmp).
    assert (m_id m ≠ "") as Hid by (by apply (proj1 (Forall_forall _ _) Hids)).
    destruct (remembered_row items [] m Hitems) as [cur Hcur];
      [by rewrite <- Hmr | done |].
    rewrite <- Hmr in Hcur.
    destruct (remembered_from items [] role cur Hcur) as [? | (m' & Hm' & Hr' & _ & Hu')];
      [done |].
    apply listing_elem_of in Hm' as [Hm' Hp'].
    assert (m' = m) as ->.
    { apply (one_record_per_slot s); [done.. |]. unfold slot, pid in *. congruence. }
    destruct (Hrep m next Hm) as [? | Hsame]; [by rewrite <- Hmp | by rewrite <- Hmr | by rewrite <- Hmr | done |].
    apply (Hdiff cur Hcur). congruence.
Qed.

(** Each request that replaces nobody keeps the database well kept. *)
Lemma serve_keeps_well_kept (r : request) (s : db) :
  well_kept s → replaces_nobody r s → well_kept (serve r s).
Proof.
  intros Hs Hrep. destruct r as [projectId [body |] | dto | id]; unfold serve.
  - rewrite setProjectRoles_runs_plan.
    destruct (truthy _); cbn [negb]; [| done].
    destruct (bool_decide _); [done |].
    destruct (plan_writes_free_slots projectId body s Hs Hrep) as [Hnd Hfree].
    unfold bind.
    destruct (forEach (plan projectId body s) Plan.apply s) as [[[] | e] s'] eqn:Hrun;
      simpl; by eapply run_keeps_well_kept.
  - done.
  - unfold AdminController.assign.
    destruct (AdminService.assign dto s) as [res s'] eqn:Hassign. simpl.
    apply (run_keeps_well_kept ids_not_empty [Assign dto] s s'
             (match res with Ok _ => Ok tt | Throw e => Throw e end)); [done | | |].
    + simpl. apply NoDup_singleton.
    + simpl. intros sl ->%list_elem_of_singleton Hocc. apply Hrep.
      apply list_elem_of_fmap in Hocc as (m & Hslot & Hm). injection Hslot as ? ?.
      exists m. done.
    + simpl. unfold bind. rewrite Hassign. by destruct res.
  - unfold AdminController.removeAssignment.
    destruct (removeAssignment_outcome id s) as [[e ->] | [row ->]]; simpl; [done |].
    by apply well_kept_filter.
Qed.

Lemma serve_all_keeps_well_kept (rs : list request) (s : db) :
  well_kept s → replace_free rs s → well_kept (serve_all rs s).
Proof.
  revert s. induction rs as [| r rs IH]; intros s Hs Hfree; simpl; [done |].
  destruct Hfree as [Hr Hrs]. apply IH; [by apply serve_keeps_well_kept | done].
Qed.

(** C2 (as the code has it): starting from an empty membership set, every
    finite sequence of setState, assignOne and removeOne requests in which
    no assignOne targets an occupied slot and no setState names, for an
    occupied catalog role, a user other than its occupant, leaves at most
    one record per (projectId, role), whether the requests succeed or throw.
    An assignOne deletes nothing: it keeps every record and adds at most
    one. *)
Theorem uniqueness_without_replacement (rs : list request) (s : db) :
  projectMembers s = [] →
  replace_free rs s →
  I1 (serve_all rs s)
  ∧ ∀ dto s0, ∃ created,
      projectMembers (serve (AssignOne dto) s0) = (projectMembers s0 ++ created)%list
      ∧ length created <= 1.
Proof.
  intros Hempty Hfree. split.
  - apply NoDup_slots_I1.
    apply serve_all_keeps_well_kept; [| done].
    unfold well_kept. rewrite Hempty. split; [apply NoDup_nil_2 | apply Forall_nil_2].
  - intros dto s0. unfold serve, AdminController.assign.
    destruct (assign_outcome dto s0) as [[e ->] | (row & -> & _)].
    + exists []. split; [by rewrite app_nil_r | simpl; lia].
    + exists [row]. simpl. split; [done | lia].
Qed.

End Uniqueness.

(** ** [getProjectRoles]: which keys it returns and whose user it reports *)

Lemma getProjectRoles_unfold (projectId : string) (s : db) :
  AdminController.getProjectRoles projectId s
  = if negb (truthy (AdminService.normStr (Some projectId))) then
      (Throw (BadRequestException "projectId required"), s)
    else
      (Ok {| AdminController.ok := true;
             AdminController.assignments :=
               foldl report blank_roles
                     (listing (AdminService.normStr (Some projectId)) s) |}, s).
Proof.
  unfold AdminController.getProjectRoles, AdminService.listAssignments, bind.
  by destruct (truthy _).
Qed.

Lemma blank_roles_lookup (k : string) :
  blank_roles !! k
  = if bool_decide (k ∈ AdminController.ROLE_CATALOG) then Some None else None.
Proof.
  unfold blank_roles. rewrite (lookup_foldl_insert (λ _, None)).
  by rewrite lookup_empty.
Qed.

Lemma report_lookup (acc : gmap string (option string)) (row : ProjectMember)
    (k : string) :
  report acc row !! k
  = if bool_decide (m_role row = k ∧ k ≠ "" ∧ k ≠ "__proto__")
    then Some (Some (m_userId row)) else acc !! k.
Proof.
  unfold report, set_prop.
  destruct (truthy (m_role row)) eqn:Ht.
  - apply truthy_true in Ht. case_bool_decide as Hproto.
    + rewrite bool_decide_eq_false_2; [done |]. intros (<- & _ & ?). done.
    + destruct (decide (m_role row = k)) as [<- | Hne].
      * rewrite lookup_insert_eq. by rewrite bool_decide_eq_true_2.
      * rewrite lookup_insert_ne by done.
        rewrite bool_decide_eq_false_2; [done |]. by intros (? & _).
  - apply truthy_false in Ht.
    rewrite bool_decide_eq_false_2; [done |]. intros (<- & ? & _). done.
Qed.

(** A key is reported exactly when it was there or some row carries it. *)
Lemma reported_keys (items : list ProjectMember)
    (acc : gmap string (option string)) (k : string) :
  is_Some (foldl report acc items !! k)
  ↔ is_Some (acc !! k)
    ∨ (k ≠ "" ∧ k ≠ "__proto__" ∧ ∃ m, m ∈ items ∧ m_role m = k).
Proof.
  revert acc. induction items as [| row items IH]; intros acc; simpl.
  - split; [by left |]. intros [? | (_ & _ & m & []%elem_of_nil & _)]. done.
  - rewrite IH, report_lookup. case_bool_decide as Hrow.
    + split; intros _.
      * right. destruct Hrow as (? & ? & ?). repeat split; [done.. |].
        exists row. split; [by left | done].
      * left. eauto.
    + split.
      * intros [? | (? & ? & m & Hin & ?)]; [by left |].
        right. repeat split; [done.. |]. exists m. split; [by right | done].
      * intros [? | (? & ? & m & [-> | Hin]%elem_of_cons & ?)]; [by left | tauto |].
        right. repeat split; [done.. |]. by exists m.
Qed.

(** The rows after the last one carrying [k] do not touch [k]. *)
Lemma report_others (items : list ProjectMember)
    (acc : gmap string (option string)) (k : string) :
  Forall (λ m, m_role m ≠ k) items → foldl report acc items !! k = acc !! k.
Proof.
  revert acc. induction items as [| row items IH]; intros acc Hall; simpl; [done |].
  apply Forall_cons in Hall as [Hrow Hall].
  rewrite IH by done. rewrite report_lookup.
  rewrite bool_decide_eq_false_2; [done |]. by intros (? & _).
Qed.

Lemma last_occurrence {A} (P : A → Prop) `{!∀ x, Decision (P x)} (l : list A) :
  Exists P l →
  ∃ l1 y l2, l = (l1 ++ y :: l2)%list ∧ P y ∧ Forall (λ z, ¬ P z) l2.
Proof.
  induction l as [| z l IH]; intros Hex; [by apply Exists_nil in Hex |].
  destruct (decide (Exists P l)) as [Hl | Hnone].
  - destruct (IH Hl) as (l1 & y & l2 & -> & ? & ?).
    exists (z :: l1), y, l2. done.
  - apply Exists_inv in Hex as [Hz | ?]; [| done].
    exists [], z, l. split; [done |]. split; [done |].
    by apply not_Exists_Forall in Hnone.
Qed.

(** The listing is ordered newest first. *)
Lemma listing_sorted (pid : string) (s : db) :
  StronglySorted newer_first (listing pid s).
Proof.
  unfold listing. apply StronglySorted_merge_sort.
  - intros a b c. unfold newer_first. lia.
  - intros a b. unfold newer_first. lia.
Qed.

(** C4 (as the code has it): for a projectId that is not blank, the keys of
    the mapping GET /admin/projects/:id/roles returns are the catalog roles
    together with every role, not empty and not [__proto__], that a stored
    record of the project carries; the database is not touched, and a
    catalog role without a record is reported as null. *)
Theorem getProjectRoles_keys (projectId : string) (s : db) :
  AdminService.normStr (Some projectId) ≠ "" →
  ∃ resp,
    AdminController.getProjectRoles projectId s = (Ok resp, s)
    ∧ (∀ k, is_Some (AdminController.assignments resp !! k)
            ↔ k ∈ AdminController.ROLE_CATALOG
              ∨ (k ≠ "" ∧ k ≠ "__proto__"
                 ∧ occupied s (AdminService.normStr (Some projectId)) k))
    ∧ (∀ role, role ∈ AdminController.ROLE_CATALOG →
               ¬ occupied s (AdminService.normStr (Some projectId)) role →
               AdminController.assignments resp !! role = Some None).
Proof.
  intros Hpid. rewrite getProjectRoles_unfold.
  rewrite (proj2 (truthy_true _) Hpid). cbn [negb].
  eexists. split; [reflexivity |]. cbn [AdminController.assignments].
  set (pid := AdminService.normStr (Some projectId)).
  assert (∀ k, (∃ m, m ∈ listing pid s ∧ m_role m = k) ↔ occupied s pid k) as Hocc.
  { intros k. unfold occupied, listing. split.
    - intros (m & [? ?]%listing_elem_of & ?). by exists m.
    - intros (m & ? & ? & ?). exists m. split; [by apply listing_elem_of | done]. }
  split.
  - intros k. rewrite reported_keys, blank_roles_lookup, Hocc.
    case_bool_decide; split; intros [Hk | Hk]; eauto; [by destruct Hk | tauto].
  - intros role Hcat Hfree.
    rewrite report_others.
    + rewrite blank_roles_lookup. by rewrite bool_decide_eq_true_2.
    + apply Forall_forall. intros m Hm Hrole. apply Hfree, Hocc. by exists m.
Qed.

(** C6 (as the code has it): when several records of a project carry the
    same role, GET /admin/projects/:id/roles reports the user of the one
    created first, the last of the newest-first listing, and it leaves the
    database as it is. *)
Theorem getProjectRoles_reports_oldest (projectId : string) (s : db)
    (m : ProjectMember) :
  AdminService.normStr (Some projectId) ≠ "" →
  m ∈ projectMembers s →
  m_projectId m = AdminService.normStr (Some projectId) →
  m_role m ≠ "" → m_role m ≠ "__proto__" →
  (∀ m', m' ∈ projectMembers s → slot m' = slot m → m' ≠ m →
         m_createdAt m < m_createdAt m') →
  ∃ resp,
    AdminController.getProjectRoles projectId s = (Ok resp, s)
    ∧ AdminController.assignments resp !! m_role m = Some (Some (m_userId m)).
Proof.
  intros Hpid Hm Hproj Hrole Hproto Holdest. rewrite getProjectRoles_unfold.
  rewrite (proj2 (truthy_true _) Hpid). cbn [negb].
  eexists. split; [reflexivity |]. cbn [AdminController.assignments].
  set (pid := AdminService.normStr (Some projectId)) in *.
  assert (m ∈ listing pid s) as Hin by (by apply listing_elem_of).
  destruct (last_occurrence (λ x, m_role x = m_role m) (listing pid s))
    as (l1 & y & l2 & Hsplit & Hy & Hl2).
  { apply Exists_exists. by exists m. }
  pose proof (listing_sorted pid s) as Hsorted.
  rewrite Hsplit in Hin, Hsorted |- *.
  rewrite foldl_app. simpl. rewrite report_others by done.
  rewrite report_lookup, bool_decide_eq_true_2 by done.
  assert (y ∈ projectMembers s ∧ m_projectId y = pid) as [Hyin Hyp].
  { apply listing_elem_of. fold (listing pid s). rewrite Hsplit.
    apply elem_of_app. right. by left. }
  destruct (decide (y = m)) as [-> | Hne]; [done |].
  exfalso.
  assert (m_createdAt m < m_createdAt y) as Hlt.
  { apply Holdest; [done | unfold slot; congruence | done]. }
  apply elem_of_app in Hin as [Hin | [-> | Hin]%elem_of_cons]; [| done |].
  - apply StronglySorted_app in Hsorted as (Hcross & _ & _).
    specialize (Hcross m y Hin). unfold newer_first in Hcross.
    assert (y ∈ y :: l2) as Hhere by left. specialize (Hcross Hhere). lia.
  - by apply (proj1 (Forall_forall _ _) Hl2 m Hin).
Qed.

(** ** [createUser]: the contact check *)

Lemma normEmail_None (v : option string) :
  AdminService.normEmail v = None ↔ AdminService.normStr v = "".
Proof.
  unfold AdminService.normEmail. destruct (truthy _) eqn:Ht.
  - apply truthy_true in Ht. split; [done | by intros ?].
  - apply truthy_false in Ht. done.
Qed.

Lemma normPhone_None (v : option string) :
  AdminService.normPhone v = None ↔ keepDigits (AdminService.normStr v) = "".
Proof.
  unfold AdminService.normPhone. destruct (truthy (AdminService.normStr v)) eqn:Ht; simpl.
  - destruct (truthy (keepDigits _)) eqn:Hd.
    + apply truthy_true in Hd. split; [done | by intros ?].
    + apply truthy_false in Hd. done.
  - apply truthy_false in Ht. by rewrite Ht.
Qed.

Lemma truthy_opt_normEmail (v : option string) :
  truthy_opt (AdminService.normEmail v) = bool_decide (AdminService.normEmail v ≠ None).
Proof.
  unfold AdminService.normEmail. destruct (truthy (AdminService.normStr v)) eqn:Ht; simpl.
  - apply truthy_true in Ht.
    apply truthy_true. intros Hlow. apply Ht.
    destruct (AdminService.normStr v); [done | discriminate].
  - done.
Qed.

Lemma truthy_opt_normPhone (v : option string) :
  truthy_opt (AdminService.normPhone v) = bool_decide (AdminService.normPhone v ≠ None).
Proof.
  unfold AdminService.normPhone. destruct (truthy (AdminService.normStr v)); simpl.
  - by destruct (truthy (keepDigits _)) eqn:Hd.
  - done.
Qed.

Section CreateUser.
Context {G : IdGenerator}.

(** The service method throws the contact error exactly when the required
    fields are there and neither contact normalizes to a value. *)
Lemma service_createUser_contact (dto : AdminService.CreateUserDto) (s : db) :
  let required :=
    toUpperCase (AdminService.normStr (Some (AdminService.cu_code dto))) ≠ ""
    ∧ AdminService.normStr (Some (AdminService.cu_role dto)) ≠ ""
    ∧ AdminService.normStr (Some (AdminService.cu_name dto)) ≠ "" in
  let no_contact :=
    AdminService.normEmail (AdminService.cu_email dto) = None
    ∧ AdminService.normPhone (AdminService.cu_phone dto) = None in
  (¬ required →
     AdminService.createUser dto s
     = (Throw (BadRequestException "code, role and name are required"), s))
  ∧ (required → no_contact →
     AdminService.createUser dto s
     = (Throw (BadRequestException "Either email or phone is required"), s))
  ∧ (required → ¬ no_contact →
     fst (AdminService.createUser dto s)
     ≠ Throw (BadRequestException "Either email or phone is required")).
Proof.
  cbv zeta. unfold AdminService.createUser.
  set (code := toUpperCase _). set (role := AdminService.normStr (Some (AdminService.cu_role dto))).
  set (name := AdminService.normStr (Some (AdminService.cu_name dto))).
  set (email := AdminService.normEmail _). set (phone := AdminService.normPhone _).
  destruct (truthy code) eqn:Hc; [apply truthy_true in Hc | apply truthy_false in Hc];
    cbn [negb orb]; [| by repeat split; tauto].
  destruct (truthy role) eqn:Hr; [apply truthy_true in Hr | apply truthy_false in Hr];
    cbn [negb orb]; [| by repeat split; tauto].
  destruct (truthy name) eqn:Hn; [apply truthy_true in Hn | apply truthy_false in Hn];
    cbn [negb orb]; [| by repeat split; tauto].
  unfold email, phone. rewrite truthy_opt_normEmail, truthy_opt_normPhone.
  fold email phone.
  split; [tauto |]. split.
  - intros _ [He Hp].
    rewrite !bool_decide_eq_false_2 by (by intros ?). done.
  - intros _ Hcontact. 
    assert (negb (bool_decide (email ≠ None)) && negb (bool_decide (phone ≠ None)) = false)
      as ->.
    { apply andb_false_iff. destruct email, phone; simpl; auto. tauto. }
    unfold bind, user_findFirst, ret. 
    destruct (bool_decide (email ≠ None)), (bool_decide (phone ≠ None));
      repeat (destruct (bool_decide (is_Some _)); [simpl; discriminate |]);
      simpl; discriminate.
Qed.

End CreateUser.

Section CreateUserClaims.
Context {G : IdGenerator}.

(** C9 (as the code has it): POST /admin/users fails with a
    [BadRequestException] and creates nothing whenever the trimmed email is
    empty and the trimmed phone holds no decimal digit; a request whose
    email is not blank, or whose phone holds at least one digit, is never
    refused for want of a contact. *)
Theorem createUser_contact_check (dto : AdminController.CreateUserBody) (s : db) :
  (AdminService.normStr (AdminController.b_email dto) = "" →
   keepDigits (AdminService.normStr (AdminController.b_phone dto)) = "" →
   ∃ msg, AdminController.createUser dto s = (Throw (BadRequestException msg), s))
  ∧ (AdminService.normStr (AdminController.b_email dto) ≠ ""
     ∨ keepDigits (AdminService.normStr (AdminController.b_phone dto)) ≠ "" →
     fst (AdminController.createUser dto s)
     ≠ Throw (BadRequestException "Either email or phone is required")).
Proof.
  unfold AdminController.createUser.
  destruct (negb (truthy_opt (AdminController.b_code dto))
            || negb (truthy_opt (AdminController.b_role dto))
            || negb (truthy_opt (AdminController.b_name dto))).
  { split; [eauto | intros _; simpl; discriminate]. }
  set (sdto := AdminService.Build_CreateUserDto _ _ _ _ _ _ _).
  destruct (service_createUser_contact sdto s) as (Hmissing & Hnone & Hsome).
  cbn [AdminService.cu_code AdminService.cu_role AdminService.cu_name
       AdminService.cu_email AdminService.cu_phone sdto] in *.
  set (required := _ ∧ _ ∧ _) in *.
  pose proof (normEmail_None (AdminController.b_email dto)) as He.
  pose proof (normPhone_None (AdminController.b_phone dto)) as Hp.
  destruct (decide required) as [Hreq | Hreq]; split.
  - intros ? ?. rewrite Hnone by tauto. eauto.
  - intros Hcontact. apply Hsome; [done | tauto].
  - intros _ _. rewrite Hmissing by done. eauto.
  - intros _. rewrite Hmissing by done. simpl. discriminate.
Qed.

End CreateUserClaims.

(** ** [searchUsers] *)

Lemma take_sorted {A} (R : relation A) `{!RelDecision R, !Total R, !Transitive R}
    (n : nat) (l : list A) :
  let found := take n (merge_sort R l) in
  StronglySorted R found
  ∧ ∃ rest, (found ++ rest)%list ≡ₚ l ∧ ∀ u v, u ∈ found → v ∈ rest → R u v.
Proof.
  cbv zeta. pose proof (StronglySorted_merge_sort R l) as Hsorted.
  rewrite <- (take_drop n (merge_sort R l)) in Hsorted.
  apply StronglySorted_app in Hsorted as (Hcross & Hfound & _).
  split; [done |]. exists (drop n (merge_sort R l)). split; [| done].
  by rewrite take_drop, merge_sort_Permutation.
Qed.

Lemma filter_all {A} (l : list A) : filter (λ _ : A, true = true) l = l.
Proof.
  induction l as [| x l IH]; [done |].
  rewrite filter_cons. case_decide; [by f_equal | done].
Qed.

Section SearchUsers.
Context {C : Collation}.

Local Instance by_name_total : Total by_name.
Proof. intros a b. unfold by_name. apply name_le_total. Qed.

Local Instance by_name_trans : Transitive by_name.
Proof. intros a b c. unfold by_name. apply name_le_trans. Qed.

Local Instance user_newer_first_total : Total user_newer_first.
Proof. intros a b. unfold user_newer_first. lia. Qed.

Local Instance user_newer_first_trans : Transitive user_newer_first.
Proof. intros a b c. unfold user_newer_first. lia. Qed.

(** C10: GET /admin/users never fails.  With a query that is empty or
    white space only it returns the users created last, newest first: 50
    of them, or all of them when there are fewer.  With any other query it
    returns users that match the trimmed query, ordered by name: the first
    50 in that order, or all the matches when there are fewer.  The
    database is not touched. *)
Theorem searchUsers_recent_or_matching (q : option string) (s : db) :
  let query := trim (default "" q) in
  ∃ found,
    AdminController.searchUsers q s = (Ok found, s)
    ∧ length found <= 50
    ∧ (query = "" →
       length found = 50 `min` length (users s)
       ∧ StronglySorted user_newer_first found
       ∧ ∃ rest, (found ++ rest)%list ≡ₚ users s
                 ∧ ∀ u v, u ∈ found → v ∈ rest → u_createdAt v <= u_createdAt u)
    ∧ (query ≠ "" →
       length found
       = 50 `min` length (filter (λ u, AdminService.matches query u = true) (users s))
       ∧ StronglySorted by_name found
       ∧ (∀ u, u ∈ found → u ∈ users s ∧ AdminService.matches query u = true)
       ∧ ∃ rest, (found ++ rest)%list
                   ≡ₚ filter (λ u, AdminService.matches query u = true) (users s)
                 ∧ ∀ u v, u ∈ found → v ∈ rest → name_le (u_name u) (u_name v)).
Proof.
  cbv zeta. unfold AdminController.searchUsers, AdminService.searchUsers.
  assert (trim (default "" (Some (if truthy_opt q then default "" q else "")))
          = trim (default "" q)) as ->.
  { destruct q as [q |]; simpl; [| done].
    destruct (truthy q) eqn:Hq; [done |]. apply truthy_false in Hq. by rewrite Hq. }
  set (query := trim (default "" q)).
  destruct (truthy query) eqn:Hquery; cbn [negb]; unfold user_findMany.
  - apply truthy_true in Hquery.
    eexists. split; [reflexivity |]. split; [rewrite length_take; lia |].
    split; [done |]. intros _.
    split; [by rewrite length_take, (Permutation_length (merge_sort_Permutation _ _)) |].
    destruct (take_sorted by_name 50
                (filter (λ u, AdminService.matches query u = true) (users s)))
      as (Hsorted & rest & Hperm & Hcross).
    split; [done |]. split; [| by exists rest].
    intros u Hu.
    assert (u ∈ filter (λ u, AdminService.matches query u = true) (users s)) as Hin.
    { rewrite <- Hperm. apply elem_of_app. by left. }
    apply list_elem_of_filter in Hin. tauto.
  - apply truthy_false in Hquery.
    eexists. split; [reflexivity |]. split; [rewrite length_take; lia |].
    split; [| done]. intros _.
    split; [by rewrite length_take, (Permutation_length (merge_sort_Permutation _ _)),
                       filter_all |].
    destruct (take_sorted user_newer_first 50 (filter (λ _ : User, true = true) (users s)))
      as (Hsorted & rest & Hperm & Hcross).
    split; [done |]. exists rest. split; [| done].
    rewrite Hperm. by rewrite filter_all.
Qed.

End SearchUsers.

(** * Further properties of the admin module *)

(** ** Trimming and the normalizers *)

Lemma trimStart_clean (s : string) : starts_clean (trimStart s).
Proof.
  induction s as [| c s IH]; simpl; [done |].
  destruct (isWhiteSpace c) eqn:Hc; [done | simpl; done].
Qed.

Lemma trimStart_fixed (s : string) : starts_clean s → trimStart s = s.
Proof. destruct s as [| c s]; simpl; [done |]. by intros ->. Qed.

Lemma append_cons (c : ascii) (s t : string) : String c s +:+ t = String c (s +:+ t).
Proof. reflexivity. Qed.

Lemma append_nil_l (t : string) : "" +:+ t = t.
Proof. reflexivity. Qed.

Lemma append_nil_r (s : string) : s +:+ "" = s.
Proof. induction s as [| c s IH]; [done |]. by rewrite append_cons, IH. Qed.

Lemma append_assoc (s t u : string) : (s +:+ t) +:+ u = s +:+ (t +:+ u).
Proof. induction s as [| c s IH]; [done |]. by rewrite !append_cons, IH. Qed.

Lemma rev_app_rev_app (s acc acc' : string) :
  String.rev_app (String.rev_app s acc) acc' = String.rev_app acc (s +:+ acc').
Proof.
  revert acc acc'. induction s as [| c s IH]; intros acc acc'; simpl; [done |].
  by rewrite IH.
Qed.

Lemma rev_involutive (s : string) : String.rev (String.rev s) = s.
Proof.
  unfold String.rev. rewrite rev_app_rev_app. simpl. apply append_nil_r.
Qed.

Lemma rev_app_append (s acc : string) :
  String.rev_app s acc = String.rev s +:+ acc.
Proof.
  unfold String.rev. revert acc. induction s as [| c s IH]; intros acc; simpl; [done |].
  rewrite IH, (IH (String c "")). by rewrite append_assoc.
Qed.

Lemma rev_append (s t : string) :
  String.rev (s +:+ t) = String.rev t +:+ String.rev s.
Proof.
  induction s as [| c s IH].
  - by rewrite append_nil_l, append_nil_r.
  - rewrite append_cons. unfold String.rev at 1 3. simpl.
    rewrite !rev_app_append, IH. by rewrite append_assoc.
Qed.

(** What [trimStart] drops is white space only, and what is left is a
    suffix. *)
Lemma trimStart_suffix (s : string) :
  ∃ w, s = w +:+ trimStart s ∧ trimStart w = "".
Proof.
  induction s as [| c s (w & Hs & Hw)]; simpl; [by exists "" |].
  destruct (isWhiteSpace c) eqn:Hc.
  - exists (String c w). rewrite append_cons. simpl. rewrite Hc.
    split; [by f_equal | done].
  - by exists "".
Qed.

Lemma trimEnd_prefix (s : string) :
  ∃ w, s = trimEnd s +:+ w ∧ trimStart (String.rev w) = "".
Proof.
  unfold trimEnd. destruct (trimStart_suffix (String.rev s)) as (w & Hs & Hw).
  exists (String.rev w). rewrite rev_involutive. split; [| done].
  rewrite <- rev_append, <- Hs. by rewrite rev_involutive.
Qed.

Lemma trimEnd_clean (s : string) : starts_clean s → starts_clean (trimEnd s).
Proof.
  intros Hs. destruct (trimEnd_prefix s) as (w & Hw & _).
  destruct (trimEnd s) as [| c t]; [done |].
  rewrite Hw in Hs. exact Hs.
Qed.

Lemma trimEnd_idempotent (s : string) : trimEnd (trimEnd s) = trimEnd s.
Proof.
  unfold trimEnd. rewrite rev_involutive.
  by rewrite (trimStart_fixed (trimStart _)) by apply trimStart_clean.
Qed.

Lemma trim_idempotent (s : string) : trim (trim s) = trim s.
Proof.
  unfold trim.
  rewrite (trimStart_fixed (trimEnd _)) by apply trimEnd_clean, trimStart_clean.
  apply trimEnd_idempotent.
Qed.

(** X1: [normStr] is idempotent, and what it returns neither starts nor
    ends with white space. *)
Theorem normStr_idempotent (v : option string) :
  AdminService.normStr (Some (AdminService.normStr v)) = AdminService.normStr v
  ∧ starts_clean (AdminService.normStr v)
  ∧ starts_clean (String.rev (AdminService.normStr v)).
Proof.
  unfold AdminService.normStr. simpl. split; [apply trim_idempotent |]. split.
  - apply trimEnd_clean, trimStart_clean.
  - unfold trim, trimEnd. rewrite rev_involutive. apply trimStart_clean.
Qed.

Lemma keepDigits_all_digits (s : string) : all_chars isDigit (keepDigits s).
Proof.
  induction s as [| c s IH]; simpl; [done |].
  destruct (isDigit c) eqn:Hc; simpl; auto.
Qed.

Lemma keepDigits_fixed (d : string) : all_chars isDigit d → keepDigits d = d.
Proof.
  induction d as [| c d IH]; simpl; [done |].
  intros [-> Hd]. by rewrite IH.
Qed.

Lemma all_chars_rev_app (test : ascii → bool) (s acc : string) :
  all_chars test s → all_chars test acc → all_chars test (String.rev_app s acc).
Proof.
  revert acc. induction s as [| c s IH]; intros acc; simpl; [done |].
  intros [Hc Hs] Hacc. apply IH; [done |]. simpl. done.
Qed.

Lemma digit_not_white (c : ascii) : isDigit c = true → isWhiteSpace c = false.
Proof. destruct c as [[] [] [] [] [] [] [] []]; vm_compute; congruence. Qed.

Lemma digits_clean (d : string) : all_chars isDigit d → starts_clean d.
Proof. destruct d as [| c d]; simpl; [done |]. intros [Hc _]. by apply digit_not_white. Qed.

Lemma trim_digits (d : string) : all_chars isDigit d → trim d = d.
Proof.
  intros Hd. unfold trim, trimEnd.
  rewrite (trimStart_fixed d) by by apply digits_clean.
  rewrite trimStart_fixed; [apply rev_involutive |].
  apply digits_clean. by apply all_chars_rev_app.
Qed.

(** X2: a phone number that [normPhone] keeps is a non-empty string of
    decimal digits, and normalizing it again changes nothing. *)
Theorem normPhone_canonical (v : option string) (d : string) :
  AdminService.normPhone v = Some d →
  d ≠ "" ∧ all_chars isDigit d ∧ AdminService.normPhone (Some d) = Some d.
Proof.
  unfold AdminService.normPhone at 1.
  destruct (truthy (AdminService.normStr v)); simpl; [| done].
  destruct (truthy (keepDigits _)) eqn:Hd; [| done].
  intros [= Heq]. apply truthy_true in Hd.
  pose proof (keepDigits_all_digits (AdminService.normStr v)) as Hall.
  rewrite Heq in Hd, Hall. clear Heq.
  split; [done |]. split; [done |].
  unfold AdminService.normPhone, AdminService.normStr. simpl.
  rewrite trim_digits by done.
  rewrite (proj2 (truthy_true _) Hd). simpl.
  rewrite keepDigits_fixed by done.
  by rewrite (proj2 (truthy_true _) Hd).
Qed.

Lemma lower_keeps_white (c : ascii) : isWhiteSpace (lowerChar c) = isWhiteSpace c.
Proof. destruct c as [[] [] [] [] [] [] [] []]; vm_compute; reflexivity. Qed.

Lemma lowerChar_idempotent (c : ascii) : lowerChar (lowerChar c) = lowerChar c.
Proof. destruct c as [[] [] [] [] [] [] [] []]; vm_compute; reflexivity. Qed.

Lemma toLowerCase_idempotent (s : string) : toLowerCase (toLowerCase s) = toLowerCase s.
Proof.
  unfold toLowerCase. induction s as [| c s IH]; simpl; [done |].
  by rewrite lowerChar_idempotent, IH.
Qed.

Lemma trimStart_toLowerCase (s : string) :
  trimStart (toLowerCase s) = toLowerCase (trimStart s).
Proof.
  unfold toLowerCase. induction s as [| c s IH]; simpl; [done |].
  rewrite lower_keeps_white. by destruct (isWhiteSpace c).
Qed.

Lemma rev_app_toLowerCase (s acc : string) :
  String.rev_app (toLowerCase s) (toLowerCase acc) = toLowerCase (String.rev_app s acc).
Proof.
  unfold toLowerCase. revert acc. induction s as [| c s IH]; intros acc; simpl; [done |].
  by rewrite <- IH.
Qed.

Lemma trim_toLowerCase (s : string) : trim (toLowerCase s) = toLowerCase (trim s).
Proof.
  unfold trim, trimEnd, String.rev.
  rewrite trimStart_toLowerCase.
  rewrite (rev_app_toLowerCase _ ""), trimStart_toLowerCase.
  by rewrite (rev_app_toLowerCase _ "").
Qed.

(** X3: [normEmail] is idempotent: an address it returns is trimmed and in
    lower case already. *)
Theorem normEmail_idempotent (v : option string) :
  AdminService.normEmail (AdminService.normEmail v) = AdminService.normEmail v.
Proof.
  unfold AdminService.normEmail at 2 3.
  destruct (truthy (AdminService.normStr v)) eqn:Hv; [| done].
  apply truthy_true in Hv.
  unfold AdminService.normEmail, AdminService.normStr in *. simpl.
  rewrite trim_toLowerCase, trim_idempotent, toLowerCase_idempotent.
  assert (truthy (toLowerCase (trim (default "" v))) = true) as ->; [| done].
  apply truthy_true. intros Hlow. apply Hv.
  unfold toLowerCase in Hlow. by destruct (trim (default "" v)).
Qed.

(** ** [createUser]: all or nothing, canonical rows, no duplicates *)

Lemma is_Some_bool {A} (o : option A) :
  bool_decide (is_Some o) = match o with Some _ => true | None => false end.
Proof.
  destruct o; [by rewrite bool_decide_eq_true_2 | by rewrite bool_decide_eq_false_2 by (by intros [? ?])].
Qed.

Lemma find_cases {A} (f : A → bool) (l : list A) :
  (∃ x, find f l = Some x ∧ x ∈ l ∧ f x = true)
  ∨ (find f l = None ∧ ∀ x, x ∈ l → f x = false).
Proof.
  destruct (find f l) as [x |] eqn:E.
  - left. exists x. apply find_some in E as [Hin Hf]. by rewrite list_elem_of_In.
  - right. split; [done |]. intros x Hin. apply (find_none f l E). by apply list_elem_of_In.
Qed.

Section CreateUserFurther.
Context {G : IdGenerator}.

(** What [createUser] does, case by case: it throws and changes nothing,
    or it appends the row built from the normalized fields, and then no
    stored user had its code, its email or its phone. *)
Lemma createUser_cases (dto : AdminService.CreateUserDto) (s : db) :
  let code := toUpperCase (AdminService.normStr (Some (AdminService.cu_code dto))) in
  let email := AdminService.normEmail (AdminService.cu_email dto) in
  let phone := AdminService.normPhone (AdminService.cu_phone dto) in
  (∃ msg, AdminService.createUser dto s = (Throw (BadRequestException msg), s)
          ∧ (code = "" ∨ AdminService.normStr (Some (AdminService.cu_role dto)) = ""
             ∨ AdminService.normStr (Some (AdminService.cu_name dto)) = ""
             ∨ (email = None ∧ phone = None)
             ∨ ∃ u, u ∈ users s
                    ∧ (u_code u = code
                       ∨ (email ≠ None ∧ u_email u = email)
                       ∨ (phone ≠ None ∧ u_phone u = phone))))
  ∨ (∃ row, AdminService.createUser dto s = (Ok row, with_user row s)
            ∧ row = {| u_userId := generate_id (tick s);
                       u_code := code;
                       u_role := AdminService.normStr (Some (AdminService.cu_role dto));
                       u_name := AdminService.normStr (Some (AdminService.cu_name dto));
                       u_city := if truthy (AdminService.normStr (AdminService.cu_city dto))
                                 then Some (AdminService.normStr (AdminService.cu_city dto))
                                 else None;
                       u_email := email; u_phone := phone;
                       u_isSuperAdmin := default false (AdminService.cu_isSuperAdmin dto);
                       u_createdAt := tick s |}
            ∧ code ≠ ""
            ∧ (email ≠ None ∨ phone ≠ None)
            ∧ (∀ u, u ∈ users s → u_code u ≠ code)
            ∧ (email ≠ None → ∀ u, u ∈ users s → u_email u ≠ email)
            ∧ (phone ≠ None → ∀ u, u ∈ users s → u_phone u ≠ phone)).
Proof.
  cbv zeta. unfold AdminService.createUser.
  set (code := toUpperCase _).
  set (role := AdminService.normStr (Some (AdminService.cu_role dto))).
  set (name := AdminService.normStr (Some (AdminService.cu_name dto))).
  set (email := AdminService.normEmail _). set (phone := AdminService.normPhone _).
  destruct (truthy code) eqn:Hc; [apply truthy_true in Hc | apply truthy_false in Hc];
    cbn [negb orb]; [| left; eexists; split; [done | tauto]].
  destruct (truthy role) eqn:Hr; [apply truthy_true in Hr | apply truthy_false in Hr];
    cbn [negb orb]; [| left; eexists; split; [done | tauto]].
  destruct (truthy name) eqn:Hn; [apply truthy_true in Hn | apply truthy_false in Hn];
    cbn [negb orb]; [| left; eexists; split; [done | tauto]].
  unfold email, phone. rewrite truthy_opt_normEmail, truthy_opt_normPhone.
  fold email phone.
  destruct (decide (email = None)) as [He | He];
    [rewrite (bool_decide_eq_false_2 (email ≠ None)) by tauto
    | rewrite (bool_decide_eq_true_2 (email ≠ None)) by tauto];
    (destruct (decide (phone = None)) as [Hp | Hp];
     [rewrite (bool_decide_eq_false_2 (phone ≠ None)) by tauto
     | rewrite (bool_decide_eq_true_2 (phone ≠ None)) by tauto]);
    cbn [negb andb]; [left; eexists; split; [done | tauto] | ..];
    unfold bind, user_findFirst, ret; cbv beta iota zeta; rewrite ?is_Some_bool;
    (destruct (find_cases (λ u, bool_decide (u_code u = code)) (users s))
       as [(u & -> & Hu & Hfu) | [-> Hcode]];
     [apply bool_decide_eq_true in Hfu; left; eexists; split; [done |];
      do 4 right; exists u; tauto |]).
  - destruct (find_cases (λ u, bool_decide (u_phone u = phone)) (users s))
      as [(u & -> & Hu & Hfu) | [-> Hphone]].
    + apply bool_decide_eq_true in Hfu. left. eexists. split; [done |].
      do 4 right. exists u. tauto.
    + right. eexists. split; [reflexivity |]. split; [reflexivity |].
      split; [done |]. split; [tauto |]. split; [| split; [tauto |]].
      * intros u Hin. by apply (bool_decide_eq_false_1 _), Hcode.
      * intros _ u Hin. by apply (bool_decide_eq_false_1 _), Hphone.
  - destruct (find_cases (λ u, bool_decide (u_email u = email)) (users s))
      as [(u & -> & Hu & Hfu) | [-> Hemail]].
    + apply bool_decide_eq_true in Hfu. left. eexists. split; [done |].
      do 4 right. exists u. tauto.
    + right. eexists. split; [reflexivity |]. split; [reflexivity |].
      split; [done |]. split; [tauto |]. split; [| split; [| tauto]].
      * intros u Hin. by apply (bool_decide_eq_false_1 _), Hcode.
      * intros _ u Hin. by apply (bool_decide_eq_false_1 _), Hemail.
  - destruct (find_cases (λ u, bool_decide (u_email u = email)) (users s))
      as [(u & -> & Hu & Hfu) | [-> Hemail]].
    { apply bool_decide_eq_true in Hfu. left. eexists. split; [done |].
      do 4 right. exists u. tauto. }
    destruct (find_cases (λ u, bool_decide (u_phone u = phone)) (users s))
      as [(u & -> & Hu & Hfu) | [-> Hphone]].
    + apply bool_decide_eq_true in Hfu. left. eexists. split; [done |].
      do 4 right. exists u. tauto.
    + right. eexists. split; [reflexivity |]. split; [reflexivity |].
      split; [done |]. split; [tauto |]. split; [| split].
      * intros u Hin. by apply (bool_decide_eq_false_1 _), Hcode.
      * intros _ u Hin. by apply (bool_decide_eq_false_1 _), Hemail.
      * intros _ u Hin. by apply (bool_decide_eq_false_1 _), Hphone.
Qed.

End CreateUserFurther.

Section CreateUserExtras.
Context {G : IdGenerator}.

(** X4: [createUser] is all or nothing.  For a request whose trimmed
    code has no code unit 181 or 255 (so that its upper case is the one
    modelled), it throws a [BadRequestException] and leaves the database as
    it was, or it appends exactly the user it returns, with the code
    trimmed and in upper case (the sharp s as SS), the email and phone
    normalized, at least one of them present, and the id and creation
    instant given by the database; projects and assignments are not
    touched. *)
Theorem createUser_all_or_nothing (dto : AdminService.CreateUserDto) (s : db) :
  upper_in_range (AdminService.normStr (Some (AdminService.cu_code dto))) →
  (∃ msg, AdminService.createUser dto s = (Throw (BadRequestException msg), s))
  ∨ (∃ row, AdminService.createUser dto s = (Ok row, with_user row s)
            ∧ u_code row = toUpperCase (AdminService.normStr (Some (AdminService.cu_code dto)))
            ∧ u_code row ≠ ""
            ∧ u_email row = AdminService.normEmail (AdminService.cu_email dto)
            ∧ u_phone row = AdminService.normPhone (AdminService.cu_phone dto)
            ∧ (u_email row ≠ None ∨ u_phone row ≠ None)
            ∧ u_userId row = generate_id (tick s)
            ∧ u_createdAt row = tick s).
Proof.
  intros _.
  destruct (createUser_cases dto s) as [(msg & Hrun & _) | (row & Hrun & -> & ? & ? & _)].
  - left. eauto.
  - right. eexists. split; [exact Hrun |]. simpl. done.
Qed.

(** X5: [createUser] keeps the users distinct: if no two stored users
    share a code, an email or a phone, the same holds afterwards, whether
    the call returns or throws. *)
Theorem createUser_keeps_users_distinct (dto : AdminService.CreateUserDto) (s : db) :
  distinct_users s →
  distinct_users (AdminService.createUser dto s).2.
Proof.
  intros (Hcodes & Hemails & Hphones).
  destruct (createUser_cases dto s)
    as [(msg & -> & _) | (row & -> & Hrow & _ & _ & Hcode & Hemail & Hphone)];
    [done |].
  unfold distinct_users, with_user. simpl.
  rewrite fmap_app, !omap_app. simpl.
  assert (u_code row = toUpperCase (AdminService.normStr (Some (AdminService.cu_code dto))))
    as Hc by (by rewrite Hrow).
  assert (u_email row = AdminService.normEmail (AdminService.cu_email dto))
    as He by (by rewrite Hrow).
  assert (u_phone row = AdminService.normPhone (AdminService.cu_phone dto))
    as Hp by (by rewrite Hrow).
  rewrite <- Hc in Hcode. rewrite <- He in Hemail. rewrite <- Hp in Hphone.
  clear Hrow Hc He Hp. split; [| split].
  - apply NoDup_app. split; [done |]. split; [| apply NoDup_singleton].
    intros c Hin ->%list_elem_of_singleton.
    apply list_elem_of_fmap in Hin as (u & Hu & Hin). by apply (Hcode u Hin).
  - destruct (u_email row) as [e |] eqn:Hrow_email; simpl.
    + apply NoDup_app. split; [done |]. split; [| apply NoDup_singleton].
      intros c Hin ->%list_elem_of_singleton.
      apply list_elem_of_omap in Hin as (u & Hin & Hu). by apply (Hemail ltac:(done) u Hin).
    + by rewrite app_nil_r.
  - destruct (u_phone row) as [e |] eqn:Hrow_phone; simpl.
    + apply NoDup_app. split; [done |]. split; [| apply NoDup_singleton].
      intros c Hin ->%list_elem_of_singleton.
      apply list_elem_of_omap in Hin as (u & Hin & Hu). by apply (Hphone ltac:(done) u Hin).
    + by rewrite app_nil_r.
Qed.

(** X6: once a user is created, a later request with the same code (up to
    case and padding, the sharp s counting as SS), the same email (up to
    case and padding) or the same phone digits is refused and creates
    nothing.  Both trimmed codes are without the code units 181 and 255. *)
Theorem createUser_again_rejected (dto dto' : AdminService.CreateUserDto)
    (s s' : db) (row : User) :
  upper_in_range (AdminService.normStr (Some (AdminService.cu_code dto))) →
  upper_in_range (AdminService.normStr (Some (AdminService.cu_code dto'))) →
  AdminService.createUser dto s = (Ok row, s') →
  toUpperCase (AdminService.normStr (Some (AdminService.cu_code dto')))
  = toUpperCase (AdminService.normStr (Some (AdminService.cu_code dto)))
  ∨ (AdminService.normEmail (AdminService.cu_email dto') ≠ None
     ∧ AdminService.normEmail (AdminService.cu_email dto')
       = AdminService.normEmail (AdminService.cu_email dto))
  ∨ (AdminService.normPhone (AdminService.cu_phone dto') ≠ None
     ∧ AdminService.normPhone (AdminService.cu_phone dto')
       = AdminService.normPhone (AdminService.cu_phone dto)) →
  ∃ msg, AdminService.createUser dto' s' = (Throw (BadRequestException msg), s').
Proof.
  intros _ _ Hfirst Hsame.
  destruct (createUser_cases dto s) as [(msg & Hrun & _) | (row0 & Hrun & Hrow & _)];
    rewrite Hrun in Hfirst; [done |].
  injection Hfirst as <- <-.
  destruct (createUser_cases dto' (with_user row0 s))
    as [(msg & Hrun' & _) | (row' & _ & _ & _ & _ & Hcode & Hemail & Hphone)];
    [eauto |].
  exfalso.
  assert (row0 ∈ users (with_user row0 s)) as Hin
    by (simpl; apply elem_of_app; right; by left).
  destruct Hsame as [Hc | [[Hne He] | [Hne Hp]]].
  - apply (Hcode row0 Hin). rewrite Hc. by rewrite Hrow.
  - apply (Hemail Hne row0 Hin). rewrite He. by rewrite Hrow.
  - apply (Hphone Hne row0 Hin). rewrite Hp. by rewrite Hrow.
Qed.

(** X7: the required-field test of the controller is subsumed by the
    service: POST /admin/users behaves exactly as [AdminService.createUser]
    on the same fields. *)
Theorem createUser_endpoint_is_service (dto : AdminController.CreateUserBody) (s : db) :
  AdminController.createUser dto s
  = AdminService.createUser
      {| AdminService.cu_code := default "" (AdminController.b_code dto);
         AdminService.cu_role := default "" (AdminController.b_role dto);
         AdminService.cu_name := default "" (AdminController.b_name dto);
         AdminService.cu_city := AdminController.b_city dto;
         AdminService.cu_email := AdminController.b_email dto;
         AdminService.cu_phone := AdminController.b_phone dto;
         AdminService.cu_isSuperAdmin := AdminController.b_isSuperAdmin dto |} s.
Proof.
  unfold AdminController.createUser.
  destruct (negb (truthy_opt (AdminController.b_code dto))
            || negb (truthy_opt (AdminController.b_role dto))
            || negb (truthy_opt (AdminController.b_name dto))) eqn:Hmissing; [| done].
  unfold AdminService.createUser. cbn [AdminService.cu_code AdminService.cu_role AdminService.cu_name].
  assert (∀ v, truthy_opt v = false → AdminService.normStr (Some (default "" v)) = "") as Hblank.
  { intros [v |]; simpl; [| done]. intros ->%truthy_false. done. }
  apply orb_true_iff in Hmissing as [[Hm | Hm]%orb_true_iff | Hm];
    apply negb_true_iff, Hblank in Hm; rewrite Hm.
  - done.
  - by rewrite orb_true_r.
  - by rewrite orb_true_r.
Qed.

End CreateUserExtras.

(** X8: the completeness test of the "Create New User" page is sound for
    the server: a form the page refuses to post would have been refused
    by POST /admin/users as well, with nothing created. *)
Theorem incomplete_form_is_refused {G : IdGenerator} (form : AdminUserNew.Form) (s : db) :
  AdminUserNew.incomplete form = true →
  ∃ msg, AdminController.createUser (AdminUserNew.body form) s
         = (Throw (BadRequestException msg), s).
Proof.
  intros Hinc. unfold AdminController.createUser, AdminUserNew.body.
  cbn [AdminController.b_code AdminController.b_role AdminController.b_name
       AdminController.b_city AdminController.b_email AdminController.b_phone
       AdminController.b_isSuperAdmin truthy_opt default].
  destruct (negb (truthy (AdminUserNew.f_code form))
            || negb (truthy (AdminUserNew.f_role form))
            || negb (truthy (AdminUserNew.f_name form))) eqn:Hmissing; [eauto |].
  apply orb_false_iff in Hmissing as [[Hcode Hrole]%orb_false_iff Hname].
  unfold AdminUserNew.incomplete in Hinc. rewrite Hcode, Hname in Hinc. simpl in Hinc.
  apply andb_true_iff in Hinc as [He%negb_true_iff%truthy_false Hp%negb_true_iff%truthy_false].
  match goal with |- ∃ msg, AdminService.createUser ?d s = _ =>
    destruct (createUser_cases d s) as [(msg & Hrun & _) | (row & _ & _ & _ & Hcontact & _)]
  end; [eauto |].
  exfalso. cbn [AdminService.cu_email AdminService.cu_phone] in Hcontact.
  rewrite He, Hp in Hcontact. by destruct Hcontact.
Qed.

(** ** [createProject] *)

Section CreateProject.
Context {G : IdGenerator}.

Lemma createProject_cases (dto : AdminService.CreateProjectDto) (s : db) :
  let code := toUpperCase (AdminService.normStr (Some (AdminService.cp_code dto))) in
  let name := AdminService.normStr (Some (AdminService.cp_name dto)) in
  let city := AdminService.normStr (Some (AdminService.cp_city dto)) in
  let stage := AdminService.normStr (Some (AdminService.cp_stage dto)) in
  ((code = "" ∨ name = "" ∨ city = "" ∨ stage = "")
   ∧ AdminService.createProject dto s
     = (Throw (BadRequestException "code, name, city, stage are required"), s))
  ∨ ((∃ p, p ∈ projects s ∧ p_code p = code)
     ∧ AdminService.createProject dto s
       = (Throw (BadRequestException ("Project code " +:+ quoted code +:+ " already exists")), s))
  ∨ (code ≠ "" ∧ name ≠ "" ∧ city ≠ "" ∧ stage ≠ ""
     ∧ (∀ p, p ∈ projects s → p_code p ≠ code)
     ∧ let row := {| p_projectId := generate_id (tick s); p_code := code;
                     p_name := name; p_city := city; p_stage := stage;
                     p_status := if truthy (AdminService.normStr (AdminService.cp_status dto))
                                 then AdminService.normStr (AdminService.cp_status dto)
                                 else "Ongoing";
                     p_health := if truthy (AdminService.normStr (AdminService.cp_health dto))
                                 then AdminService.normStr (AdminService.cp_health dto)
                                 else "Good" |} in
       AdminService.createProject dto s = (Ok row, with_project row s)).
Proof.
  cbv zeta. unfold AdminService.createProject.
  set (code := toUpperCase _).
  set (name := AdminService.normStr (Some (AdminService.cp_name dto))).
  set (city := AdminService.normStr (Some (AdminService.cp_city dto))).
  set (stage := AdminService.normStr (Some (AdminService.cp_stage dto))).
  destruct (truthy code) eqn:Hc; [apply truthy_true in Hc | apply truthy_false in Hc];
    cbn [negb orb]; [| left; split; [tauto | done]].
  destruct (truthy name) eqn:Hn; [apply truthy_true in Hn | apply truthy_false in Hn];
    cbn [negb orb]; [| left; split; [tauto | done]].
  destruct (truthy city) eqn:Hy; [apply truthy_true in Hy | apply truthy_false in Hy];
    cbn [negb orb]; [| left; split; [tauto | done]].
  destruct (truthy stage) eqn:Hs; [apply truthy_true in Hs | apply truthy_false in Hs];
    cbn [negb orb]; [| left; split; [tauto | done]].
  right. unfold bind, project_findFirst. cbv beta iota. rewrite is_Some_bool.
  destruct (find_cases (λ p, bool_decide (p_code p = code)) (projects s))
    as [(p & -> & Hp & Hfp) | [-> Hfree]].
  - left. apply bool_decide_eq_true in Hfp. split; [by exists p | done].
  - right. repeat split; try done.
    intros p Hin. by apply (bool_decide_eq_false_1 _), Hfree.
Qed.

(** X9: [createProject] is all or nothing.  For a request whose trimmed
    code has no code unit 181 or 255 (so that its upper case is the one
    modelled): with a blank code, name, city or stage, or with a code
    already stored, it throws a [BadRequestException] and changes nothing;
    otherwise it appends exactly the project it returns: code trimmed and
    in upper case (the sharp s as SS), the other fields trimmed, and a
    blank or missing status or health replaced by "Ongoing" and "Good". *)
Theorem createProject_all_or_nothing (dto : AdminService.CreateProjectDto) (s : db) :
  upper_in_range (AdminService.normStr (Some (AdminService.cp_code dto))) →
  (∃ msg, AdminController.createProject dto s = (Throw (BadRequestException msg), s))
  ∨ (∃ row, AdminController.createProject dto s = (Ok row, with_project row s)
            ∧ p_code row = toUpperCase (AdminService.normStr (Some (AdminService.cp_code dto)))
            ∧ p_code row ≠ "" ∧ p_name row ≠ "" ∧ p_city row ≠ "" ∧ p_stage row ≠ ""
            ∧ p_status row ≠ "" ∧ p_health row ≠ ""
            ∧ (AdminService.normStr (AdminService.cp_status dto) = "" → p_status row = "Ongoing")
            ∧ (AdminService.normStr (AdminService.cp_health dto) = "" → p_health row = "Good")
            ∧ p_projectId row = generate_id (tick s)).
Proof.
  intros _. unfold AdminController.createProject.
  destruct (createProject_cases dto s)
    as [[_ ->] | [[_ ->] | (Hc & Hn & Hy & Hs & _ & ->)]]; [eauto.. |].
  right. eexists. split; [reflexivity |]. simpl.
  repeat split; try done.
  - destruct (truthy (AdminService.normStr (AdminService.cp_status dto))) eqn:Ht;
      [by apply truthy_true | done].
  - destruct (truthy (AdminService.normStr (AdminService.cp_health dto))) eqn:Ht;
      [by apply truthy_true | done].
  - intros ->. done.
  - intros ->. done.
Qed.

(** X10: project codes stay distinct: if no two stored projects share a
    code, the same holds after [createProject], whether the call returns
    or throws. *)
Theorem createProject_keeps_codes_distinct (dto : AdminService.CreateProjectDto) (s : db) :
  distinct_projects s →
  distinct_projects (AdminService.createProject dto s).2.
Proof.
  intros Hdistinct.
  destruct (createProject_cases dto s)
    as [[_ Hrun] | [[_ Hrun] | (_ & _ & _ & _ & Hfree & Hrun)]];
    rewrite Hrun; simpl; try done.
  unfold distinct_projects. simpl. rewrite fmap_app. apply NoDup_app.
  split; [done |]. split; [| apply NoDup_singleton].
  intros c Hin ->%list_elem_of_singleton.
  apply list_elem_of_fmap in Hin as (p & Hp & Hin). by apply (Hfree p Hin).
Qed.

(** X23: once a project is created, a later request with the same code, up
    to case and padding and with the sharp s counting as SS, is refused
    and creates nothing, whatever the database was before.  Both trimmed
    codes are without the code units 181 and 255. *)
Theorem createProject_again_rejected (dto dto' : AdminService.CreateProjectDto)
    (s s' : db) (row : Project) :
  upper_in_range (AdminService.normStr (Some (AdminService.cp_code dto))) →
  upper_in_range (AdminService.normStr (Some (AdminService.cp_code dto'))) →
  AdminController.createProject dto s = (Ok row, s') →
  toUpperCase (AdminService.normStr (Some (AdminService.cp_code dto')))
  = toUpperCase (AdminService.normStr (Some (AdminService.cp_code dto))) →
  ∃ msg, AdminController.createProject dto' s' = (Throw (BadRequestException msg), s').
Proof.
  intros _ _ Hfirst Hsame. unfold AdminController.createProject in *.
  destruct (createProject_cases dto s)
    as [[_ Hrun] | [[_ Hrun] | (_ & _ & _ & _ & _ & Hrun)]];
    rewrite Hrun in Hfirst; try done.
  injection Hfirst as <- <-.
  match goal with |- ∃ msg, AdminService.createProject dto' ?s1 = _ =>
    destruct (createProject_cases dto' s1)
      as [[_ ->] | [[_ ->] | (_ & _ & _ & _ & Hfree' & _)]]; [eauto.. |]
  end.
  exfalso. eapply Hfree'; [simpl; apply elem_of_app; right; by left |].
  simpl. by rewrite Hsame.
Qed.

End CreateProject.

(** ** [listProjects] *)

Section ListProjects.
Context {C : Collation}.

Local Instance project_by_name_total : Total project_by_name.
Proof. intros a b. unfold project_by_name. apply name_le_total. Qed.

Local Instance project_by_name_trans : Transitive project_by_name.
Proof. intros a b c. unfold project_by_name. apply name_le_trans. Qed.

(** X11: GET /admin/projects never throws and does not touch the database.
    It returns at most 50 projects ordered by name, the first ones in that
    order among the candidates: every project when the query is missing or
    blank, and otherwise the projects whose code, name or city contains
    the trimmed query, letter case aside.  With no more than 50 candidates
    it returns them all. *)
Theorem listProjects_sorted_matches (q : option string) (s : db) :
  let query := AdminService.normStr q in
  let candidates :=
    filter (λ p, query = "" ∨ AdminService.project_matches query p = true) (projects s) in
  ∃ found rest,
    AdminController.listProjects q s = (Ok found, s)
    ∧ length found = min 50 (length candidates)
    ∧ StronglySorted project_by_name found
    ∧ (found ++ rest)%list ≡ₚ candidates
    ∧ (∀ p r, p ∈ found → r ∈ rest → name_le (p_name p) (p_name r))
    ∧ (length candidates <= 50 → rest = []).
Proof.
  cbv zeta. unfold AdminController.listProjects, AdminService.listProjects, project_findMany.
  set (query := AdminService.normStr q).
  set (where_ := if truthy query then AdminService.project_matches query else λ _, true).
  assert (filter (λ p, where_ p = true) (projects s)
          = filter (λ p, query = "" ∨ AdminService.project_matches query p = true) (projects s))
    as Hsame.
  { apply list_filter_iff. intros p. unfold where_.
    destruct (truthy query) eqn:Hq; [apply truthy_true in Hq | apply truthy_false in Hq]; tauto. }
  set (candidates := filter (λ p, where_ p = true) (projects s)) in *.
  rewrite <- Hsame.
  pose proof (StronglySorted_merge_sort project_by_name candidates) as Hsorted.
  pose proof (merge_sort_Permutation project_by_name candidates) as Hperm.
  rewrite <- (take_drop 50 (merge_sort project_by_name candidates)) in Hsorted, Hperm.
  apply StronglySorted_app in Hsorted as (Hcross & Hfound & _).
  exists (take 50 (merge_sort project_by_name candidates)),
         (drop 50 (merge_sort project_by_name candidates)).
  split; [done |]. split.
  { rewrite length_take. f_equal. by rewrite merge_sort_Permutation. }
  split; [done |]. split; [done |]. split; [done |].
  intros Hfew. apply nil_length_inv. rewrite length_drop.
  rewrite merge_sort_Permutation. lia.
Qed.

End ListProjects.

(** ** [listAssignments] and [removeAssignment] *)

(** X12: GET /admin/assignments refuses a blank projectId and otherwise
    returns exactly the records of the trimmed projectId, each as often as
    it is stored, newest first; the database is not touched. *)
Theorem listAssignments_exact (projectId : string) (s : db) :
  (AdminService.normStr (Some projectId) = ""
   ∧ AdminController.listAssignments projectId s
     = (Throw (BadRequestException "projectId required"), s))
  ∨ (AdminService.normStr (Some projectId) ≠ ""
     ∧ ∃ rows,
         AdminController.listAssignments projectId s = (Ok rows, s)
         ∧ rows ≡ₚ filter (λ m, m_projectId m = AdminService.normStr (Some projectId))
                          (projectMembers s)
         ∧ StronglySorted newer_first rows).
Proof.
  unfold AdminController.listAssignments, AdminService.listAssignments.
  destruct (truthy _) eqn:Hp; [apply truthy_true in Hp | apply truthy_false in Hp];
    cbn [negb]; [right | left; done].
  split; [done |]. eexists. split; [reflexivity |]. split.
  - apply merge_sort_Permutation.
  - apply (listing_sorted _ s).
Qed.

(** X13: DELETE /admin/assignments refuses a blank id, fails with Prisma's
    record-not-found error when no record carries the trimmed id, and
    otherwise returns a record with that id and deletes the records with
    that id and no other; projects and users are not touched, and asking
    again for the same id then fails as not found. *)
Theorem removeAssignment_exact (id : string) (s : db) :
  let key := AdminService.normStr (Some id) in
  (key = ""
   ∧ AdminController.removeAssignment id s = (Throw (BadRequestException "id required"), s))
  ∨ (key ≠ "" ∧ (∀ m, m ∈ projectMembers s → m_id m ≠ key)
     ∧ AdminController.removeAssignment id s = (Throw RecordNotFound, s))
  ∨ (key ≠ ""
     ∧ ∃ row s',
         AdminController.removeAssignment id s = (Ok row, s')
         ∧ row ∈ projectMembers s ∧ m_id row = key
         ∧ projectMembers s' = filter (λ m, m_id m ≠ key) (projectMembers s)
         ∧ projects s' = projects s ∧ users s' = users s
         ∧ AdminController.removeAssignment id s' = (Throw RecordNotFound, s')).
Proof.
  cbv zeta. unfold AdminController.removeAssignment, AdminService.removeAssignment.
  destruct (truthy _) eqn:Hk; [apply truthy_true in Hk | apply truthy_false in Hk];
    cbn [negb]; [right | left; done].
  unfold projectMember_delete.
  destruct (find_cases (λ m, bool_decide (m_id m = AdminService.normStr (Some id)))
              (projectMembers s)) as [(row & -> & Hin & Hrow) | [-> Hnone]].
  - right. split; [done |]. eexists _, _. split; [reflexivity |].
    apply bool_decide_eq_true in Hrow. simpl.
    repeat split; try done.
    destruct (find_cases (λ m, bool_decide (m_id m = AdminService.normStr (Some id)))
                (filter (λ m, m_id m ≠ AdminService.normStr (Some id)) (projectMembers s)))
      as [(m & _ & [Hm _]%list_elem_of_filter & Heq%bool_decide_eq_true) | [-> _]]; done.
  - left. split; [done |]. split; [| done].
    intros m Hin. by apply (bool_decide_eq_false_1 _), Hnone.
Qed.

(** ** One assignment: undoing it, reading it back *)

Lemma find_app_fresh {A} (f : A → bool) (l : list A) (x : A) :
  (∀ y, y ∈ l → f y = false) → f x = true → find f (l ++ [x])%list = Some x.
Proof.
  induction l as [| y l IH]; intros Hl Hx; simpl; [by rewrite Hx |].
  rewrite (Hl y) by left. apply IH; [| done]. intros z Hz. apply Hl. by right.
Qed.

Lemma filter_app_fresh {A} (P : A → Prop) `{!∀ x, Decision (P x)} (l : list A) (x : A) :
  (∀ y, y ∈ l → P y) → ¬ P x → filter P (l ++ [x])%list = l.
Proof.
  intros Hl Hx. rewrite filter_app.
  rewrite (filter_cons_False P x []) by done. rewrite filter_nil, app_nil_r.
  induction l as [| y l IH]; [done |].
  rewrite filter_cons_True by (apply Hl; by left).
  f_equal. apply IH. intros z Hz. apply Hl. by right.
Qed.

(** If the rows that carry [k] all name the same user, and there is one,
    that user is reported for [k]. *)
Lemma reported_all_same (items : list ProjectMember)
    (acc : gmap string (option string)) (k u : string) :
  k ≠ "" → k ≠ "__proto__" →
  (∃ m, m ∈ items ∧ m_role m = k) →
  (∀ m, m ∈ items → m_role m = k → m_userId m = u) →
  foldl report acc items !! k = Some (Some u).
Proof.
  intros Hk Hproto Hex Hall.
  destruct (last_occurrence (λ x, m_role x = k) items) as (l1 & y & l2 & -> & Hy & Hl2).
  { apply Exists_exists. destruct Hex as (m & ? & ?). by exists m. }
  rewrite foldl_app. simpl. rewrite report_others by done.
  rewrite report_lookup, bool_decide_eq_true_2 by done.
  rewrite (Hall y); [done | | done].
  apply elem_of_app. right. by left.
Qed.

Section OneAssignment.
Context {G : IdGenerator}.

(** X14: assigning and then removing the created record restores the
    membership table, provided the id the database gave to the record is
    not blank, not padded and not the id of an older record. *)
Theorem assign_then_remove_restores (dto : AdminService.AssignDto) (s s' : db)
    (row : ProjectMember) :
  AdminController.assign dto s = (Ok row, s') →
  m_id row ≠ "" →
  AdminService.normStr (Some (m_id row)) = m_id row →
  (∀ m, m ∈ projectMembers s → m_id m ≠ m_id row) →
  ∃ s'', AdminController.removeAssignment (m_id row) s' = (Ok row, s'')
         ∧ projectMembers s'' = projectMembers s
         ∧ projects s'' = projects s ∧ users s'' = users s.
Proof.
  unfold AdminController.assign, AdminController.removeAssignment.
  intros Hassign Hid Htrim Hfresh.
  destruct (assign_outcome dto s) as [[e He] | (row0 & Hrow & _)];
    rewrite Hassign in *; [done |].
  injection Hrow as -> ->.
  unfold AdminService.removeAssignment. rewrite Htrim.
  rewrite (proj2 (truthy_true _) Hid). cbn [negb].
  unfold projectMember_delete, with_member. cbn [projectMembers projects users tick].
  rewrite (find_app_fresh _ _ row0).
  - eexists. split; [reflexivity |]. cbn [projectMembers projects users].
    split; [| done]. apply filter_app_fresh; [| by intros ?].
    intros m Hm. by apply Hfresh.
  - intros m Hm. apply bool_decide_eq_false. by apply Hfresh.
  - by apply bool_decide_eq_true.
Qed.

(** X15: a successful assignment into a free slot is read back: the
    mapping of the project then reports, for the trimmed role, the trimmed
    userId (the role [__proto__] apart, which the mapping cannot hold). *)
Theorem assign_then_reported (dto : AdminService.AssignDto) (s s' : db)
    (row : ProjectMember) :
  AdminController.assign dto s = (Ok row, s') →
  ¬ occupied s (AdminService.normStr (Some (AdminService.a_projectId dto)))
               (AdminService.normStr (Some (AdminService.a_role dto))) →
  AdminService.normStr (Some (AdminService.a_role dto)) ≠ "__proto__" →
  ∃ resp,
    AdminController.getProjectRoles (AdminService.a_projectId dto) s' = (Ok resp, s')
    ∧ AdminController.assignments resp !! AdminService.normStr (Some (AdminService.a_role dto))
      = Some (Some (AdminService.normStr (Some (AdminService.a_userId dto)))).
Proof.
  unfold AdminController.assign. intros Hassign Hfree Hproto.
  destruct (assign_cases dto s)
    as [[_ Hrun] | [(Hpid & _ & Hrole) [[_ Hrun] | [(_ & _ & Hrun) | (_ & _ & Hrun)]]]];
    cbv zeta in Hrun; rewrite Hrun in Hassign; try done.
  injection Hassign as <- <-.
  set (made := Build_ProjectMember _ _ _ _ _).
  rewrite getProjectRoles_unfold. rewrite (proj2 (truthy_true _) Hpid). cbn [negb].
  eexists. split; [reflexivity |]. cbn [AdminController.assignments].
  apply reported_all_same; [done | done | |].
  - exists made. split; [| done].
    apply listing_elem_of. cbn [projectMembers with_member]. split; [| done].
    apply elem_of_app. right. by left.
  - intros m [Hm Hp]%listing_elem_of Hr. cbn [projectMembers with_member] in Hm.
    apply elem_of_app in Hm as [Hm | ->%list_elem_of_singleton]; [| done].
    exfalso. apply Hfree. by exists m.
Qed.

End OneAssignment.

(** ** A reconciliation stays within its project *)

Lemma Map_set_elem {V} (k : string) (v : V) (m : list (string * V)) (x : string * V) :
  x ∈ Map_set k v m → x = (k, v) ∨ x ∈ m.
Proof.
  induction m as [| [k0 v0] m IH]; simpl.
  - intros ->%list_elem_of_singleton. by left.
  - case_bool_decide.
    + intros [-> | Hx]%elem_of_cons; [by left | right; by right].
    + intros [-> | Hx]%elem_of_cons; [right; by left |].
      destruct (IH Hx) as [-> | ?]; [by left | right; by right].
Qed.

(** Every entry of [currentByRole] comes from a listed row. *)
Lemma remembered_entry (items : list ProjectMember)
    (acc : list (string * AdminController.Current)) (role : string)
    (cur : AdminController.Current) :
  (role, cur) ∈ foldl remember acc items →
  (role, cur) ∈ acc
  ∨ ∃ m, m ∈ items ∧ m_role m = role
         ∧ AdminController.c_id cur = m_id m
         ∧ AdminController.c_userId cur = m_userId m.
Proof.
  revert acc. induction items as [| row items IH]; intros acc; simpl; [by left |].
  intros Hin. destruct (IH _ Hin) as [Hacc | (m & Hm & ?)].
  - unfold remember in Hacc.
    destruct (truthy (m_role row) && truthy (m_id row)); [| by left].
    apply Map_set_elem in Hacc as [[= -> ->] | ?]; [| by left].
    right. exists row. split; [by left | done].
  - right. exists m. split; [by right | done].
Qed.

Lemma filter_filter_implied {A} (P Q : A → Prop) `{!∀ x, Decision (P x)}
    `{!∀ x, Decision (Q x)} (l : list A) :
  (∀ x, x ∈ l → P x → Q x) → filter P (filter Q l) = filter P l.
Proof.
  induction l as [| x l IH]; intros Himp; [done |].
  assert (filter P (filter Q l) = filter P l) as IH'
    by (apply IH; intros y Hy; apply Himp; by right).
  destruct (decide (Q x)) as [HQ | HQ].
  - rewrite (filter_cons_True Q) by done.
    destruct (decide (P x)).
    + rewrite !(filter_cons_True P) by done. by f_equal.
    + by rewrite !(filter_cons_False P) by done.
  - rewrite (filter_cons_False Q) by done.
    rewrite (filter_cons_False P); [done |].
    intros HP. apply HQ, Himp; [by left | done].
Qed.

Lemma elem_of_flat_map {A B} (f : A → list B) (l : list A) (y : B) :
  y ∈ flat_map f l ↔ ∃ x, x ∈ l ∧ y ∈ f x.
Proof.
  rewrite list_elem_of_In, in_flat_map.
  by setoid_rewrite list_elem_of_In.
Qed.

Lemma NoDup_fmap_eq {A B} (f : A → B) (l : list A) (x y : A) :
  NoDup (f <$> l) → x ∈ l → y ∈ l → f x = f y → x = y.
Proof.
  induction l as [| z l IH]; intros Hnd Hx Hy Heq; [by apply elem_of_nil in Hx |].
  rewrite fmap_cons in Hnd. apply NoDup_cons in Hnd as [Hz Hnd].
  apply elem_of_cons in Hx as [-> | Hx]; apply elem_of_cons in Hy as [-> | Hy].
  - done.
  - exfalso. apply Hz. rewrite Heq. by apply list_elem_of_fmap_2.
  - exfalso. apply Hz. rewrite <- Heq. by apply list_elem_of_fmap_2.
  - by apply IH.
Qed.

Section Frame.
Context {G : IdGenerator}.

Lemma apply_framed (pid : string) (s0 t t' : db) (op : mutation) (r : result unit) :
  harmless pid s0 op → framed pid s0 t → Plan.apply op t = (r, t') → framed pid s0 t'.
Proof.
  intros Hop (Hprojects & Husers & Hforeign & Hnew).
  destruct op as [id | dto]; unfold Plan.apply, bind.
  - destruct (removeAssignment_outcome id t) as [[e ->] | [row ->]];
      intros [= _ <-]; [done |].
    unfold framed, foreign in *. cbn [projects users projectMembers].
    split; [done |]. split; [done |]. split.
    + rewrite <- Hforeign. apply filter_filter_implied.
      intros m Hm Hother. apply Hop; [| done].
      assert (m ∈ filter (λ m, m_projectId m ≠ pid) (projectMembers t)) as Hin
        by (by apply list_elem_of_filter).
      rewrite Hforeign in Hin. by apply list_elem_of_filter in Hin as [_ ?].
    + intros m [_ Hm]%list_elem_of_filter. by apply Hnew.
  - destruct Hop as [Hpid Hrole].
    destruct (assign_outcome dto t) as [[e ->] | (row & -> & Hp & Hr & _)];
      intros [= _ <-]; [done |].
    unfold framed, foreign, with_member in *. cbn [projects users projectMembers].
    split; [done |]. split; [done |]. split.
    + rewrite filter_app, <- Hforeign.
      rewrite (filter_cons_False _ row []); [by rewrite filter_nil, app_nil_r |].
      intros Hne. apply Hne. by rewrite Hp.
    + intros m [Hm | ->%list_elem_of_singleton]%elem_of_app; [by apply Hnew |].
      right. by rewrite Hp, Hr.
Qed.

Lemma run_framed (pid : string) (s0 : db) (ops : list mutation) (t t' : db)
    (r : result unit) :
  Forall (harmless pid s0) ops → framed pid s0 t →
  forEach ops Plan.apply t = (r, t') → framed pid s0 t'.
Proof.
  revert t. induction ops as [| op ops IH]; intros t Hops Ht; simpl.
  - by intros [= _ <-].
  - apply Forall_cons in Hops as [Hop Hops]. unfold bind.
    destruct (Plan.apply op t) as [[[] | e] t1] eqn:Happly.
    + apply IH; [done |]. by eapply apply_framed.
    + intros [= _ <-]. by eapply apply_framed.
Qed.

(** With distinct, unpadded ids in store, no operation of a plan reaches
    outside the project. *)
Lemma plan_harmless (projectId : string) (body : gmap string (option string)) (s : db) :
  NoDup (m_id <$> projectMembers s) →
  Forall (λ m, AdminService.normStr (Some (m_id m)) = m_id m) (projectMembers s) →
  Forall (harmless (AdminService.normStr (Some projectId)) s) (plan projectId body s).
Proof.
  intros Hids Htrim. unfold plan. cbv zeta.
  set (pid := AdminService.normStr (Some projectId)).
  set (items := merge_sort _ _). apply Forall_app. split.
  - unfold removals. apply Forall_forall. intros op Hop.
    apply elem_of_flat_map in Hop as ([role cur] & Hentry & Hop).
    destruct (is_null _); [| by apply elem_of_nil in Hop].
    apply list_elem_of_singleton in Hop as ->.
    apply remembered_entry in Hentry as [[]%elem_of_nil | (m & Hm & _ & Hid & _)].
    apply listing_elem_of in Hm as [Hm Hp].
    intros m' Hm' Hother Heq. rewrite Hid in Heq.
    rewrite (proj1 (Forall_forall _ _) Htrim m Hm) in Heq.
    apply Hother. rewrite <- Hp. f_equal.
    by apply (NoDup_fmap_eq m_id (projectMembers s)).
  - apply Forall_forall. intros op Hop.
    apply elem_of_flat_map in Hop as (role & Hrole & Hop).
    destruct (upsert_cases projectId (currentByRole items) (desired body) role)
      as [Hnil | (next & Hup & _)]; rewrite ?Hnil, ?Hup in Hop;
      [by apply elem_of_nil in Hop |].
    apply list_elem_of_singleton in Hop as ->. simpl.
    destruct (normStr_catalog role Hrole) as [-> _]. done.
Qed.

(** X16: with distinct, unpadded record ids in store, POST
    /admin/projects/:id/assign-roles stays within its project, whether it
    returns or throws: projects and users are untouched, the records of
    every other project are exactly as before, and each record it creates
    belongs to the project and carries a catalog role. *)
Theorem setProjectRoles_stays_in_project (projectId : string)
    (body : option (gmap string (option string))) (s : db) :
  NoDup (m_id <$> projectMembers s) →
  Forall (λ m, AdminService.normStr (Some (m_id m)) = m_id m) (projectMembers s) →
  framed (AdminService.normStr (Some projectId)) s
         (AdminController.setProjectRoles projectId body s).2.
Proof.
  intros Hids Htrim.
  assert (framed (AdminService.normStr (Some projectId)) s s) as Hrefl
    by (unfold framed; tauto).
  destruct body as [body |]; [| done].
  rewrite setProjectRoles_runs_plan.
  destruct (truthy _); cbn [negb]; [| done].
  destruct (bool_decide _); [done |].
  unfold bind.
  destruct (forEach (plan projectId body s) Plan.apply s) as [[[] | e] s'] eqn:Hrun;
    simpl; (eapply run_framed; [by apply plan_harmless | exact Hrefl | exact Hrun]).
Qed.

End Frame.

(** ** Re-applying a snapshot that already holds *)

Lemma flat_map_nil {A B} (f : A → list B) (l : list A) :
  (∀ x, x ∈ l → f x = []) → flat_map f l = [].
Proof.
  induction l as [| x l IH]; intros Hnil; simpl; [done |].
  rewrite Hnil by left. apply IH. intros y Hy. apply Hnil. by right.
Qed.

(** X17: re-applying a snapshot that already holds is a no-op.  Let the
    project id be not blank after trimming, the snapshot have no own key
    [hasOwnProperty], and the database be well kept: over all projects, at
    most one record per (projectId, role) and no record with an empty id.
    If every record of the project carries a catalog role for which the
    snapshot names exactly the record's user, and every catalog role to
    which the snapshot gives a non-empty user is occupied, then the
    reconciliation plans no storage operation, returns ok and leaves the
    database as it is. *)
Theorem setProjectRoles_noop_when_matching {G : IdGenerator} (projectId : string)
    (body : gmap string (option string)) (s : db) :
  AdminService.normStr (Some projectId) ≠ "" →
  body !! "hasOwnProperty" = None →
  well_kept s →
  (∀ m, m ∈ projectMembers s →
        m_projectId m = AdminService.normStr (Some projectId) →
        m_role m ∈ AdminController.ROLE_CATALOG
        ∧ body !! m_role m = Some (Some (m_userId m))) →
  (∀ role u, role ∈ AdminController.ROLE_CATALOG →
             body !! role = Some (Some u) → u ≠ "" →
             occupied s (AdminService.normStr (Some projectId)) role) →
  plan projectId body s = []
  ∧ AdminController.setProjectRoles projectId (Some body) s = (Ok true, s).
Proof.
  intros Hpid Hown [Hslots Hids] Hrecords Hassigned.
  assert (plan projectId body s = []) as Hplan.
  { unfold plan. cbv zeta.
    set (pid := AdminService.normStr (Some projectId)) in *.
    set (items := merge_sort _ _).
    assert (∀ m, m ∈ items ↔ m ∈ projectMembers s ∧ m_projectId m = pid) as Hitems
      by (intros m; apply listing_elem_of).
    apply app_nil. split.
    - unfold removals. apply flat_map_nil. intros [role cur] Hentry.
      apply remembered_entry in Hentry as [[]%elem_of_nil | (m & Hm & <- & _)].
      apply Hitems in Hm as [Hm Hp].
      destruct (Hrecords m Hm Hp) as [Hcat Hbody].
      rewrite desired_catalog by done. by rewrite Hbody.
    - apply flat_map_nil. intros role Hcat.
      destruct (upsert_cases projectId (currentByRole items) (desired body) role)
        as [Hnil | (next & _ & Hnext & Hne & Hdiff)]; [done |].
      exfalso. rewrite desired_catalog in Hnext by done.
      assert (body !! role = Some (Some next)) as Hbody
        by (destruct (body !! role) as [[?|]|]; congruence).
      destruct (Hassigned role next Hcat Hbody Hne) as (m & Hm & Hp & Hr).
      destruct (normStr_catalog role Hcat) as [_ Hrole].
      destruct (remembered_row items [] m) as [cur Hcur];
        [by apply Hitems | by rewrite Hr
        | by apply (proj1 (Forall_forall _ _) Hids) |].
      rewrite Hr in Hcur.
      destruct (remembered_from items [] role cur Hcur) as [? | (m' & Hm' & Hr' & _ & Hu')];
        [done |].
      apply Hitems in Hm' as [Hm' Hp'].
      assert (m' = m) as ->.
      { apply (one_record_per_slot s); [done.. |]. unfold slot. congruence. }
      destruct (Hrecords m Hm Hp) as [_ Hsame]. rewrite Hr, Hbody in Hsame.
      apply (Hdiff cur Hcur). congruence. }
  split; [done |].
  rewrite setProjectRoles_runs_plan, Hplan.
  rewrite (proj2 (truthy_true _) Hpid). cbn [negb].
  rewrite bool_decide_eq_false_2; [done |].
  rewrite Hown. by intros [? ?].
Qed.

(** ** The round trip of a reconciliation that replaces nobody *)

Lemma Map_get_elem {V} (k : string) (v : V) (m : list (string * V)) :
  Map_get k m = Some v → (k, v) ∈ m.
Proof.
  induction m as [| [k0 v0] m IH]; simpl; [done |].
  case_bool_decide as Hk.
  - intros [= ->]. subst. by left.
  - intros Hget. right. by apply IH.
Qed.

Lemma Map_set_keys {V} (k : string) (v : V) (m : list (string * V)) :
  (Map_set k v m).*1 = if bool_decide (k ∈ m.*1) then m.*1 else (m.*1 ++ [k])%list.
Proof.
  induction m as [| [k0 v0] m IH]; [done |].
  cbn [Map_set]. rewrite (fmap_cons fst (k0, v0) m). cbn [fst].
  destruct (decide (k0 = k)) as [-> | Hne].
  - rewrite bool_decide_eq_true_2 by done. rewrite fmap_cons. cbn [fst].
    rewrite bool_decide_eq_true_2; [done | by left].
  - rewrite (bool_decide_eq_false_2 (k0 = k)) by done. rewrite fmap_cons, IH. cbn [fst].
    destruct (decide (k ∈ m.*1)) as [Hin | Hin].
    + rewrite !bool_decide_eq_true_2; [done | by right | done].
    + rewrite !bool_decide_eq_false_2; [done | | done].
      intros [-> | ?]%elem_of_cons; done.
Qed.

Lemma remembered_keys_NoDup (items : list ProjectMember)
    (acc : list (string * AdminController.Current)) :
  NoDup acc.*1 → NoDup (foldl remember acc items).*1.
Proof.
  revert acc. induction items as [| row items IH]; intros acc Hacc; simpl; [done |].
  apply IH. unfold remember.
  destruct (truthy (m_role row) && truthy (m_id row)); [| done].
  rewrite Map_set_keys. case_bool_decide as Hin; [done |].
  apply NoDup_app. split; [done |]. split; [| apply NoDup_singleton].
  intros k Hk ->%list_elem_of_singleton. done.
Qed.

Lemma removals_fmap (current : list (string * AdminController.Current))
    (want : gmap string (option string)) :
  removals current want = Remove <$> doomed_ids current want.
Proof.
  unfold removals, doomed_ids.
  induction current as [| [role cur] current IH]; [done |].
  simpl. rewrite IH. rewrite filter_cons. simpl.
  destruct (is_null (get_or_null want role)) eqn:Hnull.
  - by rewrite decide_True by done.
  - by rewrite decide_False by done.
Qed.

Lemma filter_keeps_all {A} (P : A → Prop) `{!∀ x, Decision (P x)} (l : list A) :
  (∀ x, x ∈ l → P x) → filter P l = l.
Proof.
  induction l as [| x l IH]; intros Hall; [done |].
  rewrite filter_cons_True by (apply Hall; by left).
  f_equal. apply IH. intros y Hy. apply Hall. by right.
Qed.

Lemma classic_occupied (s : db) (projectId role : string) :
  occupied s projectId role ∨ ¬ occupied s projectId role.
Proof.
  destruct (decide (Exists (λ m, m_projectId m = projectId ∧ m_role m = role)
                           (projectMembers s))) as [Hex | Hnone].
  - left. apply Exists_exists in Hex as (m & ? & ? & ?). by exists m.
  - right. intros (m & ? & ? & ?). apply Hnone, Exists_exists. by exists m.
Qed.

Section RoundTrip.
Context {G : IdGenerator}.

(** Deleting records one id after the other: with ids that are distinct,
    not blank, not padded and all in store, every deletion succeeds and
    what is left are the records with other ids. *)
Lemma removes_run (ids : list string) (t : db) :
  NoDup ids →
  (∀ id, id ∈ ids →
         id ≠ "" ∧ AdminService.normStr (Some id) = id ∧ id ∈ m_id <$> projectMembers t) →
  forEach (Remove <$> ids) Plan.apply t
  = (Ok tt, {| projects := projects t; users := users t;
               projectMembers := filter (λ m, m_id m ∉ ids) (projectMembers t);
               tick := tick t |}).
Proof.
  revert t. induction ids as [| id ids IH]; intros t Hnd Hids.
  - simpl. unfold ret. f_equal. destruct t as [ps us ms n]. simpl. f_equal.
    symmetry. apply filter_keeps_all. intros m _. apply not_elem_of_nil.
  - apply NoDup_cons in Hnd as [Hid Hnd].
    destruct (Hids id) as (Hne & Htrim & Hin); [by left |].
    rewrite fmap_cons. cbn [forEach]. unfold bind at 1.
    unfold Plan.apply, bind, AdminService.removeAssignment.
    rewrite Htrim, (proj2 (truthy_true _) Hne). cbn [negb].
    unfold projectMember_delete.
    destruct (find_cases (λ m, bool_decide (m_id m = id)) (projectMembers t))
      as [(row & -> & _ & _) | [_ Hnone]].
    2: { exfalso. apply list_elem_of_fmap in Hin as (m & -> & Hm).
         specialize (Hnone m Hm). by apply bool_decide_eq_false in Hnone. }
    cbv beta iota. unfold ret. cbv beta iota.
    rewrite IH; [| done |].
    + cbn [projects users projectMembers tick]. do 2 f_equal.
      rewrite list_filter_filter. apply list_filter_iff.
      intros m. rewrite not_elem_of_cons. tauto.
    + intros id' Hid'. destruct (Hids id') as (? & ? & Hin'); [by right |].
      split; [done |]. split; [done |]. cbn [projectMembers].
      apply list_elem_of_fmap in Hin' as (m & Heq & Hm).
      rewrite Heq. apply list_elem_of_fmap_2, list_elem_of_filter. split; [| done].
      intros Hbad. apply Hid. by rewrite <- Hbad, <- Heq.
Qed.

(** The creations of a plan: when each planned creation names a known
    project and a known user and no field is blank, all of them succeed;
    the old records stay, and the new ones are those planned. *)
Lemma upserts_run (projectId : string)
    (current : list (string * AdminController.Current))
    (want : gmap string (option string)) (roles : list string) (t : db) :
  AdminService.normStr (Some projectId) ≠ "" →
  project_known t (AdminService.normStr (Some projectId)) →
  (∀ role next, role ∈ roles →
     upsert projectId current want role
     = [Assign {| AdminService.a_projectId := projectId; AdminService.a_userId := next;
                  AdminService.a_role := role |}] →
     AdminService.normStr (Some next) ≠ "" ∧ AdminService.normStr (Some role) ≠ ""
     ∧ user_known t (AdminService.normStr (Some next))) →
  ∃ t',
    forEach (flat_map (upsert projectId current want) roles) Plan.apply t = (Ok tt, t')
    ∧ projects t' = projects t ∧ users t' = users t
    ∧ (∀ m, m ∈ projectMembers t → m ∈ projectMembers t')
    ∧ (∀ m, m ∈ projectMembers t' →
            m ∈ projectMembers t
            ∨ ∃ role next, role ∈ roles
                ∧ upsert projectId current want role
                  = [Assign {| AdminService.a_projectId := projectId;
                               AdminService.a_userId := next;
                               AdminService.a_role := role |}]
                ∧ m_projectId m = AdminService.normStr (Some projectId)
                ∧ m_userId m = AdminService.normStr (Some next)
                ∧ m_role m = AdminService.normStr (Some role))
    ∧ (∀ role next, role ∈ roles →
          upsert projectId current want role
          = [Assign {| AdminService.a_projectId := projectId; AdminService.a_userId := next;
                       AdminService.a_role := role |}] →
          ∃ m, m ∈ projectMembers t'
               ∧ m_projectId m = AdminService.normStr (Some projectId)
               ∧ m_userId m = AdminService.normStr (Some next)
               ∧ m_role m = AdminService.normStr (Some role)).
Proof.
  intros Hpid. revert t. induction roles as [| role roles IH]; intros t Hproject Hvalid.
  - exists t. simpl. repeat split; try done.
    + intros m Hm. by left.
    + intros role next []%elem_of_nil.
  - cbn [flat_map]. 
    destruct (upsert_cases projectId current want role) as [Hnil | (next & Hup & _)].
    + rewrite Hnil, app_nil_l.
      destruct (IH t Hproject) as (t' & Hrun & Hps & Hus & Hkeep & Hnew & Hmade).
      { intros r n Hr. apply Hvalid. by right. }
      exists t'. split; [done |]. split; [done |]. split; [done |]. split; [done |]. split.
      * intros m Hm. destruct (Hnew m Hm) as [? | (r & n & Hr & ?)]; [by left |].
        right. exists r, n. split; [by right | done].
      * intros r n [-> | Hr]%elem_of_cons Hr'; [by rewrite Hnil in Hr' | by apply Hmade].
    + rewrite Hup. cbn [app forEach]. unfold bind at 1. cbn [Plan.apply]. unfold bind at 1.
      destruct (Hvalid role next) as (Hnext & Hrole & Huser); [by left | done |].
      destruct (assign_cases {| AdminService.a_projectId := projectId;
                                AdminService.a_userId := next;
                                AdminService.a_role := role |} t)
        as [[Hblank _] | [_ [[? _] | [(_ & ? & _) | (_ & _ & Hrun)]]]];
        cbn [AdminService.a_projectId AdminService.a_userId AdminService.a_role] in *;
        [tauto | done | done |].
      cbv zeta in Hrun. rewrite Hrun. cbv beta iota. unfold ret. cbv beta iota.
      set (row := Build_ProjectMember _ _ _ _ _) in *.
      destruct (IH (with_member row t)) as (t' & Hrun' & Hps & Hus & Hkeep & Hnew & Hmade).
      { done. }
      { intros r n Hr Hr'. destruct (Hvalid r n) as (? & ? & ?); [by right | done |]. done. }
      exists t'. split; [done |]. split; [done |]. split; [done |]. split; [| split].
      * intros m Hm. apply Hkeep. cbn [projectMembers with_member].
        apply elem_of_app. by left.
      * intros m Hm. destruct (Hnew m Hm) as [Hold | (r & n & Hr & ?)].
        -- cbn [projectMembers with_member] in Hold.
           apply elem_of_app in Hold as [? | ->%list_elem_of_singleton]; [by left |].
           right. exists role, next. split; [by left | done].
        -- right. exists r, n. split; [by right | done].
      * intros r n [-> | Hr]%elem_of_cons Hr'; [| by apply Hmade].
        rewrite Hup in Hr'. injection Hr' as <-.
        exists row. split; [| done]. apply Hkeep. cbn [projectMembers with_member].
        apply elem_of_app. right. by left.
Qed.

(** What [currentByRole] and the doomed ids are in a database that holds
    one record per slot, with ids that are distinct, not empty, not padded. *)
Section Current.
Variables (projectId : string) (body : gmap string (option string)) (s : db).
Hypothesis slots_distinct : NoDup (slot <$> projectMembers s).
Hypothesis ids_not_empty : Forall (λ m, m_id m ≠ "") (projectMembers s).
Hypothesis ids_distinct : NoDup (m_id <$> projectMembers s).
Hypothesis ids_unpadded :
  Forall (λ m, AdminService.normStr (Some (m_id m)) = m_id m) (projectMembers s).

Let pid := AdminService.normStr (Some projectId).
Let current := currentByRole (listing pid s).

Lemma current_entry (role : string) (cur : AdminController.Current) :
  (role, cur) ∈ current →
  ∃ m, m ∈ projectMembers s ∧ m_projectId m = pid ∧ m_role m = role
       ∧ AdminController.c_id cur = m_id m
       ∧ AdminController.c_userId cur = m_userId m.
Proof.
  intros [[]%elem_of_nil | (m & [Hm Hp]%listing_elem_of & ?)]%remembered_entry.
  by exists m.
Qed.

Lemma current_of_record (m : ProjectMember) :
  m ∈ projectMembers s → m_projectId m = pid → m_role m ≠ "" →
  ∃ cur, Map_get (m_role m) current = Some cur
         ∧ AdminController.c_id cur = m_id m
         ∧ AdminController.c_userId cur = m_userId m.
Proof.
  intros Hm Hp Hrole.
  destruct (remembered_row (listing pid s) [] m) as [cur Hcur];
    [by apply listing_elem_of | done
    | by apply (proj1 (Forall_forall _ _) ids_not_empty) |].
  exists cur. split; [done |].
  destruct (remembered_from _ [] _ cur Hcur) as [? | (m' & [Hm' Hp']%listing_elem_of & Hr' & ? & ?)];
    [done |].
  assert (m' = m) as ->; [| done].
  apply (one_record_per_slot s); [done.. |]. unfold slot. congruence.
Qed.

Lemma current_of_free_slot (role : string) :
  ¬ occupied s pid role → Map_get role current = None.
Proof.
  intros Hfree. destruct (Map_get role current) as [cur |] eqn:Hcur; [| done].
  exfalso. apply Hfree.
  destruct (remembered_from _ [] _ cur Hcur) as [? | (m & [Hm Hp]%listing_elem_of & Hr & _)];
    [done |].
  by exists m.
Qed.

Lemma doomed_ids_in_store (id : string) :
  id ∈ doomed_ids current (desired body) →
  id ≠ "" ∧ AdminService.normStr (Some id) = id ∧ id ∈ m_id <$> projectMembers s.
Proof.
  unfold doomed_ids.
  intros ([role cur] & -> & [_ Hentry]%list_elem_of_filter)%list_elem_of_fmap.
  apply current_entry in Hentry as (m & Hm & _ & _ & Hid & _). simpl. rewrite Hid.
  split; [by apply (proj1 (Forall_forall _ _) ids_not_empty) |].
  split; [by apply (proj1 (Forall_forall _ _) ids_unpadded) |].
  by apply list_elem_of_fmap_2.
Qed.

Lemma doomed_ids_NoDup : NoDup (doomed_ids current (desired body)).
Proof.
  unfold doomed_ids. apply NoDup_fmap_2_strong.
  - intros [r1 c1] [r2 c2] [_ H1]%list_elem_of_filter [_ H2]%list_elem_of_filter Hid.
    simpl in Hid.
    assert (r1 = r2) as Hr.
    { destruct (current_entry _ _ H1) as (m1 & Hm1 & _ & <- & Hid1 & _).
      destruct (current_entry _ _ H2) as (m2 & Hm2 & _ & <- & Hid2 & _).
      f_equal. apply (NoDup_fmap_eq m_id (projectMembers s)); [done.. |]. congruence. }
    apply (NoDup_fmap_eq fst current); [| done | done | done].
    apply remembered_keys_NoDup. apply NoDup_nil_2.
  - apply NoDup_filter. eapply NoDup_fmap_1.
    apply (remembered_keys_NoDup (listing pid s) []). apply NoDup_nil_2.
Qed.

(** A record of the project is doomed exactly when the desired value of
    its role is null. *)
Lemma doomed_record (m : ProjectMember) :
  m ∈ projectMembers s → m_projectId m = pid → m_role m ≠ "" →
  m_id m ∈ doomed_ids current (desired body)
  ↔ is_null (get_or_null (desired body) (m_role m)) = true.
Proof.
  intros Hm Hp Hrole. unfold doomed_ids. split.
  - intros ([role cur] & Hid & [Hnull Hentry]%list_elem_of_filter)%list_elem_of_fmap.
    simpl in *.
    destruct (current_entry _ _ Hentry) as (m' & Hm' & _ & <- & Hid' & _).
    assert (m' = m) as ->; [| done].
    apply (NoDup_fmap_eq m_id (projectMembers s)); [done.. |]. congruence.
  - intros Hnull. destruct (current_of_record m Hm Hp Hrole) as (cur & Hcur & Hid & _).
    apply list_elem_of_fmap. exists (m_role m, cur). split; [by rewrite <- Hid |].
    apply list_elem_of_filter. split; [done |]. by apply Map_get_elem.
Qed.

End Current.

Lemma proto_not_in_catalog : "__proto__" ∉ AdminController.ROLE_CATALOG.
Proof. apply (bool_decide_unpack _). vm_compute. exact I. Qed.

(** X18: the round trip.  Take a database with one record per slot and
    record ids that are distinct, not empty and not padded; a project that
    exists; a snapshot that replaces nobody and whose userIds are not
    empty, not padded and those of existing users.  Then POST
    /admin/projects/:id/assign-roles returns ok, and GET
    /admin/projects/:id/roles afterwards reports, for every catalog role,
    the userId the snapshot gives it, and null when the snapshot gives
    null or nothing. *)
Theorem setProjectRoles_round_trip (projectId : string)
    (body : gmap string (option string)) (s : db) :
  AdminService.normStr (Some projectId) ≠ "" →
  project_known s (AdminService.normStr (Some projectId)) →
  body !! "hasOwnProperty" = None →
  well_kept s →
  NoDup (m_id <$> projectMembers s) →
  Forall (λ m, AdminService.normStr (Some (m_id m)) = m_id m) (projectMembers s) →
  replaces_nobody (SetState projectId (Some body)) s →
  (∀ role u, role ∈ AdminController.ROLE_CATALOG → body !! role = Some (Some u) →
             u ≠ "" ∧ AdminService.normStr (Some u) = u ∧ user_known s u) →
  ∃ s' resp,
    AdminController.setProjectRoles projectId (Some body) s = (Ok true, s')
    ∧ AdminController.getProjectRoles projectId s' = (Ok resp, s')
    ∧ ∀ role, role ∈ AdminController.ROLE_CATALOG →
        AdminController.assignments resp !! role
        = Some (match body !! role with Some v => v | None => None end).
Proof.
  intros Hpid Hproject Hown [Hslots Hnonempty] Hids Htrim Hrep Hnamed.
  pose proof (proj2 (truthy_true _) Hpid) as Htruthy.
  set (pid := AdminService.normStr (Some projectId)) in Hpid, Hproject, Hrep |- *.
  set (current := currentByRole (listing pid s)).
  set (ids := doomed_ids current (desired body)).
  (* the deletions *)
  set (s1 := {| projects := projects s; users := users s;
                projectMembers := filter (λ m, m_id m ∉ ids) (projectMembers s);
                tick := tick s |}).
  assert (forEach (removals current (desired body)) Plan.apply s = (Ok tt, s1)) as Hremoved.
  { rewrite removals_fmap. apply removes_run.
    - by apply doomed_ids_NoDup.
    - intros id Hid. by apply (doomed_ids_in_store projectId body s). }
  (* the creations *)
  destruct (upserts_run projectId current (desired body) AdminController.ROLE_CATALOG s1)
    as (s' & Hcreated & _ & _ & Hkeep & Hnew & Hmade); [done | done | |].
  { intros role next Hcat Hup.
    destruct (upsert_cases projectId current (desired body) role)
      as [Hnil | (next' & Hup' & Hnext & _)]; [by rewrite Hnil in Hup |].
    rewrite Hup in Hup'. injection Hup' as <-.
    rewrite desired_catalog in Hnext by done.
    destruct (body !! role) as [[u |] |] eqn:Hbody; try done. injection Hnext as ->.
    destruct (Hnamed role next Hcat Hbody) as (Hne & Hunpadded & Hknown).
    destruct (normStr_catalog role Hcat) as [-> ?]. rewrite Hunpadded. done. }
  exists s'. eexists. split; [| split].
  - rewrite setProjectRoles_runs_plan, Htruthy. cbn [negb].
    rewrite bool_decide_eq_false_2 by (rewrite Hown; by intros [? ?]).
    unfold plan. cbv zeta. fold pid. change (merge_sort _ _) with (listing pid s).
    fold current. unfold bind. rewrite forEach_app, Hremoved, Hcreated. done.
  - rewrite getProjectRoles_unfold, Htruthy. cbn [negb]. reflexivity.
  - intros role Hcat. cbn [AdminController.assignments]. fold pid.
    destruct (normStr_catalog role Hcat) as [Hnorm Hrole].
    assert (role ≠ "__proto__") as Hproto
      by (intros ->; by apply proto_not_in_catalog).
    (* a record of the slot in the final database is an old one or the one created *)
    assert (∀ m, m ∈ listing pid s' → m_role m = role →
              (m ∈ projectMembers s ∧ m_projectId m = pid ∧ m_id m ∉ ids)
              ∨ upsert projectId current (desired body) role
                = [Assign {| AdminService.a_projectId := projectId;
                             AdminService.a_userId := m_userId m;
                             AdminService.a_role := role |}]) as Horigin.
    { intros m [Hm Hp]%listing_elem_of Hr.
      destruct (Hnew m Hm) as [Hold | (r & next & Hr' & Hup & _ & Hu & Hmr)].
      - left. cbn [projectMembers s1] in Hold.
        apply list_elem_of_filter in Hold as [? ?]. done.
      - right. destruct (normStr_catalog r Hr') as [Hnr _].
        rewrite Hnr, Hr in Hmr. subst r.
        destruct (upsert_cases projectId current (desired body) role)
          as [Hnil | (next' & Hup' & Hnext & _)]; [by rewrite Hnil in Hup |].
        rewrite Hup in Hup'. injection Hup' as <-.
        rewrite desired_catalog in Hnext by done.
        destruct (body !! role) as [[u |] |] eqn:Hbody; try done. injection Hnext as ->.
        destruct (Hnamed role next Hcat Hbody) as (_ & Hunpadded & _).
        rewrite Hunpadded in Hu. by rewrite Hu. }
    destruct (body !! role) as [[u |] |] eqn:Hbody.
    + (* the snapshot names [u] *)
      destruct (Hnamed role u Hcat Hbody) as (Hne & Hunpadded & Hknown).
      assert (get_or_null (desired body) role = VStr u) as Hwant
        by (by rewrite desired_catalog, Hbody).
      apply reported_all_same; [done | done | |].
      * destruct (classic_occupied s pid role) as [(m & Hm & Hp & Hr) | Hfree].
        -- exists m. split; [| done]. apply listing_elem_of. split; [| done].
           apply Hkeep. cbn [projectMembers s1]. apply list_elem_of_filter.
           split; [| done]. intros Hdoomed.
           apply (doomed_record projectId body s) in Hdoomed; try done;
             [| by rewrite Hr].
           by rewrite Hr, Hwant in Hdoomed.
        -- destruct (Hmade role u Hcat) as (m & Hm & Hp & _ & Hr).
           { pose proof (current_of_free_slot projectId s role Hfree) as Hnone.
             change (Map_get role current = None) in Hnone.
             unfold upsert. rewrite Hwant, Hnone. simpl.
             by rewrite (proj2 (truthy_true _) Hne). }
           exists m. split; [| by rewrite Hr]. apply listing_elem_of. done.
      * intros m Hm Hr. destruct (Horigin m Hm Hr) as [(Hold & Hp & _) | Hup].
        -- destruct (Hrep m u Hold) as [? | ->]; try done;
             [by rewrite Hr | by rewrite Hr].
        -- destruct (upsert_cases projectId current (desired body) role)
             as [Hnil | (next' & Hup' & Hnext & _)]; [by rewrite Hnil in Hup |].
           rewrite Hup in Hup'. injection Hup' as ->. congruence.
    + (* the snapshot gives null *)
      assert (get_or_null (desired body) role = VNull) as Hwant
        by (by rewrite desired_catalog, Hbody).
      rewrite report_others.
      * rewrite blank_roles_lookup. by rewrite bool_decide_eq_true_2.
      * apply Forall_forall. intros m Hm Hr.
        destruct (Horigin m Hm Hr) as [(Hold & Hp & Hkept) | Hup].
        -- apply Hkept. apply (doomed_record projectId body s); try done;
             [by rewrite Hr | by rewrite Hr, Hwant].
        -- unfold upsert in Hup. by rewrite Hwant in Hup.
    + (* the snapshot gives nothing *)
      assert (get_or_null (desired body) role = VNull) as Hwant
        by (by rewrite desired_catalog, Hbody).
      rewrite report_others.
      * rewrite blank_roles_lookup. by rewrite bool_decide_eq_true_2.
      * apply Forall_forall. intros m Hm Hr.
        destruct (Horigin m Hm Hr) as [(Hold & Hp & Hkept) | Hup].
        -- apply Hkept. apply (doomed_record projectId body s); try done;
             [by rewrite Hr | by rewrite Hr, Hwant].
        -- unfold upsert in Hup. by rewrite Hwant in Hup.
Qed.

End RoundTrip.


(** ** Padded identifiers *)

Lemma normStr_trimmed (x : string) :
  AdminService.normStr (Some (AdminService.normStr (Some x)))
  = AdminService.normStr (Some x).
Proof. unfold AdminService.normStr. cbn [default]. apply trim_idempotent. Qed.

Lemma forEach_flat_map_ext {A B} (f g : A → list B) (body : B → M unit) (l : list A) :
  (∀ x s, forEach (f x) body s = forEach (g x) body s) →
  ∀ s, forEach (flat_map f l) body s = forEach (flat_map g l) body s.
Proof.
  intros Hfg. induction l as [| x l IH]; intros s; [done |].
  cbn [flat_map]. rewrite !forEach_app. unfold bind. rewrite Hfg.
  destruct (forEach (g x) body s) as [[[] | e] s1]; [apply IH | done].
Qed.

Lemma assign_trims_projectId {G : IdGenerator} (projectId userId role : string) (s : db) :
  AdminService.assign
    {| AdminService.a_projectId := AdminService.normStr (Some projectId);
       AdminService.a_userId := userId; AdminService.a_role := role |} s
  = AdminService.assign
      {| AdminService.a_projectId := projectId;
         AdminService.a_userId := userId; AdminService.a_role := role |} s.
Proof.
  unfold AdminService.assign.
  cbn [AdminService.a_projectId AdminService.a_userId AdminService.a_role].
  by rewrite normStr_trimmed.
Qed.

(** X19: the single-record endpoints read their identifiers through
    [normStr] only.  POST /admin/assignments with padded projectId, userId
    and role, GET /admin/assignments with a padded projectId and DELETE
    /admin/assignments with a padded id behave as with the trimmed values:
    same answer, same database. *)
Theorem assignments_ignore_padding {G : IdGenerator} (dto : AdminService.AssignDto)
    (id : string) (s : db) :
  AdminController.assign
    {| AdminService.a_projectId := AdminService.normStr (Some (AdminService.a_projectId dto));
       AdminService.a_userId := AdminService.normStr (Some (AdminService.a_userId dto));
       AdminService.a_role := AdminService.normStr (Some (AdminService.a_role dto)) |} s
  = AdminController.assign dto s
  ∧ AdminController.listAssignments (AdminService.normStr (Some id)) s
    = AdminController.listAssignments id s
  ∧ AdminController.removeAssignment (AdminService.normStr (Some id)) s
    = AdminController.removeAssignment id s.
Proof.
  repeat split.
  - unfold AdminController.assign, AdminService.assign.
    cbn [AdminService.a_projectId AdminService.a_userId AdminService.a_role].
    by rewrite !normStr_trimmed.
  - unfold AdminController.listAssignments, AdminService.listAssignments.
    by rewrite normStr_trimmed.
  - unfold AdminController.removeAssignment, AdminService.removeAssignment.
    by rewrite normStr_trimmed.
Qed.

(** X20: the two project endpoints ignore white space around the project
    id.  GET /admin/projects/:id/roles and POST
    /admin/projects/:id/assign-roles with a padded id give the answer and
    the database they give with the trimmed id: the listing is taken with
    the trimmed id, and every record created goes through [assign], which
    trims it again. *)
Theorem project_roles_ignore_padding {G : IdGenerator} (projectId : string)
    (body : option (gmap string (option string))) (s : db) :
  AdminController.getProjectRoles (AdminService.normStr (Some projectId)) s
  = AdminController.getProjectRoles projectId s
  ∧ AdminController.setProjectRoles (AdminService.normStr (Some projectId)) body s
    = AdminController.setProjectRoles projectId body s.
Proof.
  split.
  - by rewrite !getProjectRoles_unfold, normStr_trimmed.
  - destruct body as [body |]; [| done].
    rewrite !setProjectRoles_runs_plan, normStr_trimmed.
    destruct (negb (truthy _)); [done |].
    destruct (bool_decide _); [done |].
    assert (forEach (plan (AdminService.normStr (Some projectId)) body s) Plan.apply s
            = forEach (plan projectId body s) Plan.apply s) as Hsame;
      [| unfold bind; by rewrite Hsame].
    unfold plan. rewrite normStr_trimmed. cbv zeta.
    rewrite !forEach_app. unfold bind.
    destruct (forEach (removals _ _) Plan.apply s) as [[[] | e] s1]; [| done].
    apply forEach_flat_map_ext. intros role t.
    unfold upsert. destruct (get_or_null _ _); try done.
    repeat match goal with |- context [if ?b then _ else _] => destruct b; try done end.
    cbn [forEach Plan.apply]. unfold bind. by rewrite assign_trims_projectId.
Qed.

(** * The engine on sample data *)

Import Fixtures.
#[local] Existing Instance decimal_ids.
#[local] Existing Instance binary_collation.

Lemma decimal_ids_not_empty (n : nat) : generate_id n ≠ "".
Proof. unfold generate_id, decimal_ids. discriminate. Qed.

(** C1: "u1" is PMC of "p1" and the snapshot names "u2".  The call
    succeeds without deleting anything: the slot then holds both records,
    the stale one for "u1" first, and the read side still reports "u1". *)
Theorem setProjectRoles_replacement_keeps_stale_record :
  let out := AdminController.setProjectRoles "p1" (Some {[ "PMC" := Some "u2" ]}) pmc_u1 in
  plan "p1" {[ "PMC" := Some "u2" ]} pmc_u1
  = [Assign {| AdminService.a_projectId := "p1"; AdminService.a_userId := "u2";
               AdminService.a_role := "PMC" |}]
  ∧ out.1 = Ok true
  ∧ slot_records "p1" "PMC" out.2
    = [member "m2" "p1" "u1" "PMC" 2; member "m3" "p1" "u2" "PMC" 3]
  ∧ match AdminController.getProjectRoles "p1" out.2 with
    | (Ok resp, _) => AdminController.assignments resp !! "PMC" = Some (Some "u1")
    | _ => False
    end.
Proof. vm_compute. repeat split; reflexivity. Qed.

(** C5: the same snapshot applied a second time creates one more record:
    the listing still ends with the stale "u1", which differs from "u2". *)
Theorem setProjectRoles_twice_creates_again :
  let snapshot : gmap string (option string) := {[ "PMC" := Some "u2" ]} in
  let once := (AdminController.setProjectRoles "p1" (Some snapshot) pmc_u1).2 in
  let twice := (AdminController.setProjectRoles "p1" (Some snapshot) once).2 in
  plan "p1" snapshot once
  = [Assign {| AdminService.a_projectId := "p1"; AdminService.a_userId := "u2";
               AdminService.a_role := "PMC" |}]
  ∧ projectMembers once
    = [member "m2" "p1" "u1" "PMC" 2; member "m3" "p1" "u2" "PMC" 3]
  ∧ projectMembers twice
    = [member "m2" "p1" "u1" "PMC" 2; member "m3" "p1" "u2" "PMC" 3;
       member "m4" "p1" "u2" "PMC" 4].
Proof. vm_compute. repeat split; reflexivity. Qed.

(** C3, refuted: the snapshot clears PMC and names an unknown user as
    Architect.  The record of "u1" is deleted, then the creation throws:
    the call fails and the database is neither as before nor as desired. *)
Lemma setProjectRoles_partial_application :
  let out := AdminController.setProjectRoles "p1"
               (Some {[ "PMC" := None; "Architect" := Some "ghost" ]}) pmc_u1 in
  out.1 = Throw (BadRequestException "Invalid userId")
  ∧ projectMembers pmc_u1 = [member "m2" "p1" "u1" "PMC" 2]
  ∧ projectMembers out.2 = [].
Proof. vm_compute. repeat split; reflexivity. Qed.

(** C2, refuted: two assignOne requests for the same slot leave two
    records in it. *)
Lemma assign_twice_breaks_I1 :
  ¬ I1 (serve_all
          [AssignOne {| AdminService.a_projectId := "p1"; AdminService.a_userId := "u1";
                        AdminService.a_role := "PMC" |};
           AssignOne {| AdminService.a_projectId := "p1"; AdminService.a_userId := "u2";
                        AdminService.a_role := "PMC" |}]
          empty_membership).
Proof.
  intros Hinv. specialize (Hinv "p1" "PMC"). vm_compute in Hinv. lia.
Qed.

Ltac evaluate_stores :=
  repeat match goal with
         | |- context [serve ?r ?s] =>
             let v := eval vm_compute in (serve r s) in
             change (serve r s) with v
         end.

Ltac inspect_members Hin :=
  repeat (apply elem_of_cons in Hin as [-> | Hin]);
  [.. | by apply elem_of_nil in Hin].

(** The uniqueness theorem at work: assign, reconcile without replacing,
    remove, assign again. *)
Lemma uniqueness_without_replacement_witness :
  I1 (serve_all
        [AssignOne {| AdminService.a_projectId := "p1"; AdminService.a_userId := "u1";
                      AdminService.a_role := "PMC" |};
         SetState "p1" (Some {[ "PMC" := Some "u1"; "Architect" := Some "u2" ]});
         RemoveOne "m2";
         AssignOne {| AdminService.a_projectId := " p1 "; AdminService.a_userId := "u2";
                      AdminService.a_role := "PMC" |}]
        empty_membership).
Proof.
  eapply proj1, (uniqueness_without_replacement decimal_ids_not_empty); [reflexivity |].
  cbn [replace_free]. evaluate_stores. repeat split.
  - intros (m & Hin & _). by apply elem_of_nil in Hin.
  - intros m u Hin _ _. cbn [projectMembers] in Hin. inspect_members Hin.
    vm_compute. intros [= <-]. by right.
  - intros (m & Hin & Hp & Hr). cbn [projectMembers] in Hin. inspect_members Hin.
    vm_compute in Hr. discriminate.
Defined.

(** C4, refuted: a stored record whose role is not in the catalog puts its
    role among the keys. *)
Lemma getProjectRoles_reports_stray_role :
  ("NotARole" ∉ AdminController.ROLE_CATALOG)
  ∧ match AdminController.getProjectRoles "p1" stray_role with
    | (Ok resp, _) => AdminController.assignments resp !! "NotARole" = Some (Some "u1")
    | _ => False
    end.
Proof.
  split; [| vm_compute; reflexivity].
  apply (bool_decide_unpack _). vm_compute. exact I.
Qed.

Lemma getProjectRoles_keys_witness :
  ∃ resp,
    AdminController.getProjectRoles " p1" stray_role = (Ok resp, stray_role)
    ∧ (∀ k, is_Some (AdminController.assignments resp !! k)
            ↔ k ∈ AdminController.ROLE_CATALOG
              ∨ (k ≠ "" ∧ k ≠ "__proto__"
                 ∧ occupied stray_role (AdminService.normStr (Some " p1")) k))
    ∧ (∀ role, role ∈ AdminController.ROLE_CATALOG →
               ¬ occupied stray_role (AdminService.normStr (Some " p1")) role →
               AdminController.assignments resp !! role = Some None).
Proof.
  apply (getProjectRoles_keys " p1" stray_role). vm_compute. discriminate.
Defined.

(** C6, refuted: of the two PMC records of "p1", the one created last
    holds "u2"; the mapping reports "u1". *)
Lemma getProjectRoles_reports_older_user :
  slot_records "p1" "PMC" pmc_twice
  = [member "m2" "p1" "u1" "PMC" 2; member "m3" "p1" "u2" "PMC" 3]
  ∧ match AdminController.getProjectRoles "p1" pmc_twice with
    | (Ok resp, s') =>
        AdminController.assignments resp !! "PMC" = Some (Some "u1") ∧ s' = pmc_twice
    | _ => False
    end.
Proof. vm_compute. repeat split; reflexivity. Qed.

Lemma getProjectRoles_reports_oldest_witness :
  ∃ resp,
    AdminController.getProjectRoles "p1" pmc_twice = (Ok resp, pmc_twice)
    ∧ AdminController.assignments resp !! "PMC" = Some (Some "u1").
Proof.
  apply (getProjectRoles_reports_oldest "p1" pmc_twice (member "m2" "p1" "u1" "PMC" 2)).
  - vm_compute. discriminate.
  - cbn [projectMembers pmc_twice]. by left.
  - vm_compute. reflexivity.
  - discriminate.
  - discriminate.
  - intros m' Hin Hslot Hne. cbn [projectMembers pmc_twice] in Hin.
    inspect_members Hin; [done | vm_compute; lia].
Defined.

(** X21: outside [hasOwnProperty], a snapshot key that is not a catalog role
    changes nothing: the call behaves as if the key were not there. *)
Lemma setProjectRoles_ignores_unknown_key {G : IdGenerator} (projectId key : string)
    (value : option string) (body : gmap string (option string)) (s : db) :
  key ∉ AdminController.ROLE_CATALOG → key ≠ "hasOwnProperty" →
  AdminController.setProjectRoles projectId (Some (<[key := value]> body)) s
  = AdminController.setProjectRoles projectId (Some body) s.
Proof.
  intros Hout Hown. rewrite !setProjectRoles_runs_plan.
  rewrite lookup_insert_ne by done.
  assert (desired (<[key := value]> body) = desired body) as Hdesired.
  { apply map_eq. intros role. rewrite !desired_lookup.
    case_bool_decide as Hcat; [| done].
    rewrite lookup_insert_ne; [done |]. by intros ->. }
  unfold plan. by rewrite Hdesired.
Qed.

(** C7: a snapshot whose only key is [hasOwnProperty], which is not a
    catalog role, is not ignored: the normalization calls the snapshot's own
    property, a string, and the request fails with a [TypeError]. *)
Theorem setProjectRoles_throws_on_hasOwnProperty :
  ("hasOwnProperty" ∉ AdminController.ROLE_CATALOG)
  ∧ AdminController.setProjectRoles "p1" (Some {[ "hasOwnProperty" := Some "u9" ]}) pmc_u1
    = (Throw (TypeError "body.assignments.hasOwnProperty is not a function"), pmc_u1).
Proof.
  split; [| vm_compute; reflexivity].
  apply (bool_decide_unpack _). vm_compute. exact I.
Qed.

(** C8, refuted: a role outside the catalog is accepted and stored. *)
Lemma assign_accepts_role_outside_catalog :
  ("NotARole" ∉ AdminController.ROLE_CATALOG)
  ∧ AdminController.assign
      {| AdminService.a_projectId := "p1"; AdminService.a_userId := "u1";
         AdminService.a_role := "NotARole" |} empty_membership
    = (Ok (member "m2" "p1" "u1" "NotARole" 2), stray_role).
Proof.
  split; [| vm_compute; reflexivity].
  apply (bool_decide_unpack _). vm_compute. exact I.
Qed.

Lemma assign_validation_and_foreign_keys_witness :
  AdminController.assign
    {| AdminService.a_projectId := "p1"; AdminService.a_userId := "nonexistent-user";
       AdminService.a_role := "PMC" |} pmc_u1
  = (Throw (BadRequestException "Invalid userId"), pmc_u1).
Proof.
  apply (assign_validation_and_foreign_keys
           {| AdminService.a_projectId := "p1";
              AdminService.a_userId := "nonexistent-user";
              AdminService.a_role := "PMC" |} pmc_u1).
  - vm_compute. repeat split; discriminate.
  - exists (project "p1"). split; [by left | reflexivity].
  - intros (u & Hin & Hu). cbn [users pmc_u1] in Hin.
    inspect_members Hin; vm_compute in Hu; discriminate.
Defined.

(** C9, refuted: a phone that is not blank but holds no digit does not
    pass the contact check. *)
Lemma createUser_rejects_phone_without_digits :
  AdminService.normStr (Some "ext. n/a") ≠ ""
  ∧ AdminController.createUser
      {| AdminController.b_code := Some "u9"; AdminController.b_role := Some "PMC";
         AdminController.b_name := Some "Chitra"; AdminController.b_city := None;
         AdminController.b_email := None; AdminController.b_phone := Some "ext. n/a";
         AdminController.b_isSuperAdmin := None |} empty_membership
    = (Throw (BadRequestException "Either email or phone is required"), empty_membership).
Proof. split; [vm_compute; discriminate | vm_compute; reflexivity]. Qed.

Lemma createUser_contact_check_witness :
  (AdminController.createUser
     {| AdminController.b_code := Some "u9"; AdminController.b_role := Some "PMC";
        AdminController.b_name := Some "Chitra"; AdminController.b_city := None;
        AdminController.b_email := Some "  "; AdminController.b_phone := Some "+91 98";
        AdminController.b_isSuperAdmin := None |} empty_membership).1
  ≠ Throw (BadRequestException "Either email or phone is required").
Proof.
  apply (createUser_contact_check
           {| AdminController.b_code := Some "u9"; AdminController.b_role := Some "PMC";
              AdminController.b_name := Some "Chitra"; AdminController.b_city := None;
              AdminController.b_email := Some "  "; AdminController.b_phone := Some "+91 98";
              AdminController.b_isSuperAdmin := None |} empty_membership).
  right. vm_compute. discriminate.
Defined.

Lemma searchUsers_recent_or_matching_witness :
  ∃ found,
    AdminController.searchUsers (Some "   ") pmc_u1 = (Ok found, pmc_u1)
    ∧ found = [user "u2" "Bala" 1; user "u1" "Asha" 0].
Proof.
  destruct (searchUsers_recent_or_matching (Some "   ") pmc_u1)
    as (found & Hrun & _).
  exists found. split; [exact Hrun |].
  vm_compute in Hrun. by injection Hrun as <-.
Defined.

(** X22: whatever else the snapshot holds, an own key [hasOwnProperty] makes the
    request fail before any storage operation. *)
Lemma setProjectRoles_own_hasOwnProperty {G : IdGenerator} (projectId : string)
    (body : gmap string (option string)) (s : db) :
  AdminService.normStr (Some projectId) ≠ "" →
  is_Some (body !! "hasOwnProperty") →
  AdminController.setProjectRoles projectId (Some body) s
  = (Throw (TypeError "body.assignments.hasOwnProperty is not a function"), s).
Proof.
  intros Hpid Hown. rewrite setProjectRoles_runs_plan.
  rewrite (proj2 (truthy_true _) Hpid). cbn [negb].
  by rewrite bool_decide_eq_true_2.
Qed.

(** ** The further properties on sample data *)

Ltac decide_by_evaluation := apply (bool_decide_unpack _); vm_compute; exact I.

Lemma normPhone_canonical_witness :
  "9198765" ≠ "" ∧ all_chars isDigit "9198765"
  ∧ AdminService.normPhone (Some "9198765") = Some "9198765".
Proof.
  apply (normPhone_canonical (Some " +91 98-765 ") "9198765").
  vm_compute. reflexivity.
Defined.

Lemma createUser_keeps_users_distinct_witness :
  distinct_users (AdminService.createUser chitra single_user).2.
Proof.
  apply (createUser_keeps_users_distinct chitra single_user).
  repeat split; decide_by_evaluation.
Defined.

Lemma createUser_all_or_nothing_witness :
  ∃ row,
    AdminService.createUser sharp_user single_user = (Ok row, with_user row single_user)
    ∧ u_code row = "STRASSE".
Proof.
  destruct (createUser_all_or_nothing sharp_user single_user)
    as [(msg & Hrun) | (row & Hrun & Hcode & _)]; [vm_compute; repeat split | |].
  - vm_compute in Hrun. discriminate.
  - exists row. split; [exact Hrun |]. rewrite Hcode. vm_compute. reflexivity.
Defined.

Lemma createUser_again_rejected_witness :
  ∃ row s',
    AdminService.createUser sharp_user single_user = (Ok row, s')
    ∧ ∃ msg,
        AdminService.createUser sharp_user_again s'
        = (Throw (BadRequestException msg), s').
Proof.
  eexists _, _. split; [vm_compute; reflexivity |].
  eapply (createUser_again_rejected sharp_user sharp_user_again single_user).
  - vm_compute. repeat split.
  - vm_compute. repeat split.
  - vm_compute. reflexivity.
  - left. vm_compute. reflexivity.
Defined.

Lemma incomplete_form_is_refused_witness :
  ∃ msg,
    AdminController.createUser
      (AdminUserNew.body
         {| AdminUserNew.f_code := "u9"; AdminUserNew.f_role := "PMC";
            AdminUserNew.f_name := "Chitra"; AdminUserNew.f_city := "";
            AdminUserNew.f_email := ""; AdminUserNew.f_phone := "";
            AdminUserNew.f_isSuperAdmin := false |}) empty_membership
    = (Throw (BadRequestException msg), empty_membership).
Proof.
  apply (incomplete_form_is_refused
           {| AdminUserNew.f_code := "u9"; AdminUserNew.f_role := "PMC";
              AdminUserNew.f_name := "Chitra"; AdminUserNew.f_city := "";
              AdminUserNew.f_email := ""; AdminUserNew.f_phone := "";
              AdminUserNew.f_isSuperAdmin := false |} empty_membership).
  vm_compute. reflexivity.
Defined.

Lemma createProject_all_or_nothing_witness :
  ∃ row,
    AdminController.createProject sharp_project empty_membership
    = (Ok row, with_project row empty_membership)
    ∧ p_code row = "STRASSE" ∧ p_status row = "Ongoing" ∧ p_health row = "Good".
Proof.
  destruct (createProject_all_or_nothing sharp_project empty_membership)
    as [(msg & Hrun) | (row & Hrun & Hcode & _ & _ & _ & _ & _ & _ & Hstatus & Hhealth & _)];
    [vm_compute; repeat split | |].
  - vm_compute in Hrun. discriminate.
  - exists row. split; [exact Hrun |]. rewrite Hcode.
    split; [vm_compute; reflexivity |]. split; [by apply Hstatus | by apply Hhealth].
Defined.

Lemma createProject_keeps_codes_distinct_witness :
  distinct_projects (AdminService.createProject annex empty_membership).2.
Proof.
  apply (createProject_keeps_codes_distinct annex empty_membership).
  decide_by_evaluation.
Defined.

Lemma createProject_again_rejected_witness :
  ∃ row s',
    AdminController.createProject sharp_project empty_membership = (Ok row, s')
    ∧ ∃ msg,
        AdminController.createProject sharp_project_again s'
        = (Throw (BadRequestException msg), s').
Proof.
  eexists _, _. split; [vm_compute; reflexivity |].
  eapply (createProject_again_rejected sharp_project sharp_project_again empty_membership).
  - vm_compute. repeat split.
  - vm_compute. repeat split.
  - vm_compute. reflexivity.
  - vm_compute. reflexivity.
Defined.

Lemma assign_then_remove_restores_witness :
  ∃ s'',
    AdminController.removeAssignment "m3"
      (with_member (member "m3" "p1" "u2" "Architect" 3) pmc_u1)
    = (Ok (member "m3" "p1" "u2" "Architect" 3), s'')
    ∧ projectMembers s'' = projectMembers pmc_u1
    ∧ projects s'' = projects pmc_u1
    ∧ users s'' = users pmc_u1.
Proof.
  apply (assign_then_remove_restores
           {| AdminService.a_projectId := " p1"; AdminService.a_userId := "u2";
              AdminService.a_role := "Architect " |}
           pmc_u1 _ (member "m3" "p1" "u2" "Architect" 3)).
  - vm_compute. reflexivity.
  - discriminate.
  - vm_compute. reflexivity.
  - intros m Hin. cbn [projectMembers pmc_u1] in Hin. inspect_members Hin.
    discriminate.
Defined.

Lemma assign_then_reported_witness :
  ∃ resp,
    AdminController.getProjectRoles " p1"
      (with_member (member "m3" "p1" "u2" "Architect" 3) pmc_u1)
    = (Ok resp, with_member (member "m3" "p1" "u2" "Architect" 3) pmc_u1)
    ∧ AdminController.assignments resp !! "Architect" = Some (Some "u2").
Proof.
  apply (assign_then_reported
           {| AdminService.a_projectId := " p1"; AdminService.a_userId := "u2";
              AdminService.a_role := "Architect " |}
           pmc_u1 _ (member "m3" "p1" "u2" "Architect" 3)).
  - vm_compute. reflexivity.
  - intros (m & Hin & _ & Hr). cbn [projectMembers pmc_u1] in Hin.
    inspect_members Hin. vm_compute in Hr. discriminate.
  - vm_compute. discriminate.
Defined.

Lemma setProjectRoles_stays_in_project_witness :
  framed "p1" pmc_u1
    (AdminController.setProjectRoles "p1 " (Some {[ "PMC" := Some "u2" ]}) pmc_u1).2.
Proof.
  apply (setProjectRoles_stays_in_project "p1 " (Some {[ "PMC" := Some "u2" ]}) pmc_u1).
  - decide_by_evaluation.
  - repeat constructor.
Defined.

Lemma setProjectRoles_noop_when_matching_witness :
  plan "p1" {[ "PMC" := Some "u1"; "NotARole" := Some "u9" ]} pmc_u1 = []
  ∧ AdminController.setProjectRoles "p1"
      (Some {[ "PMC" := Some "u1"; "NotARole" := Some "u9" ]}) pmc_u1
    = (Ok true, pmc_u1).
Proof.
  apply (setProjectRoles_noop_when_matching "p1"
           {[ "PMC" := Some "u1"; "NotARole" := Some "u9" ]} pmc_u1).
  - vm_compute. discriminate.
  - vm_compute. reflexivity.
  - split; [decide_by_evaluation | repeat constructor; discriminate].
  - intros m Hin _. cbn [projectMembers pmc_u1] in Hin. inspect_members Hin.
    split; [decide_by_evaluation | vm_compute; reflexivity].
  - intros role u Hcat Hbody _. exists (member "m2" "p1" "u1" "PMC" 2).
    split; [by left |]. split; [reflexivity |].
    unfold AdminController.ROLE_CATALOG in Hcat. inspect_members Hcat;
      solve [reflexivity | vm_compute in Hbody; discriminate].
Defined.

Lemma setProjectRoles_round_trip_witness :
  ∃ s' resp,
    AdminController.setProjectRoles "p1"
      (Some {[ "PMC" := None; "Architect" := Some "u2" ]}) pmc_u1 = (Ok true, s')
    ∧ AdminController.getProjectRoles "p1" s' = (Ok resp, s')
    ∧ ∀ role, role ∈ AdminController.ROLE_CATALOG →
        AdminController.assignments resp !! role
        = Some (match ({[ "PMC" := None; "Architect" := Some "u2" ]}
                         : gmap string (option string)) !! role with
                | Some v => v
                | None => None
                end).
Proof.
  apply (setProjectRoles_round_trip "p1"
           {[ "PMC" := None; "Architect" := Some "u2" ]} pmc_u1).
  - vm_compute. discriminate.
  - exists (project "p1"). split; [by left | reflexivity].
  - vm_compute. reflexivity.
  - split; [decide_by_evaluation | repeat constructor; discriminate].
  - decide_by_evaluation.
  - repeat constructor.
  - intros m u Hin _ _ Hbody. cbn [projectMembers pmc_u1] in Hin. inspect_members Hin.
    vm_compute in Hbody. discriminate.
  - intros role u Hcat Hbody.
    unfold AdminController.ROLE_CATALOG in Hcat. inspect_members Hcat;
      vm_compute in Hbody; try discriminate.
    injection Hbody as <-. split; [discriminate |]. split; [vm_compute; reflexivity |].
    exists (user "u2" "Bala" 1). split; [| reflexivity].
    cbn [users pmc_u1]. repeat constructor.
Defined.

Lemma setProjectRoles_ignores_unknown_key_witness :
  AdminController.setProjectRoles "p1"
    (Some (<["NotARole" := Some "u9"]> {[ "PMC" := Some "u1" ]})) pmc_u1
  = AdminController.setProjectRoles "p1" (Some {[ "PMC" := Some "u1" ]}) pmc_u1.
Proof.
  apply (setProjectRoles_ignores_unknown_key "p1" "NotARole" (Some "u9")
           {[ "PMC" := Some "u1" ]} pmc_u1).
  - decide_by_evaluation.
  - discriminate.
Defined.

Lemma setProjectRoles_own_hasOwnProperty_witness :
  AdminController.setProjectRoles "p1"
    (Some {[ "PMC" := Some "u2"; "hasOwnProperty" := None ]}) pmc_u1
  = (Throw (TypeError "body.assignments.hasOwnProperty is not a function"), pmc_u1).
Proof.
  apply (setProjectRoles_own_hasOwnProperty "p1"
           {[ "PMC" := Some "u2"; "hasOwnProperty" := None ]} pmc_u1).
  - vm_compute. discriminate.
  - vm_compute. by eexists.
Defined.
